(** * Product Intelligence Engine of the marketplace AI service

    A shallow embedding of
    [ai-service/app/services/recommendation_service.py] and
    [ai-service/app/services/classification_service.py], of the
    endpoints that call them, and the properties the specification
    states about them.

    Reading conventions.
    - Python [int] is [Z]; a [limit] is a count and is a [nat].
    - A [DECIMAL(_,2)] column is the integer number of hundredths.
    - Python [float] is kept abstract behind the class [PyFloat]; the
      instance [binary64] is IEEE 754 double precision, the arithmetic
      the services run on.
    - Text is ASCII: [str.lower], [\w] and [\s] are modelled on the
      128 ASCII characters only.
    - A Python exception is the [Raise] outcome of the monad [exc].
    - A table is a finite map from primary key to row, so the primary
      key is unique by construction; a query without [ORDER BY] returns
      the rows in ascending order of the key.
    - A Python [dict] is an association list in insertion order; a
      Python [set] is a [gset].
    - The embedding model, the FAISS index search and the scikit-learn
      classifier are outside the repository: they are the fields of the
      class [External]. *)

From Stdlib Require Import ZArith Floats FloatLemmas Lia Ascii.
From stdpp Require Import gmap strings list sorting.

Set Warnings "-inexact-float,-clear-no-such-hyp".
Local Open Scope Z_scope.

(** ** Exceptions *)

Inductive pyerr :=
| IndexError          (* list index out of range *)
| TypeError           (* float(None) *)
| UnpicklingError     (* pickle.load on an unreadable file *)
| FaissReadError      (* faiss.read_index on an unreadable file *)
| ValueError          (* Pipeline.fit on texts that leave no vocabulary *)
| ModelError.         (* anything raised inside the classifier *)

Inductive exc (A : Type) :=
| Ok (a : A)
| Raise (e : pyerr).
Arguments Ok {A} a.
Arguments Raise {A} e.

#[global] Instance exc_ret : MRet exc := fun A a => Ok a.
#[global] Instance exc_bind : MBind exc := fun A B f m =>
  match m with
  | Ok a => f a
  | Raise e => Raise e
  end.

Fixpoint exc_mapM {A B} (f : A -> exc B) (l : list A) : exc (list B) :=
  match l with
  | [] => Ok []
  | x :: rest =>
      y ← f x;
      ys ← exc_mapM f rest;
      Ok (y :: ys)
  end.

(** ** Floats *)

Class PyFloat (F : Type) := {
  of_int : Z -> F;            (* float(n) for an int n *)
  of_decimal : Z -> F;        (* float(d) for a Decimal d of c hundredths *)
  fadd : F -> F -> F;
  fmul : F -> F -> F;
  fdiv : F -> F -> F;
  flt : F -> F -> bool;       (* a < b *)
  lit_0_7 : F;                (* the literal 0.7 *)
  lit_1_3 : F;                (* the literal 1.3 *)
  lit_0_0 : F;                (* the literal 0.0 *)
  lit_1_0 : F;                (* the literal 1.0 *)
}.

(** The correctly rounded double of an integer. *)
Definition float_of_Z (z : Z) : float :=
  SF2Prim (binary_normalize prec emax z 0 false).

(** IEEE 754 binary64 with round-to-nearest-even: Python's [float].
    A [Decimal] with two places converts to the double nearest to it,
    which is what the correctly rounded quotient by 100 gives. *)
#[global] Instance binary64 : PyFloat float := {
  of_int := float_of_Z;
  of_decimal c := PrimFloat.div (float_of_Z c) (float_of_Z 100);
  fadd := PrimFloat.add;
  fmul := PrimFloat.mul;
  fdiv := PrimFloat.div;
  flt := PrimFloat.ltb;
  lit_0_7 := 0.7%float;
  lit_1_3 := 1.3%float;
  lit_0_0 := 0%float;
  lit_1_0 := 1%float;
}.

(** ** Python built-ins *)

Section Builtins.
Context {A : Type}.

(** [not l] for a list. *)
Definition is_empty (l : list A) : bool :=
  match l with
  | [] => true
  | _ => false
  end.

(** [l[i]], with Python's negative indices. *)
Definition py_getitem (l : list A) (i : Z) : exc A :=
  let n := Z.of_nat (length l) in
  let j := if i <? 0 then i + n else i in
  if (j <? 0) || (n <=? j) then Raise IndexError
  else match l !! Z.to_nat j with
       | Some x => Ok x
       | None => Raise IndexError
       end.

(** [l[0] if l else None] *)
Definition first_or_none (l : option (list A)) : option A :=
  match l with
  | Some (x :: _) => Some x
  | _ => None
  end.

(** A stable sort into descending order of [key]: [sorted(l, key=key,
    reverse=True)], and [ORDER BY key DESC] with ties left in storage
    order. [gtb a b] is [a > b] on keys. *)
Context {K : Type} (gtb : K -> K -> bool) (key : A -> K).

Fixpoint insert_desc (x : A) (l : list A) : list A :=
  match l with
  | [] => [x]
  | y :: rest =>
      if gtb (key y) (key x) then y :: insert_desc x rest
      else x :: y :: rest
  end.

Definition sort_desc (l : list A) : list A := foldr insert_desc [] l.
End Builtins.

Section MinMax.
Context {F : Type} {num : PyFloat F}.

(** [max(a, b)]: the first argument unless the second is greater. *)
Definition py_max (a b : F) : F := if flt a b then b else a.
(** [min(a, b)]: the first argument unless the second is smaller. *)
Definition py_min (a b : F) : F := if flt b a then b else a.

(** [min(l)], [max(l)] and [sum(l)] of a non-empty list; [sum]
    starts from the int [0]. *)
Definition list_min (x : F) (rest : list F) : F :=
  fold_left (fun m y => if flt y m then y else m) rest x.
Definition list_max (x : F) (rest : list F) : F :=
  fold_left (fun m y => if flt m y then y else m) rest x.
Definition py_sum (l : list F) : F := fold_left fadd l (of_int 0).
End MinMax.

(** [collections.Counter] and [dict] keep their keys in first-insertion
    order. *)
Section Dict.
Context {K V : Type} `{EqDecision K}.

Fixpoint dict_get (k : K) (d : list (K * V)) : option V :=
  match d with
  | [] => None
  | (k', v) :: rest => if decide (k = k') then Some v else dict_get k rest
  end.

(** [d[k] = v] *)
Fixpoint dict_set (k : K) (v : V) (d : list (K * V)) : list (K * V) :=
  match d with
  | [] => [(k, v)]
  | (k', v') :: rest =>
      if decide (k = k') then (k, v) :: rest
      else (k', v') :: dict_set k v rest
  end.

(** [{k: v for k, v in pairs}] *)
Definition dict_of_pairs (pairs : list (K * V)) : list (K * V) :=
  fold_left (fun d kv => dict_set kv.1 kv.2 d) pairs [].

Definition dict_keys (d : list (K * V)) : list K := d.*1.
End Dict.

Section Counter.
Context {K : Type} `{EqDecision K}.

(** [c[k] += 1], a missing key counting as 0. *)
Definition counter_incr (k : K) (c : list (K * Z)) : list (K * Z) :=
  match dict_get k c with
  | Some n => dict_set k (n + 1) c
  | None => dict_set k 1 c
  end.

(** [Counter(items)] *)
Definition Counter (items : list K) : list (K * Z) :=
  fold_left (fun c k => counter_incr k c) items [].

(** [c.most_common(n)]: by descending count, equal counts in
    insertion order. *)
Definition most_common (n : nat) (c : list (K * Z)) : list (K * Z) :=
  take n (sort_desc Z.gtb snd c).
End Counter.

(** ** Strings *)

(** Strings are read as ASCII text. *)
Definition is_upper (c : ascii) : bool :=
  let n := nat_of_ascii c in (65 <=? n)%nat && (n <=? 90)%nat.
Definition is_lower (c : ascii) : bool :=
  let n := nat_of_ascii c in (97 <=? n)%nat && (n <=? 122)%nat.
Definition is_digit (c : ascii) : bool :=
  let n := nat_of_ascii c in (48 <=? n)%nat && (n <=? 57)%nat.
(** [\s]: tab, newline, vertical tab, form feed, carriage return, the
    separators 28 to 31 and the space. *)
Definition is_space (c : ascii) : bool :=
  let n := nat_of_ascii c in
  ((9 <=? n)%nat && (n <=? 13)%nat) || ((28 <=? n)%nat && (n <=? 32)%nat).
(** [\w]: letters, digits and the underscore. *)
Definition is_word (c : ascii) : bool :=
  is_upper c || is_lower c || is_digit c || (nat_of_ascii c =? 95)%nat.

Definition lower_char (c : ascii) : ascii :=
  if is_upper c then ascii_of_nat (nat_of_ascii c + 32) else c.

Fixpoint string_map (f : ascii -> ascii) (s : string) : string :=
  match s with
  | EmptyString => EmptyString
  | String c rest => String (f c) (string_map f rest)
  end.

(** [s.lower()] *)
Definition lower (s : string) : string := string_map lower_char s.

(** [re.sub(r'[^\w\s]', ' ', s)] *)
Definition strip_special (s : string) : string :=
  string_map (fun c => if is_word c || is_space c then c else " "%char) s.

(** [s.split()]: the maximal runs of non-whitespace characters.
    [cur] is the run being read, reversed. *)
Fixpoint split_go (s : string) (cur : list ascii) : list string :=
  let flush rest :=
    match cur with
    | [] => rest
    | _ => String.string_of_list_ascii (rev cur) :: rest
    end in
  match s with
  | EmptyString => flush []
  | String c rest =>
      if is_space c then flush (split_go rest [])
      else split_go rest (c :: cur)
  end.
Definition split (s : string) : list string := split_go s [].

(** [sep.join(l)] *)
Definition str_join (sep : string) (l : list string) : string :=
  String.concat sep l.

(** [a in b] for strings. *)
Definition str_contains (a b : string) : bool :=
  match String.index 0 a b with
  | Some _ => true
  | None => false
  end.

(** Truthiness of an optional string and of an optional list. *)
Definition str_truthy (s : option string) : bool :=
  match s with
  | Some (String _ _) => true
  | _ => false
  end.
Definition list_truthy {A} (l : option (list A)) : bool :=
  match l with
  | Some (_ :: _) => true
  | _ => false
  end.
(** Truthiness of an optional int: neither [None] nor [0]. *)
Definition int_truthy (n : option Z) : bool :=
  match n with
  | Some k => negb (k =? 0)
  | None => false
  end.

(** ** Data model *)

Inductive ProductStatus := draft | active | inactive | archived.
Inductive OrderStatus :=
  pending | paid | processing | shipped | delivered | cancelled | refunded.

#[global] Instance ProductStatus_eq_dec : EqDecision ProductStatus.
Proof. solve_decision. Defined.
#[global] Instance OrderStatus_eq_dec : EqDecision OrderStatus.
Proof. solve_decision. Defined.

(** What a [JSON] column holds. The ORM writes the attribute [None] as
    the JSON document [null], which is not the SQL [NULL] a row has
    when it was written without the attribute; both read back as
    [None]. *)
Inductive json (A : Type) :=
| SqlNull
| Json (value : option A).
Arguments SqlNull {A}.
Arguments Json {A} value.

#[global] Instance json_eq_dec {A} `{EqDecision A} : EqDecision (json A).
Proof. solve_decision. Defined.

(** The attribute as Python reads it. *)
Definition json_value {A} (c : json A) : option A :=
  match c with
  | SqlNull => None
  | Json value => value
  end.

(** [column.isnot(None)], that is [column IS NOT NULL]. *)
Definition is_not_null {A} (c : json A) : bool :=
  match c with
  | SqlNull => false
  | Json _ => true
  end.

Module Product.
(** Modelled from the spec: the ai-service's own [app.models] package
    is not among the source files. The row follows the spec's
    ProductRecord and the columns of [backend/app/models/product.py]
    that the two services read, with [None] allowed where the
    services test for it. The primary key [id] is the key of the
    table. *)
Record t := {
  title : string;
  description : option string;
  tags_column : json (list string);
  images : option (list string);
  category_id : option Z;
  price : option Z;          (* hundredths *)
  status : ProductStatus;
  rating : Z;                (* hundredths *)
  sales_count : Z;
  created_at : Z;            (* seconds *)
}.

(** [product.tags] *)
Definition tags (p : t) : option (list string) :=
  json_value (tags_column p).
End Product.

Module Category.
(** Modelled from the spec: as for [Product], after the columns of
    [backend/app/models/product.py] that the service reads. *)
Record t := {
  name : string;
  description : option string;
  is_active : option bool;
}.
End Category.

Module Order.
Record t := {
  buyer_id : Z;
  status : OrderStatus;
  created_at : Z;            (* seconds *)
}.
End Order.

Module OrderItem.
Record t := {
  order_id : Z;
  product_id : Z;
  quantity : Z;
}.
End OrderItem.

Record DB := {
  products : gmap Z Product.t;
  categories : gmap Z Category.t;
  orders : gmap Z Order.t;
  order_items : gmap Z OrderItem.t;
}.

(** The rows of a table, by ascending primary key. *)
Definition table_rows {V} (t : gmap Z V) : list (Z * V) :=
  sort_desc Z.ltb fst (map_to_list t).

(** [Order.status.in_(["paid", "processing", "shipped", "delivered"])] *)
Definition qualifying (s : OrderStatus) : bool :=
  match s with
  | paid | processing | shipped | delivered => true
  | _ => false
  end.

Definition is_active (p : Product.t) : bool :=
  bool_decide (Product.status p = active).

(** [Product.category_id == category_id] *)
Definition in_category (category_id : Z) (p : Product.t) : bool :=
  bool_decide (Product.category_id p = Some category_id).

(** [db.query(Product).filter(...).all()], as (id, row) pairs. *)
Definition query_products (db : DB) (cond : Product.t -> bool)
  : list (Z * Product.t) :=
  filter (fun r => cond r.2) (table_rows (products db)).

(** [db.query(Product).filter(Product.status == "active")] *)
Definition active_products (db : DB) : list (Z * Product.t) :=
  query_products db is_active.

(** The rows of [Product JOIN OrderItem JOIN Order] for one product:
    its order items, each with its order. *)
Definition sales_of (db : DB) (pid : Z) : list (OrderItem.t * Order.t) :=
  omap (fun r : Z * OrderItem.t =>
          if decide (OrderItem.product_id r.2 = pid)
          then o ← orders db !! OrderItem.order_id r.2; Some (r.2, o)
          else None)
       (table_rows (order_items db)).

(** The user's purchase history: [Product.id] over the join, for the
    orders of [user_id] in a qualifying status; one row per order item. *)
Definition purchased_products (db : DB) (user_id : Z) : list Z :=
  r ← table_rows (products db);
  s ← sales_of db r.1;
  if bool_decide (Order.buyer_id s.2 = user_id) && qualifying (Order.status s.2)
  then [r.1] else [].

(** ** What lies outside the repository *)

(** The sentence-transformers model, the FAISS flat inner-product index
    and the scikit-learn pipeline. Nothing is assumed of them here; a
    statement that needs a property of one says so. *)
Class External (F : Type) := {
  Vec : Type;
  (** [embedding_model.encode(texts)] yields one row per text. *)
  encode : string -> Vec;
  (** [faiss.normalize_L2], row by row. *)
  normalize_L2 : Vec -> Vec;
  (** [index.search(x, k)]: for the stored rows, the query and [k], the
      [k] pairs of [zip(scores[0], indices[0])]. *)
  search : list Vec -> Vec -> nat -> list (F * Z);
  classifier : Type;
  (** [Pipeline([...]).fit(texts, categories)], which raises when the
      texts leave the vectorizer no vocabulary, as texts of stop words
      only do. *)
  fit : list string -> list Z -> exc classifier;
  (** [classifier.predict([text])[0]] *)
  predict : classifier -> string -> exc Z;
  (** [classifier.predict_proba([text]).max()] *)
  predict_proba_max : classifier -> string -> exc F;
}.

(** A persisted file: absent, present but unreadable, or holding a
    value. *)
Inductive artifact (A : Type) :=
| Missing
| Corrupt
| Stored (a : A).
Arguments Missing {A}.
Arguments Corrupt {A}.
Arguments Stored {A} a.

(** [os.path.exists] *)
Definition exists_file {A} (f : artifact A) : bool :=
  match f with
  | Missing => false
  | _ => true
  end.

(** [pickle.load] and [faiss.read_index] of a file that exists. *)
Definition pickle_load {A} (f : artifact A) : exc A :=
  match f with
  | Stored a => Ok a
  | _ => Raise UnpicklingError
  end.
Definition faiss_read_index {A} (f : artifact A) : exc A :=
  match f with
  | Stored a => Ok a
  | _ => Raise FaissReadError
  end.

Module Recommendation.
Record t (F : Type) := {
  product_id : Z;
  title : string;
  price : F;
  image_url : option string;
  score : F;
  reason : string;
}.
Arguments product_id {F} _.
Arguments title {F} _.
Arguments price {F} _.
Arguments image_url {F} _.
Arguments score {F} _.
Arguments reason {F} _.
End Recommendation.

(** The [product_id]s of a list of recommendations, in order. *)
Definition rec_ids {F} (l : list (Recommendation.t F)) : list Z :=
  Recommendation.product_id <$> l.

(** [a > b] on the keys of a two-column [ORDER BY]. *)
Definition pair_gtb (a b : Z * Z) : bool :=
  (a.1 >? b.1) || ((a.1 =? b.1) && (a.2 >? b.2)).

(** ** recommendation_service.py *)

Section RecommendationService.
Context {F : Type} {num : PyFloat F} {ext : External F}.

Record RecommendationService := {
  product_embeddings : list (Z * Vec);   (* dict: product id -> row *)
  index : option (list Vec);             (* None, or the rows of the index *)
}.

(** The two files under [VECTOR_DB_PATH]. *)
Record VectorFiles := {
  vector_file : artifact (list (Z * Vec));   (* product_embeddings.pkl *)
  index_file : artifact (list Vec);          (* product_index.faiss *)
}.

(** [float(product.price)] *)
Definition float_of_price (price : option Z) : exc F :=
  match price with
  | Some c => Ok (of_decimal c)
  | None => Raise TypeError
  end.

(** The dict a strategy builds for one product row. *)
Definition recommendation (id : Z) (p : Product.t) (score : F)
    (reason : string) : exc (Recommendation.t F) :=
  price ← float_of_price (Product.price p);
  Ok {| Recommendation.product_id := id;
        Recommendation.title := Product.title p;
        Recommendation.price := price;
        Recommendation.image_url := first_or_none (Product.images p);
        Recommendation.score := score;
        Recommendation.reason := reason |}.

(** The text embedded for a product: title, description and tags. *)
Definition product_text (p : Product.t) : string :=
  let text := Product.title p in
  let text := if str_truthy (Product.description p)
              then text +:+ " " +:+ default "" (Product.description p)
              else text in
  if list_truthy (Product.tags p)
  then text +:+ " " +:+ str_join " " (default [] (Product.tags p))
  else text.

Definition _save_vector_db (self : RecommendationService)
    (fs : VectorFiles) : VectorFiles :=
  {| vector_file := Stored (product_embeddings self);
     index_file := match index self with
                   | Some idx => Stored idx
                   | None => index_file fs
                   end |}.

Definition _build_vector_db (self : RecommendationService) (db : DB)
    (fs : VectorFiles) : RecommendationService * VectorFiles :=
  let products := active_products db in
  if is_empty products
  then ({| product_embeddings := []; index := None |}, fs)
  else
    let product_texts := (fun r => product_text r.2) <$> products in
    let product_ids := fst <$> products in
    let embeddings := encode <$> product_texts in
    (* IndexFlatIP(dimension), normalize_L2(embeddings), index.add *)
    let embeddings := normalize_L2 <$> embeddings in
    let index := [] ++ embeddings in
    let self' :=
      {| product_embeddings := dict_of_pairs (zip product_ids embeddings);
         index := Some index |} in
    (self', _save_vector_db self' fs).

Definition _load_or_create_vector_db (self : RecommendationService)
    (db : DB) (fs : VectorFiles)
  : exc (RecommendationService * VectorFiles) :=
  if exists_file (vector_file fs) && exists_file (index_file fs) then
    embeddings ← pickle_load (vector_file fs);
    idx ← faiss_read_index (index_file fs);
    Ok ({| product_embeddings := embeddings; index := Some idx |}, fs)
  else Ok (_build_vector_db self db fs).

(** [RecommendationService(db)]: the object exists, and can serve a
    query, only when [__init__] returns. *)
Definition RecommendationService_init (db : DB) (fs : VectorFiles)
  : exc (RecommendationService * VectorFiles) :=
  _load_or_create_vector_db {| product_embeddings := []; index := None |}
    db fs.

Definition get_popular_products (db : DB) (limit : nat)
  : exc (list (Recommendation.t F)) :=
  let products :=
    take limit
      (sort_desc pair_gtb
         (fun r => (Product.sales_count r.2, Product.rating r.2))
         (active_products db)) in
  exc_mapM (fun r => recommendation r.1 r.2
                       (of_int (Product.sales_count r.2))
                       "Popular product") products.

Definition get_category_recommendations (db : DB) (category_id : Z)
    (limit : nat) : exc (list (Recommendation.t F)) :=
  let products :=
    take limit
      (sort_desc pair_gtb
         (fun r => (Product.rating r.2, Product.sales_count r.2))
         (query_products db
            (fun p => in_category category_id p && is_active p))) in
  exc_mapM (fun r => recommendation r.1 r.2
                       (of_decimal (Product.rating r.2))
                       "Top rated in category") products.

(** The body of the loop over [zip(scores[0], indices[0])]. *)
Fixpoint similar_loop (self : RecommendationService) (db : DB)
    (product_id : Z) (hits : list (F * Z))
  : exc (list (Recommendation.t F)) :=
  match hits with
  | [] => Ok []
  | (score, idx) :: rest =>
      if idx =? -1 then similar_loop self db product_id rest
      else
        let product_ids := dict_keys (product_embeddings self) in
        if idx <? Z.of_nat (length product_ids) then
          similar_product_id ← py_getitem product_ids idx;
          if similar_product_id =? product_id
          then similar_loop self db product_id rest
          else
            match products db !! similar_product_id with
            | Some product =>
                r ← recommendation similar_product_id product score
                      "Similar product";
                rs ← similar_loop self db product_id rest;
                Ok (r :: rs)
            | None => similar_loop self db product_id rest
            end
        else similar_loop self db product_id rest
  end.

Definition get_similar_products (self : RecommendationService) (db : DB)
    (product_id : Z) (limit : nat) : exc (list (Recommendation.t F)) :=
  match dict_get product_id (product_embeddings self), index self with
  | Some product_embedding, Some idx =>
      let hits := search idx product_embedding (limit + 1) in
      similar_products ← similar_loop self db product_id hits;
      Ok (take limit similar_products)
  | _, _ => Ok []
  end.

(** [for rec in recs: if rec['product_id'] not in seen: ...append(rec);
    seen.add(rec['product_id'])] *)
Fixpoint dedup_loop (seen : gset Z) (recs : list (Recommendation.t F))
  : list (Recommendation.t F) :=
  match recs with
  | [] => []
  | r :: rest =>
      if decide (Recommendation.product_id r ∈ seen)
      then dedup_loop seen rest
      else r :: dedup_loop ({[Recommendation.product_id r]} ∪ seen) rest
  end.

(** The loop over [purchased_ids] that gathers similar products. *)
Fixpoint gather_similar (self : RecommendationService) (db : DB)
    (purchased_ids : list Z) : exc (list (Recommendation.t F)) :=
  match purchased_ids with
  | [] => Ok []
  | product_id :: rest =>
      match dict_get product_id (product_embeddings self) with
      | Some _ =>
          similar ← get_similar_products self db product_id 5;
          more ← gather_similar self db rest;
          Ok (similar ++ more)
      | None => gather_similar self db rest
      end
  end.

Definition get_user_recommendations (self : RecommendationService)
    (db : DB) (user_id : Z) (limit : nat)
  : exc (list (Recommendation.t F)) :=
  let purchased_products := purchased_products db user_id in
  if is_empty purchased_products then get_popular_products db limit
  else
    let purchased_ids := purchased_products in
    similar_products ← gather_similar self db purchased_ids;
    let seen : gset Z := list_to_set purchased_ids in
    let unique_recommendations := dedup_loop seen similar_products in
    Ok (take limit unique_recommendations).

Definition seven_days : Z := 7 * 24 * 60 * 60.

(** One row of the grouped trending query: the product and
    [func.sum(OrderItem.quantity)] over its recent qualifying sales. *)
Definition recent_sales (db : DB) (week_ago : Z) (pid : Z) : list Z :=
  omap (fun s : OrderItem.t * Order.t =>
          if (week_ago <=? Order.created_at s.2)
             && qualifying (Order.status s.2)
          then Some (OrderItem.quantity s.1) else None)
       (sales_of db pid).

Definition get_trending_products (db : DB) (now : Z) (limit : nat)
    (category_id : option Z) : exc (list (Recommendation.t F)) :=
  let week_ago := now - seven_days in
  let cond p :=
    is_active p &&
    (if int_truthy category_id
     then bool_decide (Product.category_id p = category_id) else true) in
  let grouped :=
    omap (fun r : Z * Product.t =>
            let sales := recent_sales db week_ago r.1 in
            if is_empty sales then None
            else Some (r, foldr Z.add 0 sales))
         (query_products db cond) in
  let trending := take limit (sort_desc Z.gtb snd grouped) in
  exc_mapM (fun row : (Z * Product.t) * Z =>
              recommendation row.1.1 row.1.2 (of_int row.2)
                "Trending product") trending.

Definition get_new_arrivals (db : DB) (limit : nat)
    (category_id : option Z) : exc (list (Recommendation.t F)) :=
  let cond p :=
    is_active p &&
    (if int_truthy category_id
     then bool_decide (Product.category_id p = category_id) else true) in
  let products :=
    take limit
      (sort_desc Z.gtb (fun r => Product.created_at r.2)
         (query_products db cond)) in
  exc_mapM (fun r => recommendation r.1 r.2 lit_1_0 "New arrival")
    products.

Definition get_personalized_recommendations
    (self : RecommendationService) (db : DB) (user_id : Z) (limit : nat)
  : exc (list (Recommendation.t F)) :=
  user_recs ← get_user_recommendations self db user_id (limit / 2)%nat;
  popular_recs ← get_popular_products db (limit / 2)%nat;
  let all_recs := user_recs ++ popular_recs in
  let unique_recs := dedup_loop ∅ all_recs in
  Ok (take limit unique_recs).
End RecommendationService.

(** ** classification_service.py *)

(** [try: step; step; ... except: pass] over the local variables [s]:
    the steps run in order, and the first one that raises ends the
    block with the variables as they then stand. *)
Fixpoint try_pass {S : Type} (steps : list (S -> exc S)) (s : S) : S :=
  match steps with
  | [] => s
  | step :: rest =>
      match step s with
      | Ok s' => try_pass rest s'
      | Raise _ => s
      end
  end.

Definition stop_words : list string :=
  ["the"; "a"; "an"; "and"; "or"; "but"; "in"; "on"; "at"; "to"; "for";
   "of"; "with"; "by"; "is"; "are"; "was"; "were"; "be"; "been"; "being";
   "have"; "has"; "had"; "do"; "does"; "did"; "will"; "would"; "could";
   "should"; "may"; "might"; "must"; "can"; "this"; "that"; "these";
   "those"; "i"; "you"; "he"; "she"; "it"; "we"; "they"].

(** [for k in keywords: if k not in seen: unique.append(k); seen.add(k)] *)
Fixpoint unique_loop (seen : gset string) (keywords : list string)
  : list string :=
  match keywords with
  | [] => []
  | k :: rest =>
      if decide (k ∈ seen) then unique_loop seen rest
      else k :: unique_loop ({[k]} ∪ seen) rest
  end.

Definition _extract_keywords (text : string) : list string :=
  let text := strip_special (lower text) in
  let words := split text in
  let keywords :=
    filter (fun word => (2 <? String.length word)%nat
                        && negb (bool_decide (word ∈ stop_words))) words in
  unique_loop ∅ keywords.

Module PriceRange.
Record t (F : Type) := {
  min_price : F;
  max_price : F;
  average_price : F;
}.
Arguments min_price {F} _.
Arguments max_price {F} _.
Arguments average_price {F} _.
End PriceRange.

Module TagsResult.
Record t := {
  tags : list string;
  confidence_scores : list (string * Z);
}.
End TagsResult.

Module ClassificationResult.
Record t (F : Type) := {
  category_id : Z;
  category_name : string;
  confidence : F;
  suggested_tags : list string;
  suggested_price_range : option (PriceRange.t F);
}.
Arguments category_id {F} _.
Arguments category_name {F} _.
Arguments confidence {F} _.
Arguments suggested_tags {F} _.
Arguments suggested_price_range {F} _.
End ClassificationResult.

(** The tag model: the common tags and, per training text, their
    presence vector. *)
Module TagModel.
Record t := {
  tags : list string;
  features : list (list Z);
}.
End TagModel.

Section ClassificationService.
Context {F : Type} {num : PyFloat F} {ext : External F}.

Record ClassificationService := {
  category_classifier : option classifier;
  tag_classifier : option TagModel.t;
}.

(** The two files under [VECTOR_DB_PATH]. *)
Record ModelFiles := {
  category_model_file : artifact classifier;  (* category_classifier.pkl *)
  tag_model_file : artifact TagModel.t;       (* tag_classifier.pkl *)
}.

Definition _save_classification_models (self : ClassificationService)
    (fs : ModelFiles) : ModelFiles :=
  {| category_model_file := match category_classifier self with
                            | Some c => Stored c
                            | None => category_model_file fs
                            end;
     tag_model_file := match tag_classifier self with
                       | Some t => Stored t
                       | None => tag_model_file fs
                       end |}.

(** The training text of a product: title and description. *)
Definition training_text (p : Product.t) : string :=
  if str_truthy (Product.description p)
  then Product.title p +:+ " " +:+ default "" (Product.description p)
  else Product.title p.

(** The error of [fit] leaves the method, and with it [__init__],
    before the tag model is made and before anything is saved. *)
Definition _build_classification_models (self : ClassificationService)
    (db : DB) (fs : ModelFiles)
  : exc (ClassificationService * ModelFiles) :=
  let products :=
    query_products db
      (fun p => is_active p && bool_decide (Product.category_id p ≠ None)) in
  if is_empty products then Ok (self, fs)
  else
    let texts := (fun r => training_text r.2) <$> products in
    let categories := omap (fun r => Product.category_id r.2) products in
    let tags_list :=
      omap (fun r => if list_truthy (Product.tags r.2)
                     then Product.tags r.2 else None) products in
    category_classifier' ←
      (if negb (is_empty texts) && negb (is_empty categories)
       then c ← fit texts categories; Ok (Some c)
       else Ok (category_classifier self));
    let tag_classifier' :=
      if negb (is_empty texts) && negb (is_empty tags_list) then
        let all_tags := concat tags_list in
        let tag_counter := Counter all_tags in
        let common_tags := fst <$> most_common 50 tag_counter in
        let tag_features :=
          (fun text =>
             (fun tag => if str_contains (lower tag) (lower text)
                         then 1 else 0) <$> common_tags) <$> texts in
        Some {| TagModel.tags := common_tags;
                TagModel.features := tag_features |}
      else tag_classifier self in
    let self' := {| category_classifier := category_classifier';
                    tag_classifier := tag_classifier' |} in
    Ok (self', _save_classification_models self' fs).

Definition _load_classification_models (db : DB) (fs : ModelFiles)
  : exc (ClassificationService * ModelFiles) :=
  category_classifier ←
    (if exists_file (category_model_file fs)
     then c ← pickle_load (category_model_file fs); Ok (Some c)
     else Ok None);
  tag_classifier ←
    (if exists_file (tag_model_file fs)
     then t ← pickle_load (tag_model_file fs); Ok (Some t)
     else Ok None);
  let self := {| category_classifier := category_classifier;
                 tag_classifier := tag_classifier |} in
  if negb (bool_decide (is_Some category_classifier))
     || negb (bool_decide (is_Some tag_classifier))
  then _build_classification_models self db fs
  else Ok (self, fs).

Definition _get_category_tags (db : DB) (category_id : Z) : list string :=
  let products :=
    take 100
      (query_products db
         (fun p => in_category category_id p
                   && is_not_null (Product.tags_column p))) in
  let all_tags :=
    concat ((fun r => if list_truthy (Product.tags r.2)
                      then default [] (Product.tags r.2) else [])
              <$> products) in
  let tag_counter := Counter all_tags in
  fst <$> most_common 10 tag_counter.

Definition generate_tags (db : DB) (title : string)
    (description : option string) (category_id : option Z)
  : TagsResult.t :=
  let text := if str_truthy description
              then title +:+ " " +:+ default "" description else title in
  let keywords := _extract_keywords text in
  let category_tags :=
    if int_truthy category_id
    then _get_category_tags db (default 0 category_id) else [] in
  let all_tags := keywords ++ category_tags in
  let tag_scores := Counter all_tags in
  let sorted_tags := sort_desc Z.gtb snd tag_scores in
  {| TagsResult.tags := fst <$> take 10 sorted_tags;
     TagsResult.confidence_scores := dict_of_pairs (take 10 sorted_tags) |}.

(** The prices the estimator reads: [float(product.price)] over the
    active, priced products of the category. *)
Definition category_prices (db : DB) (category_id : Z) : list F :=
  omap (fun r : Z * Product.t => of_decimal <$> Product.price r.2)
    (query_products db
       (fun p => in_category category_id p && is_active p
                 && bool_decide (Product.price p ≠ None))).

Definition _suggest_price_range (db : DB) (title : string)
    (description : option string) (category_id : option Z)
  : option (PriceRange.t F) :=
  if negb (int_truthy category_id) then None
  else
    match category_prices db (default 0 category_id) with
    | [] => None
    | p :: rest =>
        let min_price := list_min p rest in
        let max_price := list_max p rest in
        let avg_price :=
          fdiv (py_sum (p :: rest))
               (of_int (Z.of_nat (length (p :: rest)))) in
        let suggested_min := py_max min_price (fmul avg_price lit_0_7) in
        let suggested_max := py_min max_price (fmul avg_price lit_1_3) in
        Some {| PriceRange.min_price := suggested_min;
                PriceRange.max_price := suggested_max;
                PriceRange.average_price := avg_price |}
    end.

Definition classify_product (self : ClassificationService) (db : DB)
    (title : string) (description : option string)
    (images : option (list string)) : ClassificationResult.t F :=
  let text := if str_truthy description
              then title +:+ " " +:+ default "" description else title in
  let '(predicted_category_id, confidence) :=
    match category_classifier self with
    | Some clf =>
        try_pass
          [ (fun s : option Z * F => c ← predict clf text; Ok (Some c, s.2));
            (fun s => p ← predict_proba_max clf text; Ok (s.1, p)) ]
          (None, lit_0_0)
    | None => (None, lit_0_0)
    end in
  let category_name :=
    if int_truthy predicted_category_id then
      match categories db !! default 0 predicted_category_id with
      | Some category => Category.name category
      | None => "Unknown"
      end
    else "Unknown" in
  let tags_result :=
    generate_tags db title description predicted_category_id in
  let price_range :=
    _suggest_price_range db title description predicted_category_id in
  {| ClassificationResult.category_id :=
       if int_truthy predicted_category_id
       then default 0 predicted_category_id else 1;
     ClassificationResult.category_name := category_name;
     ClassificationResult.confidence := confidence;
     ClassificationResult.suggested_tags := TagsResult.tags tags_result;
     ClassificationResult.suggested_price_range := price_range |}.
End ClassificationService.

Module CategorySuggestion.
Record t := {
  id : Z;
  name : string;
  description : option string;
  product_count : Z;
}.
End CategorySuggestion.

Section CategorySuggestions.
(** [Category.name.contains(query)]: the [LIKE] test as the database
    evaluates it, with its collation and its wildcards. *)
Variable name_contains : string -> string -> bool.

Definition get_category_suggestions (db : DB) (query : option string)
    (limit : nat) : list CategorySuggestion.t :=
  let cond (c : Category.t) :=
    (if str_truthy query
     then name_contains (Category.name c) (default "" query) else true)
    && bool_decide (Category.is_active c = Some true) in
  let categories :=
    take limit (filter (fun r => cond r.2) (table_rows (categories db))) in
  (fun r : Z * Category.t =>
     {| CategorySuggestion.id := r.1;
        CategorySuggestion.name := Category.name r.2;
        CategorySuggestion.description := Category.description r.2;
        CategorySuggestion.product_count := 0 |}) <$> categories.
End CategorySuggestions.

(** ** api/v1/endpoints *)

(** What a handler answers: the body with status 200, or the
    [HTTPException] with status 500 whose detail is the handler's
    message followed by [str(e)]. *)
Inductive response (A : Type) :=
| Http200 (body : A)
| Http500 (message : string) (e : pyerr).
Arguments Http200 {A} body.
Arguments Http500 {A} message e.

(** [try: return body except Exception as e: raise HTTPException(500,
    detail=f"{message}: {str(e)}")] *)
Definition http_guard {A} (message : string) (body : exc A) : response A :=
  match body with
  | Ok a => Http200 a
  | Raise e => Http500 message e
  end.

Module RecommendationRequest.
Record t := {
  user_id : option Z;
  product_id : option Z;
  category_id : option Z;
  limit : nat;
}.
End RecommendationRequest.

Module ClassificationRequest.
Record t := {
  title : string;
  description : option string;
  images : option (list string);
}.
End ClassificationRequest.

Module AutoTagRequest.
Record t := {
  title : string;
  description : option string;
  category_id : option Z;
}.
End AutoTagRequest.

(** endpoints/recommendations.py. A handler constructs the service,
    which loads or builds the index, and then asks it; the files are
    what the construction leaves behind. *)
Module recommendations.
Section Handlers.
Context {F : Type} {num : PyFloat F} {ext : External F}.

(** The body of every handler: [service = RecommendationService(db)]
    and the call of one method, inside the [try]. *)
Definition with_service {A} (message : string) (db : DB)
    (fs : VectorFiles) (call : RecommendationService -> exc A)
  : response A * VectorFiles :=
  match RecommendationService_init db fs with
  | Ok (recommendation_service, fs') =>
      (http_guard message (call recommendation_service), fs')
  | Raise e => (Http500 message e, fs)
  end.

Definition get_product_recommendations (request : RecommendationRequest.t)
    (db : DB) (fs : VectorFiles)
  : response (list (Recommendation.t F)) * VectorFiles :=
  with_service "Failed to get recommendations" db fs
    (fun recommendation_service =>
       if int_truthy (RecommendationRequest.user_id request) then
         get_user_recommendations recommendation_service db
           (default 0 (RecommendationRequest.user_id request))
           (RecommendationRequest.limit request)
       else if int_truthy (RecommendationRequest.product_id request) then
         get_similar_products recommendation_service db
           (default 0 (RecommendationRequest.product_id request))
           (RecommendationRequest.limit request)
       else if int_truthy (RecommendationRequest.category_id request) then
         get_category_recommendations db
           (default 0 (RecommendationRequest.category_id request))
           (RecommendationRequest.limit request)
       else get_popular_products db (RecommendationRequest.limit request)).

Definition get_trending_products (now : Z) (limit : nat)
    (category_id : option Z) (db : DB) (fs : VectorFiles)
  : response (list (Recommendation.t F)) * VectorFiles :=
  with_service "Failed to get trending products" db fs
    (fun _ => get_trending_products db now limit category_id).

Definition get_new_arrivals (limit : nat) (category_id : option Z)
    (db : DB) (fs : VectorFiles)
  : response (list (Recommendation.t F)) * VectorFiles :=
  with_service "Failed to get new arrivals" db fs
    (fun _ => get_new_arrivals db limit category_id).

Definition get_personalized_recommendations (user_id : Z) (limit : nat)
    (db : DB) (fs : VectorFiles)
  : response (list (Recommendation.t F)) * VectorFiles :=
  with_service "Failed to get personalized recommendations" db fs
    (fun recommendation_service =>
       get_personalized_recommendations recommendation_service db
         user_id limit).
End Handlers.
End recommendations.

(** endpoints/classification.py *)
Module classification.
Section Handlers.
Context {F : Type} {num : PyFloat F} {ext : External F}.

(** [classification_service = ClassificationService(db)] and the rest
    of the [try] block, which raises nothing more. *)
Definition with_service {A} (message : string) (db : DB)
    (fs : ModelFiles) (call : ClassificationService -> A)
  : response A * ModelFiles :=
  match _load_classification_models db fs with
  | Ok (classification_service, fs') =>
      (Http200 (call classification_service), fs')
  | Raise e => (Http500 message e, fs)
  end.

(** The bulk handler, with its loop: one result appended per
    product. (It stands before the single handler, which takes over
    the name [classify_product].) *)
Definition bulk_classify_products (products : list ClassificationRequest.t)
    (db : DB) (fs : ModelFiles)
  : response (list (ClassificationResult.t F)) * ModelFiles :=
  with_service "Failed to bulk classify products" db fs
    (fun classification_service =>
       fold_left
         (fun results product =>
            results ++
            [classify_product classification_service db
               (ClassificationRequest.title product)
               (ClassificationRequest.description product)
               (ClassificationRequest.images product)])
         products []).

Definition classify_product (request : ClassificationRequest.t) (db : DB)
    (fs : ModelFiles) : response (ClassificationResult.t F) * ModelFiles :=
  with_service "Failed to classify product" db fs
    (fun classification_service =>
       classify_product classification_service db
         (ClassificationRequest.title request)
         (ClassificationRequest.description request)
         (ClassificationRequest.images request)).

Definition auto_tag_product (request : AutoTagRequest.t) (db : DB)
    (fs : ModelFiles) : response TagsResult.t * ModelFiles :=
  with_service "Failed to generate tags" db fs
    (fun _ =>
       generate_tags db (AutoTagRequest.title request)
         (AutoTagRequest.description request)
         (AutoTagRequest.category_id request)).

(** [GET /categories], its body the list under the one key
    [suggestions]; [name_contains] is the database's [LIKE]. *)
Definition get_category_suggestions
    (name_contains : string -> string -> bool) (query : option string)
    (limit : nat) (db : DB) (fs : ModelFiles)
  : response (list CategorySuggestion.t) * ModelFiles :=
  with_service "Failed to get category suggestions" db fs
    (fun _ => get_category_suggestions name_contains db query limit).
End Handlers.
End classification.

(** ** Stand-ins for the examples *)

(** An external world to run the examples in: a text embeds to its
    length, normalisation changes nothing, the index reports the
    stored positions in storage order with score 1.0 and pads with the
    label -1 up to [k], a classifier is given by what its two calls
    return, and fitting raises when no text is longer than two
    characters. *)
Definition example_external (F : Type) {num : PyFloat F} : External F :=
  {| Vec := nat;
     encode := String.length;
     normalize_L2 := id;
     search rows q k :=
       take k (((fun i => (lit_1_0, Z.of_nat i)) <$> seq 0 (length rows))
               ++ replicate k (lit_0_0, -1));
     classifier := exc Z * exc F;
     fit texts _ :=
       if forallb (fun text => (String.length text <=? 2)%nat) texts
       then Raise ValueError else Ok (Ok 1, Ok lit_1_0);
     predict c _ := c.1;
     predict_proba_max c _ := c.2 |}.

(** The classifier whose two calls return [label] and [confidence]. *)
Definition example_classifier {F : Type} {num : PyFloat F}
    (label : exc Z) (confidence : exc F)
  : @classifier F (example_external F) :=
  (label, confidence).

(** An active category without a description. *)
Definition example_category (name : string) : Category.t :=
  {| Category.name := name;
     Category.description := None;
     Category.is_active := Some true |}.

(** A product as the ORM writes it: with the tags it is given, or
    with the JSON document [null] when it is given none. *)
Definition example_product (title : string) (tags : option (list string))
    (category_id : Z) (price : option Z) (status : ProductStatus)
    (sales_count : Z) : Product.t :=
  {| Product.title := title;
     Product.description := None;
     Product.tags_column := Json tags;
     Product.images := None;
     Product.category_id := Some category_id;
     Product.price := price;
     Product.status := status;
     Product.rating := 450;
     Product.sales_count := sales_count;
     Product.created_at := 0 |}.

Definition example_db (rows : list (Z * Product.t)) : DB :=
  {| products := list_to_map rows;
     categories := {[ 1 := example_category "Bags" ]};
     orders := ∅;
     order_items := ∅ |}.

(** ** The vocabulary of the statements *)

Section Vocabulary.
Context {F : Type} {num : PyFloat F} {ext : External F}.
Implicit Types (self : RecommendationService) (db : DB).

(** The score and the product of a recommendation. *)
Definition scored (r : Recommendation.t F) : F * Z :=
  (Recommendation.score r, Recommendation.product_id r).

(** The product a hit of the index stands for, through the position
    of its label among the keys of the embedding map; the label -1
    and a label past the last key stand for none. *)
Definition index_reported self (hit : F * Z) : option (F * Z) :=
  let product_ids := dict_keys (product_embeddings self) in
  if hit.2 =? -1 then None
  else if hit.2 <? Z.of_nat (length product_ids) then
    match py_getitem product_ids hit.2 with
    | Ok pid => Some (hit.1, pid)
    | Raise _ => None
    end
  else None.

(** The neighbours of [product_id] among the hits, in the order the
    index reports them: the products other than [product_id] that the
    catalog still holds. *)
Definition expected_neighbours self db (product_id : Z)
    (hits : list (F * Z)) : list (F * Z) :=
  filter (fun x => x.2 ≠ product_id ∧ is_Some (products db !! x.2))
    (omap (index_reported self) hits).

(** First writer wins: an entry of the output is the first entry of
    the merged list with its product id, and so carries the reason of
    the strategy that wrote it first. *)
Definition first_writer_wins (merged out : list (Recommendation.t F))
  : Prop :=
  ∀ r, r ∈ out →
       ∃ before after,
         merged = before ++ r :: after
         ∧ Recommendation.product_id r ∉ rec_ids before.

(** What FAISS promises of the hits of one search: a label is a
    storage position, or -1 where fewer than [k] rows are stored, and
    no position is reported twice. *)
Definition labels_well_formed (hits : list (F * Z)) : Prop :=
  Forall (fun i => -1 ≤ i) hits.*2
  ∧ NoDup (filter (fun i => i ≠ -1) hits.*2).

(** Every product of the catalog has a price. *)
Definition all_priced db : Prop :=
  ∀ id p, products db !! id = Some p → Product.price p ≠ None.

(** The rows the index stores; none when there is no index. *)
Definition index_rows self : list Vec := default [] (index self).

(** What a model file yields when it is read. *)
Definition loaded {A} (f : artifact A) : option A :=
  match f with
  | Stored a => Some a
  | _ => None
  end.

End Vocabulary.


(** *** The order of the doubles *)


(** The place of a double in the order of the doubles: the sign class
    first, then the exponent and the mantissa, both counted downwards
    below zero. *)
Definition fkey (x : spec_float) : Z * Z * Z :=
  match x with
  | S754_infinity true => (-2, 0, 0)
  | S754_finite true m e => (-1, - e, - Zpos m)
  | S754_zero _ => (0, 0, 0)
  | S754_nan => (0, 0, 0)
  | S754_finite false m e => (1, e, Zpos m)
  | S754_infinity false => (2, 0, 0)
  end.

Definition key (x : float) : Z * Z * Z := fkey (Prim2SF x).




(** ** Catalogs for the examples *)

(** The scenario of the specification: category 1 holds active
    products priced 10, 20, 30, 40 and 50; beside them a draft, a
    product of another category and an active product without a
    price. *)
Definition scenario_db : DB :=
  example_db
    [(1, example_product "A" None 1 (Some 1000) active 5);
     (2, example_product "B" None 1 (Some 2000) active 7);
     (3, example_product "C" None 1 (Some 3000) active 7);
     (4, example_product "D" None 1 (Some 4000) active 1);
     (5, example_product "E" None 1 (Some 5000) active 0);
     (6, example_product "F" None 1 (Some 99900) draft 0);
     (7, example_product "G" None 2 (Some 100) active 0);
     (8, example_product "H" None 1 None active 0)].




(** A hundred products without tags, their tags column holding
    [tags], and after them a product tagged [late]. *)
Definition crowded_db (tags : json (list string)) : DB :=
  example_db
    (((fun i : nat =>
         (Z.of_nat i,
          {| Product.title := "Plain";
             Product.description := None;
             Product.tags_column := tags;
             Product.images := None;
             Product.category_id := Some 1;
             Product.price := Some 100;
             Product.status := active;
             Product.rating := 0;
             Product.sales_count := 0;
             Product.created_at := 0 |})) <$> seq 1 100)
     ++ [(101, example_product "Tagged" (Some ["late"]) 1 (Some 100)
                 active 0)]).


(** A catalog whose only product is a draft. *)
Definition draft_only_db : DB :=
  example_db
    [(1, example_product "Prototype" (Some ["secret"; "launch"]) 1
           (Some 1000) draft 0)].

(** A shop of four products; user 7 bought product 2, user 8 bought a
    product that was withdrawn since, user 9 bought nothing that was
    paid. *)
Definition shop_db : DB :=
  {| products :=
       list_to_map
         [(1, example_product "Tote" (Some ["bag"]) 1 (Some 1000) active 5);
          (2, example_product "Satchel" (Some ["bag"]) 1 (Some 2000) active 7);
          (3, example_product "Wallet" None 1 (Some 3000) active 7);
          (4, example_product "Belt" None 2 (Some 4000) active 1);
          (5, example_product "Strap" None 2 (Some 500) archived 0)];
     categories := {[ 1 := example_category "Bags" ]};
     orders :=
       list_to_map
         [(1, {| Order.buyer_id := 7; Order.status := paid;
                 Order.created_at := 100 |});
          (2, {| Order.buyer_id := 8; Order.status := delivered;
                 Order.created_at := 200 |});
          (3, {| Order.buyer_id := 9; Order.status := cancelled;
                 Order.created_at := 300 |})];
     order_items :=
       list_to_map
         [(1, {| OrderItem.order_id := 1; OrderItem.product_id := 2;
                 OrderItem.quantity := 1 |});
          (2, {| OrderItem.order_id := 2; OrderItem.product_id := 5;
                 OrderItem.quantity := 2 |});
          (3, {| OrderItem.order_id := 3; OrderItem.product_id := 1;
                 OrderItem.quantity := 1 |})] |}.

Definition no_files : VectorFiles (ext := example_external float) :=
  {| vector_file := Missing; index_file := Missing |}.

(** The service as it stands after building its index over the shop. *)
Definition shop_service : RecommendationService :=
  (_build_vector_db (ext := example_external float)
     {| product_embeddings := []; index := None |} shop_db no_files).1.

(** Three products sold in paid orders: product 1 three days before
    [now], product 2 ten days before, product 3 exactly seven days
    before. *)
Definition trending_now : Z := 2000000.
Definition trending_day : Z := 24 * 60 * 60.
Definition trending_db : DB :=
  {| products :=
       list_to_map
         [(1, example_product "Tote" None 1 (Some 1000) active 0);
          (2, example_product "Satchel" None 1 (Some 2000) active 0);
          (3, example_product "Wallet" None 1 (Some 3000) active 0)];
     categories := ∅;
     orders :=
       list_to_map
         [(1, {| Order.buyer_id := 7; Order.status := paid;
                 Order.created_at := trending_now - 3 * trending_day |});
          (2, {| Order.buyer_id := 7; Order.status := paid;
                 Order.created_at := trending_now - 10 * trending_day |});
          (3, {| Order.buyer_id := 8; Order.status := shipped;
                 Order.created_at := trending_now - 7 * trending_day |})];
     order_items :=
       list_to_map
         [(1, {| OrderItem.order_id := 1; OrderItem.product_id := 1;
                 OrderItem.quantity := 4 |});
          (2, {| OrderItem.order_id := 2; OrderItem.product_id := 2;
                 OrderItem.quantity := 9 |});
          (3, {| OrderItem.order_id := 3; OrderItem.product_id := 3;
                 OrderItem.quantity := 1 |});
          (4, {| OrderItem.order_id := 1; OrderItem.product_id := 1;
                 OrderItem.quantity := 2 |})] |}.

(** Model files and index files for the examples: none written yet,
    and both there but unreadable. *)
Definition no_models : ModelFiles (ext := example_external float) :=
  {| category_model_file := Missing; tag_model_file := Missing |}.
Definition unreadable_models : ModelFiles (ext := example_external float) :=
  {| category_model_file := Corrupt; tag_model_file := Corrupt |}.
Definition unreadable_files : VectorFiles (ext := example_external float) :=
  {| vector_file := Corrupt; index_file := Corrupt |}.

(** A service that has loaded no model. *)
Definition no_classifier
  : ClassificationService (ext := example_external float) :=
  {| category_classifier := None; tag_classifier := None |}.

(** ** The vocabulary of the further properties *)

Section RankVocabulary.
Context {A K : Type} (gtb : K -> K -> bool) (key : A -> K).

(** No entry of the list has a key greater than an entry before it. *)
Definition ranked (l : list A) : Prop :=
  ∀ i j x y, (i < j)%nat → l !! i = Some x → l !! j = Some y →
             gtb (key y) (key x) = false.
End RankVocabulary.

Section EntryVocabulary.
Context {F : Type} {num : PyFloat F}.

(** [r] is the entry a strategy writes for the product [id] with the
    row [p], the score [score] and the reason [why]. *)
Definition entry_of (id : Z) (p : Product.t) (score : F) (why : string)
    (r : Recommendation.t F) : Prop :=
  Recommendation.product_id r = id
  ∧ Recommendation.title r = Product.title p
  ∧ (∃ c, Product.price p = Some c ∧ Recommendation.price r = of_decimal c)
  ∧ Recommendation.image_url r = first_or_none (Product.images p)
  ∧ Recommendation.score r = score
  ∧ Recommendation.reason r = why.
End EntryVocabulary.

(** How often [k] occurs in [items]. *)
Definition occurrences {K} `{EqDecision K} (k : K) (items : list K) : Z :=
  Z.of_nat (length (filter (fun x => x = k) items)).

(** The characters of a string. *)
Definition chars (s : string) : list ascii := String.list_ascii_of_string s.

(** The quantity of the product sold in qualifying orders of the seven
    days up to [now]. *)
Definition recent_quantity (db : DB) (now : Z) (product_id : Z) : Z :=
  foldr Z.add 0 (recent_sales db (now - seven_days) product_id).

(** The product has an order item in a qualifying order created at or
    after [now] minus seven days. *)
Definition sold_recently (db : DB) (now : Z) (product_id : Z) : Prop :=
  ∃ k item order,
    order_items db !! k = Some item
    ∧ OrderItem.product_id item = product_id
    ∧ orders db !! OrderItem.order_id item = Some order
    ∧ now - seven_days ≤ Order.created_at order
    ∧ qualifying (Order.status order) = true.

(** The rows the tag query of a category reads: the first hundred
    products of the category, by ascending id and whatever their
    status, whose tags column is not the SQL [NULL]. A product that
    was written without tags holds the JSON [null] there and is among
    them. *)
Definition sampled_for_tags (db : DB) (category_id : Z)
  : list (Z * Product.t) :=
  take 100
    (filter (fun r : Z * Product.t =>
               Product.category_id r.2 = Some category_id
               ∧ Product.tags_column r.2 ≠ SqlNull)
            (table_rows (products db))).

(** The tags of those rows, one occurrence per listing. *)
Definition category_tag_pool (db : DB) (category_id : Z) : list string :=
  concat ((fun r : Z * Product.t => default [] (Product.tags r.2))
            <$> sampled_for_tags db category_id).

(** The text the classifier and the tagger read. *)
Definition listing_text (title : string) (description : option string)
  : string :=
  match description with
  | Some (String c rest) => title +:+ " " +:+ String c rest
  | _ => title
  end.

(** The characters a keyword is made of: lower-case letters, digits
    and the underscore. *)
Definition keyword_char (c : ascii) : bool :=
  is_lower c || is_digit c || (nat_of_ascii c =? 95)%nat.

(** The tags of the category a request names: none when it names no
    category, or the id 0. *)
Definition tags_of_category (db : DB) (category_id : option Z)
  : list string :=
  match category_id with
  | Some c => if decide (c = 0) then [] else _get_category_tags db c
  | None => []
  end.

(** The products the classifiers are trained on: the active products
    with a category, by ascending id. *)
Definition training_products (db : DB) : list (Z * Product.t) :=
  filter (fun r : Z * Product.t =>
            Product.status r.2 = active ∧ is_Some (Product.category_id r.2))
         (table_rows (products db)).

(** The product carries at least one tag. *)
Definition tagged (p : Product.t) : Prop :=
  ∃ t ts, Product.tags p = Some (t :: ts).

(** What the category classifier is fitted on: per training product
    its title and description, and its category. *)
Definition training_texts (db : DB) : list string :=
  (fun r : Z * Product.t =>
     listing_text (Product.title r.2) (Product.description r.2))
    <$> training_products db.
Definition training_labels (db : DB) : list Z :=
  omap (fun r : Z * Product.t => Product.category_id r.2)
       (training_products db).

(** The tag lists of the training products that carry a tag. *)
Definition training_tags (db : DB) : list (list string) :=
  omap (fun r : Z * Product.t =>
          match Product.tags r.2 with
          | Some (t :: ts) => Some (t :: ts)
          | _ => None
          end) (training_products db).

(** * Properties *)

(** ** Lists, sorting and tables *)

Section SortFacts.
Context {A K : Type} (gtb : K -> K -> bool) (key : A -> K).

Lemma insert_desc_perm x l : insert_desc gtb key x l ≡ₚ x :: l.
Proof.
  induction l as [|y l IH]; simpl; [done|].
  destruct (gtb (key y) (key x)); [|done].
  rewrite IH. apply Permutation_swap.
Qed.

Lemma sort_desc_perm l : sort_desc gtb key l ≡ₚ l.
Proof.
  induction l as [|x l IH]; simpl; [done|].
  unfold sort_desc in *. simpl. rewrite insert_desc_perm. by rewrite IH.
Qed.
End SortFacts.

Lemma table_rows_perm {V} (t : gmap Z V) : table_rows t ≡ₚ map_to_list t.
Proof. apply sort_desc_perm. Qed.

Lemma NoDup_fst_table_rows {V} (t : gmap Z V) : NoDup (table_rows t).*1.
Proof. rewrite table_rows_perm. apply NoDup_fst_map_to_list. Qed.

Lemma elem_of_table_rows {V} (t : gmap Z V) k v :
  (k, v) ∈ table_rows t ↔ t !! k = Some v.
Proof. rewrite table_rows_perm. apply elem_of_map_to_list. Qed.

(** A query returns each product once. *)
Lemma NoDup_fst_query_products db cond : NoDup (query_products db cond).*1.
Proof.
  unfold query_products.
  apply sublist_NoDup with (table_rows (products db)).*1;
    [apply NoDup_fst_table_rows|].
  apply fmap_sublist, sublist_filter.
Qed.

Lemma elem_of_query_products db cond id p :
  (id, p) ∈ query_products db cond ↔
  products db !! id = Some p ∧ cond p = true.
Proof.
  unfold query_products. rewrite list_elem_of_filter, elem_of_table_rows.
  simpl. rewrite Is_true_true. tauto.
Qed.

Lemma NoDup_take_fmap {A B} (f : A -> B) (l : list A) n :
  NoDup (f <$> l) → NoDup (f <$> take n l).
Proof.
  intros Hl. eapply sublist_NoDup; [exact Hl|].
  apply fmap_sublist, sublist_take.
Qed.

(** ** Sequencing with exceptions *)

Lemma exc_bind_Ok {A B} (m : exc A) (f : A -> exc B) b :
  m ≫= f = Ok b ↔ ∃ a, m = Ok a ∧ f a = Ok b.
Proof.
  destruct m as [a|e]; simpl.
  - split; [eauto|]. by intros (a' & [= <-] & ?).
  - split; [done|]. by intros (a' & ? & ?).
Qed.

Lemma exc_bind_Raise {A B} (m : exc A) (f : A -> exc B) e :
  m ≫= f = Raise e → m = Raise e ∨ ∃ a, m = Ok a ∧ f a = Raise e.
Proof.
  destruct m as [a|e']; simpl; intros H.
  - right. by exists a.
  - left. by injection H as ->.
Qed.

Lemma exc_mapM_Ok {A B} (f : A -> exc B) l r :
  exc_mapM f l = Ok r → Forall2 (fun x y => f x = Ok y) l r.
Proof.
  revert r. induction l as [|x l IH]; simpl; intros r Hr.
  - injection Hr as <-. constructor.
  - apply exc_bind_Ok in Hr as (y & Hy & Hr).
    apply exc_bind_Ok in Hr as (ys & Hys & [= <-]).
    constructor; auto.
Qed.

Ltac exc_inv H :=
  repeat match type of H with
         | _ ≫= _ = Ok _ =>
             let x := fresh "x" in
             let Hx := fresh "Hx" in
             apply exc_bind_Ok in H as (x & Hx & H)
         | Ok _ = Ok _ => injection H as H
         end.

(** ** Similar products *)

Section SimilarFacts.
Context {F : Type} {num : PyFloat F} {ext : External F}.
Implicit Types (self : RecommendationService) (db : DB).

Lemma recommendation_Ok id p s why (r : Recommendation.t F) :
  recommendation id p s why = Ok r →
  Recommendation.product_id r = id ∧ Recommendation.score r = s
  ∧ Recommendation.reason r = why.
Proof.
  unfold recommendation. intros Hr. exc_inv Hr. by subst r.
Qed.

Lemma similar_loop_spec self db product_id hits r :
  similar_loop self db product_id hits = Ok r →
  scored <$> r = expected_neighbours self db product_id hits.
Proof.
  unfold expected_neighbours.
  revert r. induction hits as [|[score idx] hits IH]; intros r Hr.
  { injection Hr as <-. done. }
  simpl in Hr. simpl omap. unfold index_reported at 1. simpl.
  destruct (idx =? -1); [by apply IH|].
  destruct (idx <? _); [|by apply IH].
  apply exc_bind_Ok in Hr as (pid & -> & Hr).
  rewrite filter_cons. simpl.
  destruct (Z.eqb_spec pid product_id) as [Heq|Hne]; [subst pid|].
  { rewrite decide_False by (intros [? _]; done). by apply IH. }
  destruct (products db !! pid) as [p|] eqn:Hp.
  - apply exc_bind_Ok in Hr as (r0 & Hr0 & Hr).
    apply exc_bind_Ok in Hr as (rs & Hrs & [= <-]).
    apply recommendation_Ok in Hr0 as (Hid & Hs & _).
    rewrite decide_True by (split; [done|by eexists]).
    rewrite fmap_cons, (IH _ Hrs). unfold scored at 1.
    by rewrite Hid, Hs.
  - rewrite decide_False by (intros [_ [? ?]]; congruence). by apply IH.
Qed.

Lemma expected_neighbours_exclude self db product_id hits n :
  product_id ∉ (take n (expected_neighbours self db product_id hits)).*2.
Proof.
  intros Hin. apply list_elem_of_fmap in Hin as ([s pid] & -> & Hin).
  apply elem_of_sublist with (l2 := expected_neighbours self db pid hits)
    in Hin; [|apply sublist_take].
  apply list_elem_of_filter in Hin as [[Hne _] _]. by apply Hne.
Qed.

Lemma rec_ids_scored (r : list (Recommendation.t F)) :
  rec_ids r = (scored <$> r).*2.
Proof. unfold rec_ids. rewrite <- list_fmap_compose. done. Qed.

(** What the query returns, read off the hits of the index. *)
Lemma get_similar_products_scored self db product_id limit r :
  get_similar_products self db product_id limit = Ok r →
  match dict_get product_id (product_embeddings self), index self with
  | Some embedding, Some rows =>
      scored <$> r =
      take limit
        (expected_neighbours self db product_id
           (search rows embedding (limit + 1)))
  | _, _ => r = []
  end.
Proof.
  unfold get_similar_products. intros Hr.
  destruct (dict_get product_id _) as [emb|];
    [destruct (index self) as [rows|]|]; try by injection Hr as <-.
  apply exc_bind_Ok in Hr as (rs & Hrs & [= <-]).
  apply similar_loop_spec in Hrs. by rewrite fmap_take, Hrs.
Qed.

(** C1. A query for the products similar to [product_id] asks the
    index for [limit + 1] neighbours, keeps, in the order the index
    reports them, the ones that are not [product_id] itself, and
    returns at most [limit] of them: [product_id] is never among the
    results. *)
Theorem get_similar_products_excludes_query self db product_id limit r :
  get_similar_products self db product_id limit = Ok r →
  (product_id ∉ rec_ids r)
  ∧ (length r ≤ limit)%nat
  ∧ (match dict_get product_id (product_embeddings self), index self with
     | Some embedding, Some rows =>
         scored <$> r =
         take limit
           (expected_neighbours self db product_id
              (search rows embedding (limit + 1)))
     | _, _ => r = []
     end).
Proof.
  intros Hr. pose proof (get_similar_products_scored _ _ _ _ _ Hr) as Hs.
  split_and!; [| |done].
  - destruct (dict_get product_id _) as [emb|];
      [destruct (index self) as [rows|]|];
      try (subst r; apply not_elem_of_nil).
    rewrite rec_ids_scored, Hs. apply expected_neighbours_exclude.
  - destruct (dict_get product_id _) as [emb|];
      [destruct (index self) as [rows|]|];
      try (subst r; simpl; lia).
    rewrite <- (length_fmap scored), Hs, length_take. lia.
Qed.

(** C3. A user with no qualifying purchase gets exactly what
    [get_popular_products] returns for the same limit. *)
Theorem get_user_recommendations_without_history self db user_id limit :
  purchased_products db user_id = [] →
  get_user_recommendations self db user_id limit =
  get_popular_products db limit.
Proof. unfold get_user_recommendations. by intros ->. Qed.

Lemma gather_similar_unknown self db purchased_ids :
  (∀ pid, pid ∈ purchased_ids →
          dict_get pid (product_embeddings self) = None) →
  gather_similar self db purchased_ids = Ok [].
Proof.
  induction purchased_ids as [|pid l IH]; intros Hl; simpl; [done|].
  rewrite (Hl pid) by left. apply IH. intros q Hq. apply Hl. by right.
Qed.

(** C10. A user whose purchases are all unknown to the embedding map
    gets the empty list: no exception, and no fallback to the popular
    products. *)
Theorem get_user_recommendations_unknown_purchases self db user_id limit :
  purchased_products db user_id ≠ [] →
  (∀ pid, pid ∈ purchased_products db user_id →
          dict_get pid (product_embeddings self) = None) →
  get_user_recommendations self db user_id limit = Ok [].
Proof.
  intros Hne Hunknown. unfold get_user_recommendations.
  destruct (purchased_products db user_id) as [|pid l] eqn:Hp; [done|].
  simpl is_empty. cbv iota.
  rewrite gather_similar_unknown by done. simpl. by rewrite take_nil.
Qed.
End SimilarFacts.

(** ** No product is recommended twice *)

Section UniqueFacts.
Context {F : Type} {num : PyFloat F} {ext : External F}.
Implicit Types (self : RecommendationService) (db : DB).
Implicit Types (r : Recommendation.t F) (recs : list (Recommendation.t F)).

Lemma exc_mapM_rec_ids {A} (f : A -> exc (Recommendation.t F))
    (g : A -> Z) (l : list A) recs :
  (∀ x r, f x = Ok r → Recommendation.product_id r = g x) →
  exc_mapM f l = Ok recs → rec_ids recs = g <$> l.
Proof.
  intros Hf Hl. apply exc_mapM_Ok in Hl.
  induction Hl as [|x r l recs Hx _ IH]; [done|].
  unfold rec_ids in *. csimpl. by rewrite IH, (Hf _ _ Hx).
Qed.

Lemma NoDup_sorted_prefix {A K} (gtb : K -> K -> bool) (key : A -> K)
    (g : A -> Z) (l : list A) n :
  NoDup (g <$> l) → NoDup (g <$> take n (sort_desc gtb key l)).
Proof.
  intros Hl. apply NoDup_take_fmap. by rewrite sort_desc_perm.
Qed.

Lemma get_popular_products_NoDup db limit recs :
  get_popular_products db limit = Ok recs → NoDup (rec_ids recs).
Proof.
  unfold get_popular_products. intros Hr.
  apply exc_mapM_rec_ids with (g := fst) in Hr as ->.
  - apply NoDup_sorted_prefix, NoDup_fst_query_products.
  - intros x r Hx. by apply recommendation_Ok in Hx as (? & _).
Qed.

Lemma get_category_recommendations_NoDup db category_id limit recs :
  get_category_recommendations db category_id limit = Ok recs →
  NoDup (rec_ids recs).
Proof.
  unfold get_category_recommendations. intros Hr.
  apply exc_mapM_rec_ids with (g := fst) in Hr as ->.
  - apply NoDup_sorted_prefix, NoDup_fst_query_products.
  - intros x r Hx. by apply recommendation_Ok in Hx as (? & _).
Qed.

Lemma get_new_arrivals_NoDup db limit category_id recs :
  get_new_arrivals db limit category_id = Ok recs → NoDup (rec_ids recs).
Proof.
  unfold get_new_arrivals. intros Hr.
  apply exc_mapM_rec_ids with (g := fst) in Hr as ->.
  - apply NoDup_sorted_prefix, NoDup_fst_query_products.
  - intros x r Hx. by apply recommendation_Ok in Hx as (? & _).
Qed.

(** Grouping by product keeps one row per product. *)
Lemma omap_group_sublist {A B} (g : A -> option (A * B)) (l : list A) :
  (∀ x y, g x = Some y → y.1 = x) → (omap g l).*1 `sublist_of` l.
Proof.
  intros Hg. induction l as [|x l IH]; csimpl; [done|].
  destruct (g x) as [y|] eqn:Hy; csimpl.
  - rewrite (Hg _ _ Hy). by apply sublist_skip.
  - by apply sublist_cons.
Qed.

Lemma get_trending_products_NoDup db now limit category_id recs :
  get_trending_products db now limit category_id = Ok recs →
  NoDup (rec_ids recs).
Proof.
  unfold get_trending_products. intros Hr.
  apply exc_mapM_rec_ids with (g := fun row => row.1.1) in Hr as ->.
  - apply NoDup_sorted_prefix.
    assert (∀ l : list ((Z * Product.t) * Z),
              (fun row => row.1.1) <$> l = (l.*1).*1) as ->.
    { intros l. by rewrite <- list_fmap_compose. }
    eapply sublist_NoDup; [apply NoDup_fst_query_products|].
    apply fmap_sublist, omap_group_sublist.
    intros x y. destruct (is_empty _); [done|]. by intros [= <-].
  - intros x r Hx. by apply recommendation_Ok in Hx as (? & _).
Qed.

(** The deduplication loop. *)
Lemma dedup_loop_ids seen recs x :
  x ∈ rec_ids (dedup_loop seen recs) → (x ∉ seen) ∧ x ∈ rec_ids recs.
Proof.
  revert seen. induction recs as [|r recs IH]; intros seen; csimpl.
  { by intros ?%elem_of_nil. }
  unfold rec_ids in *. destruct (decide (_ ∈ seen)) as [Hin|Hout]; csimpl.
  - intros [? ?]%IH. split; [done|by right].
  - intros [->|Hx]%elem_of_cons; [by split; [|left]|].
    apply IH in Hx as [Hx ?]. split; [set_solver|by right].
Qed.

Lemma dedup_loop_NoDup seen recs : NoDup (rec_ids (dedup_loop seen recs)).
Proof.
  revert seen. induction recs as [|r recs IH]; intros seen; csimpl.
  { constructor. }
  destruct (decide (_ ∈ seen)); [apply IH|].
  unfold rec_ids in *. csimpl. constructor; [|apply IH].
  intros [Hx _]%dedup_loop_ids. set_solver.
Qed.

Lemma dedup_loop_complete seen recs x :
  x ∈ rec_ids recs → x ∉ seen → x ∈ rec_ids (dedup_loop seen recs).
Proof.
  revert seen. induction recs as [|r recs IH]; intros seen; csimpl.
  { by intros ?%elem_of_nil. }
  unfold rec_ids in *. csimpl.
  destruct (decide (_ ∈ seen)) as [Hin|Hout]; csimpl.
  - intros [->|Hx]%elem_of_cons Hseen; [done|by apply IH].
  - intros [->|Hx]%elem_of_cons Hseen; [by left|].
    destruct (decide (x = Recommendation.product_id r)) as [->|Hne];
      [by left|].
    right. apply IH; [done|set_solver].
Qed.

Lemma dedup_loop_first seen recs :
  first_writer_wins recs (dedup_loop seen recs).
Proof.
  revert seen. induction recs as [|r0 recs IH]; intros seen r; csimpl.
  { by intros ?%elem_of_nil. }
  assert (∀ seen', r ∈ dedup_loop seen' recs →
            Recommendation.product_id r ∉ seen' →
            (Recommendation.product_id r ≠ Recommendation.product_id r0) →
            ∃ before after, r0 :: recs = before ++ r :: after
              ∧ Recommendation.product_id r ∉ rec_ids before) as Hrest.
  { intros seen' Hr _ Hne. destruct (IH seen' r Hr) as (b & a & -> & Hb).
    exists (r0 :: b), a. split; [done|].
    unfold rec_ids in *. csimpl. set_solver. }
  destruct (decide (_ ∈ seen)) as [Hin|Hout].
  - intros Hr. apply (Hrest seen Hr).
    + apply (dedup_loop_ids seen recs). unfold rec_ids.
      by apply list_elem_of_fmap_2.
    + intros Heq. apply (dedup_loop_ids seen recs
                           (Recommendation.product_id r)); [|by rewrite Heq].
      unfold rec_ids. by apply list_elem_of_fmap_2.
  - intros [->|Hr]%elem_of_cons.
    + exists [], recs. split; [done|]. apply not_elem_of_nil.
    + pose proof (dedup_loop_ids _ recs (Recommendation.product_id r)
                    (list_elem_of_fmap_2 _ _ _ Hr)) as [Hnot _].
      apply (Hrest _ Hr Hnot). set_solver.
Qed.

Lemma first_writer_wins_take (merged out : list (Recommendation.t F)) n :
  first_writer_wins merged out → first_writer_wins merged (take n out).
Proof.
  intros Hw r Hr. apply Hw.
  eapply elem_of_sublist; [exact Hr|apply sublist_take].
Qed.
End UniqueFacts.

Section UniqueSimilar.
Context {F : Type} {num : PyFloat F} {ext : External F}.
Implicit Types (self : RecommendationService) (db : DB).

Lemma index_reported_Some self s i x :
  -1 ≤ i → index_reported self (s, i) = Some x →
  (i ≠ -1) ∧ x.1 = s
  ∧ dict_keys (product_embeddings self) !! Z.to_nat i = Some x.2.
Proof.
  unfold index_reported, py_getitem. simpl. intros Hi.
  destruct (Z.eqb_spec i (-1)) as [|Hne]; [done|].
  destruct (i <? _); [|done].
  assert ((i <? 0) = false) as -> by lia.
  destruct (_ || _); [done|].
  destruct (_ !! _) as [pid|]; [|done].
  by intros [= <-].
Qed.

Lemma index_reported_NoDup self hits :
  NoDup (dict_keys (product_embeddings self)) →
  labels_well_formed hits →
  NoDup (omap (index_reported self) hits).*2.
Proof.
  intros Hkeys [Hrange Hdistinct].
  induction hits as [|[s i] hits IH]; csimpl; [constructor|].
  apply Forall_cons in Hrange as [Hi Hrange]. simpl in Hi.
  csimpl in Hdistinct.
  destruct (index_reported self (s, i)) as [x|] eqn:Hx; csimpl.
  - apply index_reported_Some in Hx as (Hne & _ & Hlook); [|done].
    rewrite filter_cons, decide_True in Hdistinct by done.
    apply NoDup_cons in Hdistinct as [Hfresh Hdistinct].
    constructor; [|by apply IH].
    intros ([s' pid] & Heq & Hin)%list_elem_of_fmap. simpl in Heq.
    apply list_elem_of_omap in Hin as ([s'' j] & Hj & Hy).
    assert (-1 ≤ j) as Hj1.
    { rewrite Forall_forall in Hrange. apply Hrange.
      apply list_elem_of_fmap. by exists (s'', j). }
    apply index_reported_Some in Hy as (Hjne & _ & Hlook'); [|done].
    simpl in Hlook'. rewrite <- Heq in Hlook'.
    pose proof (NoDup_lookup _ _ _ _ Hkeys Hlook Hlook') as Hij.
    apply Hfresh. apply list_elem_of_filter. split; [done|].
    apply list_elem_of_fmap. exists (s'', j). split; [simpl; lia|done].
  - apply IH; [done|].
    rewrite filter_cons in Hdistinct.
    destruct (decide (i ≠ -1)); [by apply NoDup_cons in Hdistinct as [_ ?]|done].
Qed.

Lemma get_similar_products_NoDup self db product_id limit recs :
  NoDup (dict_keys (product_embeddings self)) →
  (∀ embedding rows,
      dict_get product_id (product_embeddings self) = Some embedding →
      index self = Some rows →
      labels_well_formed (search rows embedding (limit + 1))) →
  get_similar_products self db product_id limit = Ok recs →
  NoDup (rec_ids recs).
Proof.
  intros Hkeys Hfaiss Hr.
  apply get_similar_products_scored in Hr.
  destruct (dict_get _ _) as [emb|]; [destruct (index self) as [rows|]|];
    try (subst recs; constructor).
  rewrite rec_ids_scored, Hr.
  eapply sublist_NoDup; [apply (index_reported_NoDup self); [done|]|].
  - by apply (Hfaiss emb rows).
  - apply fmap_sublist. etrans; [apply sublist_take|apply sublist_filter].
Qed.

Lemma get_user_recommendations_NoDup self db user_id limit recs :
  get_user_recommendations self db user_id limit = Ok recs →
  NoDup (rec_ids recs).
Proof.
  unfold get_user_recommendations.
  destruct (is_empty _); [apply get_popular_products_NoDup|].
  intros Hr. apply exc_bind_Ok in Hr as (similar & _ & [= <-]).
  apply NoDup_take_fmap, dedup_loop_NoDup.
Qed.

Lemma get_personalized_recommendations_NoDup self db user_id limit recs :
  get_personalized_recommendations self db user_id limit = Ok recs →
  NoDup (rec_ids recs).
Proof.
  unfold get_personalized_recommendations. intros Hr.
  apply exc_bind_Ok in Hr as (user_recs & _ & Hr).
  apply exc_bind_Ok in Hr as (popular_recs & _ & [= <-]).
  apply NoDup_take_fmap, dedup_loop_NoDup.
Qed.

(** C4. No strategy returns two entries with the same product id:
    similar items (FAISS reporting no position twice), user history,
    category top, popular, trending, new arrivals and personalized.
    Where lists are merged, an entry of the result is the first entry
    of the merged list with its product id, and keeps its reason. *)
Theorem recommendations_are_unique self db :
  (∀ product_id limit recs,
      NoDup (dict_keys (product_embeddings self)) →
      (∀ embedding rows,
          dict_get product_id (product_embeddings self) = Some embedding →
          index self = Some rows →
          labels_well_formed (search rows embedding (limit + 1))) →
      get_similar_products self db product_id limit = Ok recs →
      NoDup (rec_ids recs))
  ∧ (∀ user_id limit recs,
        get_user_recommendations self db user_id limit = Ok recs →
        NoDup (rec_ids recs))
  ∧ (∀ category_id limit recs,
        get_category_recommendations db category_id limit = Ok recs →
        NoDup (rec_ids recs))
  ∧ (∀ limit recs,
        get_popular_products db limit = Ok recs → NoDup (rec_ids recs))
  ∧ (∀ now limit category_id recs,
        get_trending_products db now limit category_id = Ok recs →
        NoDup (rec_ids recs))
  ∧ (∀ limit category_id recs,
        get_new_arrivals db limit category_id = Ok recs →
        NoDup (rec_ids recs))
  ∧ (∀ user_id limit recs,
        get_personalized_recommendations self db user_id limit = Ok recs →
        NoDup (rec_ids recs)
        ∧ ∃ user_recs popular_recs,
            get_user_recommendations self db user_id (limit / 2)%nat
            = Ok user_recs
            ∧ get_popular_products db (limit / 2)%nat = Ok popular_recs
            ∧ first_writer_wins (user_recs ++ popular_recs) recs)
  ∧ (∀ user_id limit recs,
        purchased_products db user_id ≠ [] →
        get_user_recommendations self db user_id limit = Ok recs →
        ∃ similar,
          gather_similar self db (purchased_products db user_id)
          = Ok similar
          ∧ first_writer_wins similar recs
          ∧ ∀ x, x ∈ rec_ids recs → x ∉ purchased_products db user_id).
Proof.
  split_and!.
  - intros *. apply get_similar_products_NoDup.
  - intros *. apply get_user_recommendations_NoDup.
  - intros *. apply get_category_recommendations_NoDup.
  - intros *. apply get_popular_products_NoDup.
  - intros *. apply get_trending_products_NoDup.
  - intros *. apply get_new_arrivals_NoDup.
  - intros user_id limit recs Hr. split.
    { by apply get_personalized_recommendations_NoDup in Hr. }
    unfold get_personalized_recommendations in Hr.
    apply exc_bind_Ok in Hr as (user_recs & Hu & Hr).
    apply exc_bind_Ok in Hr as (popular_recs & Hp & [= <-]).
    exists user_recs, popular_recs. split_and!; [done..|].
    apply first_writer_wins_take, dedup_loop_first.
  - intros user_id limit recs Hne Hr.
    unfold get_user_recommendations in Hr.
    destruct (purchased_products db user_id) as [|pid l] eqn:Hp; [done|].
    simpl is_empty in Hr. cbv iota in Hr.
    apply exc_bind_Ok in Hr as (similar & Hs & [= <-]).
    exists similar. split_and!; [done| |].
    + apply first_writer_wins_take, dedup_loop_first.
    + intros x Hx Hin.
      assert (x ∈ rec_ids (dedup_loop (list_to_set (pid :: l)) similar))
        as Hx'.
      { eapply elem_of_sublist; [exact Hx|].
        apply fmap_sublist, sublist_take. }
      apply dedup_loop_ids in Hx' as [Hx' _]. apply Hx'.
      by apply elem_of_list_to_set.
Qed.
End UniqueSimilar.

(** ** The strategies return *)

Section Returns.
Context {F : Type} {num : PyFloat F} {ext : External F}.
Implicit Types (self : RecommendationService) (db : DB).

Lemma recommendation_returns id p s why :
  Product.price p ≠ None → ∃ r, recommendation id p s why = Ok r.
Proof.
  unfold recommendation. destruct (Product.price p); [|done].
  intros _. by eexists.
Qed.

Lemma exc_mapM_returns {A B} (f : A -> exc B) (l : list A) :
  Forall (fun x => ∃ y, f x = Ok y) l → ∃ r, exc_mapM f l = Ok r.
Proof.
  induction 1 as [|x l [y Hy] _ [r Hr]]; simpl; [by eexists|].
  rewrite Hy. simpl. rewrite Hr. by eexists.
Qed.

Lemma get_popular_products_returns db limit :
  all_priced db → ∃ recs, get_popular_products db limit = Ok recs.
Proof.
  intros Hpriced. unfold get_popular_products.
  apply exc_mapM_returns, Forall_forall. intros [id p] Hin.
  apply recommendation_returns, (Hpriced id).
  apply (elem_of_query_products db is_active).
  rewrite <- (sort_desc_perm pair_gtb
                (fun r => (Product.sales_count r.2, Product.rating r.2))).
  eapply elem_of_sublist; [exact Hin|apply sublist_take].
Qed.

Lemma py_getitem_in_range {A} (l : list A) (i : Z) :
  0 ≤ i < Z.of_nat (length l) → ∃ x, py_getitem l i = Ok x.
Proof.
  intros Hi. unfold py_getitem.
  assert ((i <? 0) = false) as -> by lia.
  assert (((i <? 0) || (Z.of_nat (length l) <=? i)) = false) as -> by lia.
  destruct (lookup_lt_is_Some_2 l (Z.to_nat i)) as [x ->]; [lia|].
  by eexists.
Qed.

Lemma similar_loop_returns self db product_id hits :
  all_priced db →
  Forall (fun i => -1 ≤ i) hits.*2 →
  ∃ recs, similar_loop self db product_id hits = Ok recs.
Proof.
  intros Hpriced. induction hits as [|[s i] hits IH]; csimpl.
  { by eexists. }
  intros [Hi Hrest]%Forall_cons. destruct (IH Hrest) as [recs Hrecs].
  destruct (Z.eqb_spec i (-1)); [by eexists|].
  destruct (Z.ltb_spec i (Z.of_nat (length (dict_keys
                                              (product_embeddings self)))));
    [|by eexists].
  destruct (py_getitem_in_range (dict_keys (product_embeddings self)) i)
    as [pid ->]; [lia|]. simpl.
  destruct (pid =? product_id); [by eexists|].
  destruct (products db !! pid) as [p|] eqn:Hp; [|by eexists].
  destruct (recommendation_returns pid p s "Similar product")
    as [r ->]; [by eapply Hpriced|].
  simpl. rewrite Hrecs. by eexists.
Qed.

(** With every product priced and the labels of the search no less
    than -1, the query for similar products returns a list. *)
Lemma get_similar_products_returns self db product_id limit :
  all_priced db →
  (∀ embedding rows,
      dict_get product_id (product_embeddings self) = Some embedding →
      index self = Some rows →
      Forall (fun i => -1 ≤ i) (search rows embedding (limit + 1)).*2) →
  ∃ recs, get_similar_products self db product_id limit = Ok recs.
Proof.
  intros Hpriced Hfaiss. unfold get_similar_products.
  destruct (dict_get _ _) as [emb|]; [|by eexists].
  destruct (index self) as [rows|]; [|by eexists].
  destruct (similar_loop_returns self db product_id
              (search rows emb (limit + 1)) Hpriced) as [recs ->].
  - by apply Hfaiss.
  - by eexists.
Qed.
End Returns.

(** ** Building and loading the vector index *)

Section DictFacts.
Context {K V : Type} `{EqDecision K}.

Lemma dict_set_fresh (k : K) (v : V) d :
  k ∉ d.*1 → dict_set k v d = d ++ [(k, v)].
Proof.
  induction d as [|[k' v'] d IH]; csimpl; [done|].
  intros [Hne Hd]%not_elem_of_cons.
  rewrite decide_False by done. by rewrite IH.
Qed.

Lemma dict_of_pairs_app (pairs acc : list (K * V)) :
  NoDup (acc ++ pairs).*1 →
  fold_left (fun d kv => dict_set kv.1 kv.2 d) pairs acc = acc ++ pairs.
Proof.
  revert acc. induction pairs as [|[k v] pairs IH]; intros acc Hnd; simpl.
  { by rewrite app_nil_r. }
  rewrite dict_set_fresh.
  - rewrite IH; rewrite <- app_assoc; done.
  - rewrite fmap_app in Hnd. apply NoDup_app in Hnd as (_ & Hdisj & _).
    intros Hin. apply (Hdisj _ Hin). csimpl. by left.
Qed.

(** A comprehension over distinct keys keeps the pairs as they come. *)
Lemma dict_of_pairs_NoDup (pairs : list (K * V)) :
  NoDup pairs.*1 → dict_of_pairs pairs = pairs.
Proof. intros Hnd. unfold dict_of_pairs. by rewrite dict_of_pairs_app. Qed.

Lemma dict_get_lookup (d : list (K * V)) i k v :
  NoDup d.*1 → d !! i = Some (k, v) → dict_get k d = Some v.
Proof.
  revert i. induction d as [|[k' v'] d IH]; intros i Hnd Hi; [done|].
  csimpl in Hnd. apply NoDup_cons in Hnd as [Hfresh Hnd]. simpl.
  destruct i as [|i]; simpl in Hi.
  - injection Hi as -> ->. by rewrite decide_True.
  - rewrite decide_False; [by eapply IH|].
    intros ->. apply Hfresh. apply list_elem_of_fmap. exists (k', v).
    split; [done|]. by eapply list_elem_of_lookup_2.
Qed.
End DictFacts.

Lemma zip_fmap_same {A B C} (f : A -> B) (g : A -> C) (l : list A) :
  zip (f <$> l) (g <$> l) = (fun x => (f x, g x)) <$> l.
Proof. induction l as [|x l IH]; csimpl; [done|]. by rewrite IH. Qed.

Section IndexFacts.
Context {F : Type} {ext : External F}.
Implicit Types (self : RecommendationService) (db : DB).

Lemma _build_vector_db_embeddings self db fs :
  product_embeddings (_build_vector_db self db fs).1 =
  (fun r => (r.1, normalize_L2 (encode (product_text r.2))))
    <$> active_products db.
Proof.
  unfold _build_vector_db.
  destruct (is_empty (active_products db)) eqn:Hl.
  { by destruct (active_products db). }
  cbv zeta. cbn [fst product_embeddings].
  rewrite dict_of_pairs_NoDup.
  - by rewrite <- !list_fmap_compose, zip_fmap_same.
  - rewrite fst_zip; [apply NoDup_fst_query_products|].
    by rewrite !length_fmap.
Qed.

Lemma _build_vector_db_rows self db fs :
  index_rows (_build_vector_db self db fs).1 =
  (fun r => normalize_L2 (encode (product_text r.2))) <$> active_products db.
Proof.
  unfold _build_vector_db, index_rows.
  destruct (is_empty (active_products db)) eqn:Hl.
  { by destruct (active_products db). }
  cbv zeta. cbn [fst index default].
  by rewrite app_nil_l, <- !list_fmap_compose.
Qed.

(** C8. After a rebuild the keys of the embedding map are the active
    products in catalog order, each once; the index stores as many
    rows as the map has keys, and the row at position [i] is the
    vector of the [i]-th key. Both are made anew from the catalog:
    nothing of the state before the rebuild remains. *)
Theorem _build_vector_db_aligned self db fs :
  let self' := (_build_vector_db self db fs).1 in
  dict_keys (product_embeddings self') = (active_products db).*1
  ∧ NoDup (dict_keys (product_embeddings self'))
  ∧ length (index_rows self') = length (product_embeddings self')
  ∧ index_rows self' = (product_embeddings self').*2
  ∧ (∀ i product_id,
        dict_keys (product_embeddings self') !! i = Some product_id →
        ∃ v, index_rows self' !! i = Some v
             ∧ dict_get product_id (product_embeddings self') = Some v)
  ∧ (∀ other other_fs, (_build_vector_db other db other_fs).1 = self').
Proof.
  intros self'. subst self'.
  assert (dict_keys (product_embeddings (_build_vector_db self db fs).1)
          = (active_products db).*1) as Hkeys.
  { rewrite _build_vector_db_embeddings. unfold dict_keys.
    by rewrite <- list_fmap_compose. }
  assert (index_rows (_build_vector_db self db fs).1
          = (product_embeddings (_build_vector_db self db fs).1).*2)
    as Hrows.
  { rewrite _build_vector_db_rows, _build_vector_db_embeddings.
    by rewrite <- list_fmap_compose. }
  assert (NoDup (dict_keys (product_embeddings
                              (_build_vector_db self db fs).1))) as Hnd.
  { rewrite Hkeys. apply NoDup_fst_query_products. }
  split_and!; [done|done| |done| |].
  - by rewrite Hrows, length_fmap.
  - intros i pid Hi. unfold dict_keys in Hi.
    apply list_lookup_fmap_Some in Hi as ([k v] & -> & Hkv).
    exists v. split.
    + by rewrite Hrows, list_lookup_fmap, Hkv.
    + by apply (dict_get_lookup _ i).
  - intros other other_fs. unfold _build_vector_db.
    by destruct (is_empty (active_products db)).
Qed.
End IndexFacts.

Section LoadFacts.
Context {F : Type} {ext : External F}.

Lemma _build_classification_models_raises
    (self : ClassificationService) db fs e :
  _build_classification_models self db fs = Raise e →
  ∃ texts labels, fit texts labels = Raise e.
Proof.
  unfold _build_classification_models.
  destruct (query_products db _) as [|r l]; [done|].
  cbv zeta. cbn [is_empty].
  intros [Hfit|(c & _ & Hsave)]%exc_bind_Raise; [|done].
  destruct (negb _ && negb _); [|done].
  apply exc_bind_Raise in Hfit as [Hfit|(c & _ & Hsome)]; [|done].
  by eexists _, _.
Qed.

(** C5, as the code has it. Whenever a file of the vector index is
    missing, whatever the state of the other one, the index is rebuilt
    from the live catalog while the service is constructed. When both
    files are there and one is unreadable, nothing is rebuilt: the
    error of the load reaches the caller. For the classification
    models: when a model file is missing and the other one is missing
    or readable, the models are rebuilt during construction, and the
    only error that can then reach the caller is the one fitting the
    classifier raises; when either file is unreadable, nothing is
    rebuilt and the error of the load reaches the caller. *)
Theorem missing_artifact_is_rebuilt
    (self : RecommendationService) (db : DB)
    (fs : VectorFiles) (mfs : ModelFiles) :
  (vector_file fs = Missing ∨ index_file fs = Missing →
   _load_or_create_vector_db self db fs = Ok (_build_vector_db self db fs))
  ∧ (vector_file fs = Corrupt → index_file fs ≠ Missing →
     _load_or_create_vector_db self db fs = Raise UnpicklingError)
  ∧ (index_file fs = Corrupt → vector_file fs ≠ Missing →
     ∃ e, _load_or_create_vector_db self db fs = Raise e)
  ∧ (category_model_file mfs = Missing ∨ tag_model_file mfs = Missing →
     category_model_file mfs ≠ Corrupt → tag_model_file mfs ≠ Corrupt →
     _load_classification_models db mfs =
     _build_classification_models
       {| category_classifier := loaded (category_model_file mfs);
          tag_classifier := loaded (tag_model_file mfs) |} db mfs
     ∧ ∀ e, _load_classification_models db mfs = Raise e →
            ∃ texts labels, fit texts labels = Raise e)
  ∧ (category_model_file mfs = Corrupt ∨ tag_model_file mfs = Corrupt →
     _load_classification_models db mfs = Raise UnpicklingError).
Proof.
  split_and!.
  - unfold _load_or_create_vector_db.
    intros [->| ->]; [done|]. by rewrite andb_false_r.
  - unfold _load_or_create_vector_db.
    intros -> Hidx. by destruct (index_file fs).
  - unfold _load_or_create_vector_db.
    intros -> Hvec. destruct (vector_file fs); [done|by eexists..].
  - intros Hmiss Hc Ht.
    assert (_load_classification_models db mfs =
            _build_classification_models
              {| category_classifier := loaded (category_model_file mfs);
                 tag_classifier := loaded (tag_model_file mfs) |} db mfs)
      as Hload.
    { unfold _load_classification_models.
      destruct (category_model_file mfs), (tag_model_file mfs);
        try done; by destruct Hmiss. }
    split; [done|]. rewrite Hload.
    intros e. apply _build_classification_models_raises.
  - unfold _load_classification_models.
    intros [->| ->]; [done|]. by destruct (category_model_file mfs).
Qed.
End LoadFacts.

(** ** The price range *)

Section PriceRangeFacts.
Context {F : Type} {num : PyFloat F}.





End PriceRangeFacts.

(** *** The order of the doubles *)














(** *** A price is never NaN *)

Section NeverNaN.
Variables prec emax : Z.








End NeverNaN.





(** *** The range in double precision *)







(** ** Category tags and classification *)

(** C6 on the code: the tags of a category are read off products of
    any status; a draft contributes its tags. *)
Theorem _get_category_tags_reads_drafts :
  active_products draft_only_db = []
  ∧ _get_category_tags draft_only_db 1 = ["secret"; "launch"].
Proof. split; vm_compute; reflexivity. Qed.

Section ClassifyFacts.
Context {F : Type} {num : PyFloat F} {ext : External F}.

(** When there is no classifier, or [predict] raises on the text of
    the product, the prediction is null with confidence 0.0 and the
    result carries the default category 1. *)
Lemma classify_product_degrades (self : ClassificationService) db
    title description images :
  (match category_classifier self with
   | None => True
   | Some clf =>
       ∃ e, predict clf (listing_text title description) = Raise e
   end) →
  let result := classify_product self db title description images in
  ClassificationResult.category_id result = 1
  ∧ ClassificationResult.category_name result = "Unknown"
  ∧ ClassificationResult.confidence result = lit_0_0
  ∧ ClassificationResult.suggested_price_range result = None.
Proof.
  intros Hclf. unfold classify_product.
  destruct (category_classifier self) as [clf|]; [|done].
  destruct Hclf as [e He].
  assert ((if str_truthy description
           then title +:+ " " +:+ default "" description else title)
          = listing_text title description) as ->
    by by destruct description as [[|]|].
  simpl. by rewrite He.
Qed.
End ClassifyFacts.

(** C7 on the code: when [predict] answers and [predict_proba] raises,
    the error is swallowed but the predicted category is kept, with
    confidence 0.0; the default category is not substituted. *)
Theorem classify_product_keeps_category_when_proba_raises :
  let self : ClassificationService (ext := example_external float) :=
    {| category_classifier :=
         Some (example_classifier (Ok 3) (Raise ModelError));
       tag_classifier := None |} in
  let result :=
    classify_product self scenario_db "Leather tote" None None in
  ClassificationResult.category_id result = 3
  ∧ ClassificationResult.confidence result = 0%float.
Proof. split; vm_compute; reflexivity. Qed.

(** ** The statements at concrete inputs *)

Lemma get_similar_products_excludes_query_witness :
  ∃ r, get_similar_products shop_service shop_db 2 2 = Ok r
       ∧ rec_ids r = [1; 3]
       ∧ (2 ∉ rec_ids r) ∧ (length r ≤ 2)%nat.
Proof.
  eexists. split; [vm_compute; reflexivity|].
  split; [vm_compute; reflexivity|].
  destruct (get_similar_products_excludes_query shop_service shop_db 2 2 _
              ltac:(vm_compute; reflexivity)) as (Hself & Hlen & _).
  split; [exact Hself|exact Hlen].
Defined.

Lemma get_user_recommendations_without_history_witness :
  purchased_products shop_db 9 = []
  ∧ get_user_recommendations shop_service shop_db 9 3
    = get_popular_products shop_db 3.
Proof.
  split; [vm_compute; reflexivity|].
  apply get_user_recommendations_without_history.
  vm_compute; reflexivity.
Defined.

Lemma get_user_recommendations_unknown_purchases_witness :
  purchased_products shop_db 8 = [5]
  ∧ get_user_recommendations shop_service shop_db 8 3 = Ok [].
Proof.
  split; [vm_compute; reflexivity|].
  apply get_user_recommendations_unknown_purchases.
  - vm_compute. discriminate.
  - intros pid Hpid.
    replace (purchased_products shop_db 8) with [5] in Hpid
      by (vm_compute; reflexivity).
    apply list_elem_of_singleton in Hpid as ->. vm_compute; reflexivity.
Defined.

Lemma recommendations_are_unique_witness :
  (∃ recs, get_similar_products shop_service shop_db 2 2 = Ok recs
           ∧ NoDup (rec_ids recs))
  ∧ (∃ recs, get_personalized_recommendations shop_service shop_db 7 4
             = Ok recs
             ∧ rec_ids recs = [1; 3; 2]
             ∧ NoDup (rec_ids recs)).
Proof.
  destruct (recommendations_are_unique shop_service shop_db)
    as (Hsimilar & _ & _ & _ & _ & _ & Hpersonal & _).
  split.
  - eexists. split; [vm_compute; reflexivity|].
    apply (Hsimilar 2 2%nat).
    + vm_compute. repeat constructor; set_solver.
    + intros embedding rows Hemb Hrows.
      vm_compute in Hemb. injection Hemb as <-.
      vm_compute in Hrows. injection Hrows as <-.
      unfold labels_well_formed. vm_compute.
      split; repeat constructor; try set_solver; try discriminate.
    + vm_compute; reflexivity.
  - eexists. split; [vm_compute; reflexivity|].
    split; [vm_compute; reflexivity|].
    apply (Hpersonal 7 4%nat). vm_compute; reflexivity.
Defined.



(** The claim C5 fails as stated: an unreadable embeddings file beside
    a readable index file is not rebuilt, and neither is an unreadable
    classifier file; constructing the service raises, for the
    recommendation service and for the classification service. *)
Lemma corrupt_artifact_is_not_rebuilt :
  RecommendationService_init (ext := example_external float) shop_db
    {| vector_file := Corrupt; index_file := Stored (index_rows shop_service) |}
  = Raise UnpicklingError
  ∧ _load_classification_models (ext := example_external float) shop_db
      {| category_model_file := Corrupt; tag_model_file := Missing |}
    = Raise UnpicklingError.
Proof. split; vm_compute; reflexivity. Qed.

Lemma missing_artifact_is_rebuilt_witness :
  _load_or_create_vector_db shop_service shop_db no_files
  = Ok (_build_vector_db shop_service shop_db no_files)
  ∧ index_rows (_build_vector_db shop_service shop_db no_files).1
    = [8; 11; 6; 4]%nat.
Proof.
  split; [|vm_compute; reflexivity].
  destruct (missing_artifact_is_rebuilt shop_service shop_db no_files
              {| category_model_file := Missing;
                 tag_model_file := Missing |}) as [Hmissing _].
  apply Hmissing. by left.
Defined.

(** ** Further properties and scenarios of the specification *)

(** The keywords of a title: lower case, stop words and words of at
    most two letters dropped, first occurrences kept in order. *)
Theorem _extract_keywords_scenario :
  _extract_keywords "Red Leather Wallet for Men"
  = ["red"; "leather"; "wallet"; "men"]
  ∧ _extract_keywords "The red wallet, a RED bag: it is red!"
    = ["red"; "wallet"; "bag"].
Proof. split; vm_compute; reflexivity. Qed.

(** Only the sales of the last seven days count towards trending, the
    boundary included: product 1 sums to 6, product 3 to 1, and
    product 2 is not trending. *)
Theorem get_trending_products_window :
  ∃ recs,
    get_trending_products (num := binary64) trending_db trending_now 10 None
    = Ok recs
    ∧ scored <$> recs = [(6%float, 1); (1%float, 3)].
Proof. eexists. split; vm_compute; reflexivity. Qed.

Section FurtherFacts.
Context {F : Type} {num : PyFloat F} {ext : External F}.

(** A product without a stored vector, or a service without an index,
    has no similar products: the query returns the empty list and
    does not raise. *)
Theorem get_similar_products_unknown (self : RecommendationService) db
    product_id limit :
  dict_get product_id (product_embeddings self) = None ∨ index self = None →
  get_similar_products self db product_id limit = Ok [].
Proof.
  unfold get_similar_products. intros [-> | ->]; [done|].
  by destruct (dict_get _ _).
Qed.

(** What a rebuild over a catalog with an active product saves is
    what the next start of the service loads. *)
Theorem _build_then_load (self other : RecommendationService) db fs :
  active_products db ≠ [] →
  _load_or_create_vector_db other db (_build_vector_db self db fs).2
  = Ok (_build_vector_db self db fs).
Proof.
  intros Hne. unfold _build_vector_db.
  destruct (active_products db) as [|r l]; [done|]. done.
Qed.
End FurtherFacts.

Lemma get_similar_products_unknown_witness :
  get_similar_products shop_service shop_db 5 3 = Ok [].
Proof.
  apply get_similar_products_unknown. left. vm_compute; reflexivity.
Defined.

Lemma _build_then_load_witness :
  _load_or_create_vector_db shop_service shop_db
    (_build_vector_db shop_service shop_db no_files).2
  = Ok (_build_vector_db shop_service shop_db no_files).
Proof.
  apply _build_then_load. vm_compute. discriminate.
Defined.

Lemma classify_product_degrades_witness :
  let self : ClassificationService (ext := example_external float) :=
    {| category_classifier :=
         Some (example_classifier (Raise ModelError) (Ok 1%float));
       tag_classifier := None |} in
  let result := classify_product self scenario_db "Leather tote" None None in
  ClassificationResult.category_id result = 1
  ∧ ClassificationResult.category_name result = "Unknown"
  ∧ ClassificationResult.confidence result = 0%float
  ∧ ClassificationResult.suggested_price_range result = None.
Proof.
  intros self.
  apply (classify_product_degrades (num := binary64) self scenario_db
           "Leather tote" None None).
  simpl. exists ModelError. reflexivity.
Defined.

Lemma get_similar_products_returns_witness :
  ∃ recs, get_similar_products shop_service shop_db 2 2 = Ok recs.
Proof.
  apply get_similar_products_returns.
  - intros id p Hp.
    apply (map_Forall_lookup_1
             (fun _ p => Product.price p ≠ None) (products shop_db) id p);
      [|exact Hp].
    apply (bool_decide_unpack _). vm_compute. exact I.
  - intros embedding rows Hemb Hrows.
    vm_compute in Hemb. injection Hemb as <-.
    vm_compute in Hrows. injection Hrows as <-.
    vm_compute. repeat constructor; discriminate.
Defined.

(** * Further properties of the two services *)

(** ** Ranking *)

Section RankFacts.
Context {A K : Type} (gtb : K -> K -> bool) (key : A -> K).
Hypothesis gtb_asym : ∀ a b, gtb a b = true → gtb b a = false.
Hypothesis gtb_negtrans :
  ∀ a b c, gtb b a = false → gtb c b = false → gtb c a = false.

Let before (x y : A) : Prop := gtb (key y) (key x) = false.

Lemma insert_desc_sorted x l :
  StronglySorted before l → StronglySorted before (insert_desc gtb key x l).
Proof.
  induction 1 as [|y l Hl IH Hy]; simpl.
  { repeat constructor. }
  destruct (gtb (key y) (key x)) eqn:Hyx.
  - constructor; [done|].
    rewrite insert_desc_perm. constructor; [|done].
    unfold before. by apply gtb_asym.
  - constructor; [by constructor|].
    constructor; [done|].
    eapply Forall_impl; [exact Hy|]. intros z Hz. unfold before in *.
    by eapply gtb_negtrans.
Qed.

Lemma sort_desc_sorted l : StronglySorted before (sort_desc gtb key l).
Proof.
  induction l as [|x l IH]; simpl; [constructor|].
  by apply insert_desc_sorted.
Qed.

Lemma StronglySorted_ranked l : StronglySorted before l → ranked gtb key l.
Proof.
  induction 1 as [|x l Hl IH Hx]; intros i j a b Hij Ha Hb.
  { by rewrite lookup_nil in Ha. }
  destruct j as [|j]; [lia|]. simpl in Hb.
  destruct i as [|i]; simpl in Ha.
  - injection Ha as <-. rewrite Forall_forall in Hx. apply Hx.
    by eapply list_elem_of_lookup_2.
  - eapply (IH i j); [lia|done..].
Qed.

Lemma ranked_take l n : ranked gtb key l → ranked gtb key (take n l).
Proof.
  intros Hl i j x y Hij Hx Hy.
  apply lookup_take_Some in Hx as [Hx _].
  apply lookup_take_Some in Hy as [Hy _]. by eapply Hl.
Qed.

Lemma sort_desc_ranked l n : ranked gtb key (take n (sort_desc gtb key l)).
Proof. apply ranked_take, StronglySorted_ranked, sort_desc_sorted. Qed.
End RankFacts.

Lemma Z_gtb_asym (a b : Z) : (a >? b) = true → (b >? a) = false.
Proof. lia. Qed.

Lemma Z_gtb_negtrans (a b c : Z) :
  (b >? a) = false → (c >? b) = false → (c >? a) = false.
Proof. lia. Qed.

Lemma pair_gtb_spec (a b : Z * Z) :
  pair_gtb a b = false ↔ a.1 < b.1 ∨ (a.1 = b.1 ∧ a.2 ≤ b.2).
Proof. unfold pair_gtb. destruct a, b; simpl. lia. Qed.

Lemma pair_gtb_asym (a b : Z * Z) :
  pair_gtb a b = true → pair_gtb b a = false.
Proof.
  rewrite pair_gtb_spec. intros Hab.
  destruct (pair_gtb b a) eqn:Hba; [|by apply pair_gtb_spec].
  unfold pair_gtb in *. lia.
Qed.

Lemma pair_gtb_negtrans (a b c : Z * Z) :
  pair_gtb b a = false → pair_gtb c b = false → pair_gtb c a = false.
Proof. rewrite !pair_gtb_spec. lia. Qed.

(** ** The table-backed strategies *)

Section StrategyFacts.
Context {F : Type} {num : PyFloat F}.
Implicit Types (db : DB) (recs : list (Recommendation.t F)).

Lemma recommendation_entry id p s why (r : Recommendation.t F) :
  recommendation id p s why = Ok r → entry_of id p s why r.
Proof.
  unfold recommendation, float_of_price, entry_of.
  destruct (Product.price p) as [c|]; [|done].
  simpl. intros [= <-]. simpl. split_and!; try done. by exists c.
Qed.

(** What a query that is ranked, cut at [limit] and written out
    returns. *)
Lemma ranked_query_spec {K} (gtb : K -> K -> bool)
    (key : Z * Product.t -> K) (score : Z * Product.t -> F)
    (cond : Product.t -> bool) (why : string) db limit recs :
  (∀ a b, gtb a b = true → gtb b a = false) →
  (∀ a b c, gtb b a = false → gtb c b = false → gtb c a = false) →
  exc_mapM (fun r => recommendation r.1 r.2 (score r) why)
    (take limit (sort_desc gtb key (query_products db cond))) = Ok recs →
  length recs = (limit `min` length (query_products db cond))%nat
  ∧ (∀ r, r ∈ recs →
          ∃ p, products db !! Recommendation.product_id r = Some p
               ∧ cond p = true
               ∧ entry_of (Recommendation.product_id r) p
                   (score (Recommendation.product_id r, p)) why r)
  ∧ (∀ i j ri rj pi pj,
        (i < j)%nat → recs !! i = Some ri → recs !! j = Some rj →
        products db !! Recommendation.product_id ri = Some pi →
        products db !! Recommendation.product_id rj = Some pj →
        gtb (key (Recommendation.product_id rj, pj))
            (key (Recommendation.product_id ri, pi)) = false)
  ∧ ((length (query_products db cond) ≤ limit)%nat →
     ∀ id p, products db !! id = Some p → cond p = true →
             id ∈ rec_ids recs).
Proof.
  intros Hasym Htrans Hrecs.
  set (rows := take limit (sort_desc gtb key (query_products db cond)))
    in *.
  pose proof (exc_mapM_Ok _ _ _ Hrecs) as Hall.
  assert (∀ row, row ∈ rows →
                 products db !! row.1 = Some row.2 ∧ cond row.2 = true)
    as Hrows.
  { intros [id p] Hin. apply elem_of_query_products.
    rewrite <- (sort_desc_perm gtb key).
    eapply elem_of_sublist; [exact Hin|apply sublist_take]. }
  assert (∀ i r, recs !! i = Some r →
                 ∃ p, rows !! i = Some (Recommendation.product_id r, p)
                      ∧ entry_of (Recommendation.product_id r) p
                          (score (Recommendation.product_id r, p)) why r)
    as Hlook.
  { intros i r Hr.
    destruct (Forall2_lookup_r _ _ _ _ _ Hall Hr) as ([id p] & Hrow & Hf).
    apply recommendation_entry in Hf. simpl in Hf.
    pose proof Hf as (Hid & _). rewrite Hid. by exists p. }
  split_and!.
  - rewrite <- (Forall2_length _ _ _ Hall). unfold rows.
    by rewrite length_take, (Permutation_length (sort_desc_perm gtb key _)).
  - intros r [i Hi]%list_elem_of_lookup_1.
    destruct (Hlook i r Hi) as (p & Hrow & He).
    apply list_elem_of_lookup_2, Hrows in Hrow as [Hp Hc].
    by exists p.
  - intros i j ri rj pi pj Hij Hi Hj Hpi Hpj.
    destruct (Hlook i ri Hi) as (pi' & Hrowi & _).
    destruct (Hlook j rj Hj) as (pj' & Hrowj & _).
    pose proof (Hrows _ (list_elem_of_lookup_2 _ _ _ Hrowi)) as [Hpi' _].
    pose proof (Hrows _ (list_elem_of_lookup_2 _ _ _ Hrowj)) as [Hpj' _].
    simpl in Hpi', Hpj'.
    assert (pi' = pi) as -> by congruence.
    assert (pj' = pj) as -> by congruence.
    by apply (sort_desc_ranked gtb key Hasym Htrans
                (query_products db cond) limit i j).
  - intros Hlen id p Hp Hc.
    rewrite (exc_mapM_rec_ids _ fst _ _
               (fun x r Hx => proj1 (recommendation_Ok _ _ _ _ _ Hx)) Hrecs).
    unfold rows. rewrite take_ge
      by by rewrite (Permutation_length (sort_desc_perm gtb key _)).
    rewrite (sort_desc_perm gtb key). apply list_elem_of_fmap.
    exists (id, p). split; [done|]. by apply elem_of_query_products.
Qed.
End StrategyFacts.

Section StrategySpecs.
Context {F : Type} {num : PyFloat F}.
Implicit Types (db : DB) (recs : list (Recommendation.t F)).

Lemma is_active_true p : is_active p = true ↔ Product.status p = active.
Proof. unfold is_active. apply bool_decide_eq_true. Qed.

Lemma in_category_true c p :
  in_category c p = true ↔ Product.category_id p = Some c.
Proof. unfold in_category. apply bool_decide_eq_true. Qed.

(** Popular products: as many entries as [limit] and the number of
    active products allow; each the entry of an active product, scored
    by its sales count; ordered by sales count, then rating,
    descending; and all active products when [limit] allows. *)
Theorem get_popular_products_ranked db limit recs :
  get_popular_products db limit = Ok recs →
  length recs = (limit `min` length (active_products db))%nat
  ∧ (∀ r, r ∈ recs →
          ∃ p, products db !! Recommendation.product_id r = Some p
               ∧ Product.status p = active
               ∧ entry_of (Recommendation.product_id r) p
                   (of_int (Product.sales_count p)) "Popular product" r)
  ∧ (∀ i j ri rj pi pj,
        (i < j)%nat → recs !! i = Some ri → recs !! j = Some rj →
        products db !! Recommendation.product_id ri = Some pi →
        products db !! Recommendation.product_id rj = Some pj →
        Product.sales_count pj < Product.sales_count pi
        ∨ (Product.sales_count pj = Product.sales_count pi
           ∧ Product.rating pj ≤ Product.rating pi))
  ∧ ((length (active_products db) ≤ limit)%nat →
     ∀ id p, products db !! id = Some p → Product.status p = active →
             id ∈ rec_ids recs).
Proof.
  unfold get_popular_products. intros Hrecs.
  apply (ranked_query_spec pair_gtb _ _ is_active) in Hrecs
    as (Hlen & Hentry & Hrank & Hall);
    [|apply pair_gtb_asym|apply pair_gtb_negtrans].
  split_and!; [done| | |].
  - intros r Hr. destruct (Hentry r Hr) as (p & Hp & Hc & He).
    exists p. by rewrite <- is_active_true.
  - intros i j ri rj pi pj Hij Hi Hj Hpi Hpj.
    by apply (pair_gtb_spec
                (Product.sales_count pj, Product.rating pj)
                (Product.sales_count pi, Product.rating pi)), (Hrank i j ri rj).
  - intros Hle id p Hp Hs. apply (Hall Hle id p Hp). by apply is_active_true.
Qed.

(** Top of a category: the same for the active products of the
    category, scored by rating and ordered by rating, then sales
    count, descending. *)
Theorem get_category_recommendations_ranked db category_id limit recs :
  get_category_recommendations db category_id limit = Ok recs →
  (length recs ≤ limit)%nat
  ∧ (∀ r, r ∈ recs →
          ∃ p, products db !! Recommendation.product_id r = Some p
               ∧ Product.category_id p = Some category_id
               ∧ Product.status p = active
               ∧ entry_of (Recommendation.product_id r) p
                   (of_decimal (Product.rating p))
                   "Top rated in category" r)
  ∧ (∀ i j ri rj pi pj,
        (i < j)%nat → recs !! i = Some ri → recs !! j = Some rj →
        products db !! Recommendation.product_id ri = Some pi →
        products db !! Recommendation.product_id rj = Some pj →
        Product.rating pj < Product.rating pi
        ∨ (Product.rating pj = Product.rating pi
           ∧ Product.sales_count pj ≤ Product.sales_count pi))
  ∧ (∀ id p, products db !! id = Some p →
             Product.category_id p = Some category_id →
             Product.status p = active →
             id ∈ rec_ids recs ∨ length recs = limit).
Proof.
  unfold get_category_recommendations. intros Hrecs.
  apply (ranked_query_spec pair_gtb _ _
           (fun p => in_category category_id p && is_active p)) in Hrecs
    as (Hlen & Hentry & Hrank & Hall);
    [|apply pair_gtb_asym|apply pair_gtb_negtrans].
  split_and!.
  - lia.
  - intros r Hr. destruct (Hentry r Hr) as (p & Hp & Hc & He).
    apply andb_true_iff in Hc as [Hc Ha].
    exists p. by rewrite <- is_active_true, <- in_category_true.
  - intros i j ri rj pi pj Hij Hi Hj Hpi Hpj.
    by apply (pair_gtb_spec
                (Product.rating pj, Product.sales_count pj)
                (Product.rating pi, Product.sales_count pi)), (Hrank i j ri rj).
  - intros id p Hp Hc Hs.
    destruct (decide (length (query_products db
                (fun p => in_category category_id p && is_active p))
              ≤ limit)%nat) as [Hle|Hgt].
    + left. apply (Hall Hle id p Hp).
      apply andb_true_iff. by rewrite is_active_true, in_category_true.
    + right. lia.
Qed.

(** New arrivals: the active products (of the category, when one is
    given and is not 0), each with the constant score 1.0, the newest
    first. *)
Theorem get_new_arrivals_ranked db limit category_id recs :
  get_new_arrivals db limit category_id = Ok recs →
  (length recs ≤ limit)%nat
  ∧ (∀ r, r ∈ recs →
          ∃ p, products db !! Recommendation.product_id r = Some p
               ∧ Product.status p = active
               ∧ (int_truthy category_id = true →
                  Product.category_id p = category_id)
               ∧ entry_of (Recommendation.product_id r) p lit_1_0
                   "New arrival" r)
  ∧ (∀ i j ri rj pi pj,
        (i < j)%nat → recs !! i = Some ri → recs !! j = Some rj →
        products db !! Recommendation.product_id ri = Some pi →
        products db !! Recommendation.product_id rj = Some pj →
        Product.created_at pj ≤ Product.created_at pi)
  ∧ (∀ id p, products db !! id = Some p → Product.status p = active →
             (int_truthy category_id = true →
              Product.category_id p = category_id) →
             id ∈ rec_ids recs ∨ length recs = limit).
Proof.
  unfold get_new_arrivals. intros Hrecs.
  set (cond := fun p : Product.t =>
                 is_active p &&
                 (if int_truthy category_id
                  then bool_decide (Product.category_id p = category_id)
                  else true)) in *.
  assert (∀ p, cond p = true ↔
               Product.status p = active
               ∧ (int_truthy category_id = true →
                  Product.category_id p = category_id)) as Hcond.
  { intros p. unfold cond. rewrite andb_true_iff, is_active_true.
    destruct (int_truthy category_id).
    - rewrite bool_decide_eq_true. naive_solver.
    - naive_solver. }
  apply (ranked_query_spec Z.gtb _ _ cond) in Hrecs
    as (Hlen & Hentry & Hrank & Hall);
    [|apply Z_gtb_asym|apply Z_gtb_negtrans].
  split_and!.
  - lia.
  - intros r Hr. destruct (Hentry r Hr) as (p & Hp & Hc & He).
    apply Hcond in Hc as [Hs Hcat]. by exists p.
  - intros i j ri rj pi pj Hij Hi Hj Hpi Hpj.
    pose proof (Hrank i j ri rj pi pj Hij Hi Hj Hpi Hpj) as H. simpl in H.
    lia.
  - intros id p Hp Hs Hcat.
    destruct (decide (length (query_products db cond) ≤ limit)%nat)
      as [Hle|Hgt].
    + left. apply (Hall Hle id p Hp). by apply Hcond.
    + right. lia.
Qed.
End StrategySpecs.

(** ** Trending *)

Lemma elem_of_sales_of db pid item order :
  (item, order) ∈ sales_of db pid ↔
  ∃ k, order_items db !! k = Some item
       ∧ OrderItem.product_id item = pid
       ∧ orders db !! OrderItem.order_id item = Some order.
Proof.
  unfold sales_of. rewrite list_elem_of_omap. split.
  - intros ([k it] & Hin & Hs). simpl in Hs.
    apply elem_of_table_rows in Hin.
    destruct (decide (OrderItem.product_id it = pid)); [|done].
    destruct (orders db !! OrderItem.order_id it) as [o|] eqn:Ho; [|done].
    simpl in Hs. injection Hs as <- <-. by exists k.
  - intros (k & Hk & Hp & Ho). exists (k, item).
    split; [by apply elem_of_table_rows|]. simpl.
    rewrite decide_True by done. by rewrite Ho.
Qed.

Lemma recent_sales_nonempty db now pid :
  recent_sales db (now - seven_days) pid ≠ [] ↔ sold_recently db now pid.
Proof.
  unfold recent_sales, sold_recently. split.
  - destruct (omap _ _) as [|q l] eqn:Hl; [done|]. intros _.
    assert (q ∈ q :: l) as Hq by left. rewrite <- Hl in Hq.
    apply list_elem_of_omap in Hq as ([item order] & Hin & Hs).
    apply elem_of_sales_of in Hin as (k & Hk & Hp & Ho). simpl in Hs.
    destruct (_ <=? _) eqn:Hw; [|done].
    destruct (qualifying _) eqn:Hq'; [|done].
    exists k, item, order. split_and!; try done. lia.
  - intros (k & item & order & Hk & Hp & Ho & Hw & Hq) Hnil.
    assert (OrderItem.quantity item ∈
            omap (fun s : OrderItem.t * Order.t =>
                    if (now - seven_days <=? Order.created_at s.2)
                       && qualifying (Order.status s.2)
                    then Some (OrderItem.quantity s.1) else None)
              (sales_of db pid)) as Hin.
    { apply list_elem_of_omap. exists (item, order).
      split; [apply elem_of_sales_of; by exists k|]. simpl.
      rewrite Hq. by assert ((now - seven_days <=? Order.created_at order)
                             = true) as -> by lia. }
    rewrite Hnil in Hin. by apply elem_of_nil in Hin.
Qed.

Section TrendingFacts.
Context {F : Type} {num : PyFloat F}.

(** Trending: each entry is an active product (of the category, when
    one is given and is not 0) sold in a qualifying order of the last
    seven days, the boundary included, scored by the quantity sold in
    that time; the entries are ordered by that quantity, descending;
    a product not sold in that time is never listed. *)
Theorem get_trending_products_spec db now limit category_id
    (recs : list (Recommendation.t F)) :
  get_trending_products db now limit category_id = Ok recs →
  (length recs ≤ limit)%nat
  ∧ (∀ r, r ∈ recs →
          ∃ p, products db !! Recommendation.product_id r = Some p
               ∧ Product.status p = active
               ∧ (int_truthy category_id = true →
                  Product.category_id p = category_id)
               ∧ sold_recently db now (Recommendation.product_id r)
               ∧ entry_of (Recommendation.product_id r) p
                   (of_int (recent_quantity db now
                              (Recommendation.product_id r)))
                   "Trending product" r)
  ∧ (∀ i j ri rj,
        (i < j)%nat → recs !! i = Some ri → recs !! j = Some rj →
        recent_quantity db now (Recommendation.product_id rj)
        ≤ recent_quantity db now (Recommendation.product_id ri))
  ∧ (∀ id p, products db !! id = Some p → Product.status p = active →
             (int_truthy category_id = true →
              Product.category_id p = category_id) →
             sold_recently db now id →
             id ∈ rec_ids recs ∨ length recs = limit).
Proof.
  unfold get_trending_products. intros Hrecs.
  set (cond := fun p : Product.t =>
                 is_active p &&
                 (if int_truthy category_id
                  then bool_decide (Product.category_id p = category_id)
                  else true)) in *.
  set (group := fun r : Z * Product.t =>
                  let sales := recent_sales db (now - seven_days) r.1 in
                  if is_empty sales then None
                  else Some (r, foldr Z.add 0 sales)) in *.
  set (grouped := omap group (query_products db cond)) in *.
  set (rows := take limit (sort_desc Z.gtb snd grouped)) in *.
  assert (∀ p, cond p = true ↔
               Product.status p = active
               ∧ (int_truthy category_id = true →
                  Product.category_id p = category_id)) as Hcond.
  { intros p. unfold cond. rewrite andb_true_iff, is_active_true.
    destruct (int_truthy category_id).
    - rewrite bool_decide_eq_true. naive_solver.
    - naive_solver. }
  assert (∀ id p q, ((id, p), q) ∈ grouped ↔
                    products db !! id = Some p ∧ cond p = true
                    ∧ sold_recently db now id
                    ∧ q = recent_quantity db now id) as Hgrouped.
  { intros id p q. unfold grouped. rewrite list_elem_of_omap. split.
    - intros ([id' p'] & Hin & Hg). unfold group in Hg. simpl in Hg.
      destruct (recent_sales db (now - seven_days) id') as [|s l] eqn:Hs;
        [done|].
      simpl in Hg. injection Hg as -> -> <-.
      apply elem_of_query_products in Hin as [Hp Hc].
      split_and!; [done|done| |by unfold recent_quantity; rewrite Hs].
      apply recent_sales_nonempty. by rewrite Hs.
    - intros (Hp & Hc & Hsold & ->). exists (id, p).
      split; [by apply elem_of_query_products|].
      unfold group, recent_quantity. simpl.
      apply recent_sales_nonempty in Hsold.
      by destruct (recent_sales db (now - seven_days) id). }
  assert (∀ row, row ∈ rows → row ∈ grouped) as Hrows.
  { intros row Hin. rewrite <- (sort_desc_perm Z.gtb snd).
    eapply elem_of_sublist; [exact Hin|apply sublist_take]. }
  pose proof (exc_mapM_Ok _ _ _ Hrecs) as Hall.
  assert (∀ i r, recs !! i = Some r →
                 ∃ p, rows !! i
                      = Some ((Recommendation.product_id r, p),
                              recent_quantity db now
                                (Recommendation.product_id r))
                      ∧ entry_of (Recommendation.product_id r) p
                          (of_int (recent_quantity db now
                                     (Recommendation.product_id r)))
                          "Trending product" r) as Hlook.
  { intros i r Hr.
    destruct (Forall2_lookup_r _ _ _ _ _ Hall Hr)
      as ([[id p] q] & Hrow & Hf).
    apply recommendation_entry in Hf. simpl in Hf.
    pose proof Hf as (Hid & _).
    pose proof (Hrows _ (list_elem_of_lookup_2 _ _ _ Hrow)) as Hg.
    apply Hgrouped in Hg as (_ & _ & _ & ->).
    rewrite Hid. by exists p. }
  assert (length recs = (limit `min` length grouped)%nat) as Hlen.
  { rewrite <- (Forall2_length _ _ _ Hall). unfold rows.
    by rewrite length_take,
         (Permutation_length (sort_desc_perm Z.gtb snd _)). }
  split_and!.
  - lia.
  - intros r [i Hi]%list_elem_of_lookup_1.
    destruct (Hlook i r Hi) as (p & Hrow & He).
    apply list_elem_of_lookup_2, Hrows, Hgrouped in Hrow
      as (Hp & Hc & Hsold & _).
    apply Hcond in Hc as [Hs Hcat]. by exists p.
  - intros i j ri rj Hij Hi Hj.
    destruct (Hlook i ri Hi) as (pi & Hrowi & _).
    destruct (Hlook j rj Hj) as (pj & Hrowj & _).
    pose proof (sort_desc_ranked Z.gtb snd Z_gtb_asym Z_gtb_negtrans
                  grouped limit i j _ _ Hij Hrowi Hrowj) as H.
    simpl in H. lia.
  - intros id p Hp Hs Hcat Hsold.
    destruct (decide (length grouped ≤ limit)%nat) as [Hle|Hgt];
      [left|right; lia].
    rewrite (exc_mapM_rec_ids _ (fun row => row.1.1) _ _
               (fun x r Hx => proj1 (recommendation_Ok _ _ _ _ _ Hx)) Hrecs).
    unfold rows. rewrite take_ge
      by by rewrite (Permutation_length (sort_desc_perm Z.gtb snd _)).
    rewrite (sort_desc_perm Z.gtb snd). apply list_elem_of_fmap.
    exists ((id, p), recent_quantity db now id). split; [done|].
    apply Hgrouped. split_and!; try done. by apply Hcond.
Qed.
End TrendingFacts.

(** ** How much the merging strategies return *)

Section StrategyEdges.
Context {F : Type} {num : PyFloat F} {ext : External F}.
Implicit Types (self : RecommendationService) (db : DB).

Lemma get_popular_products_length db limit
    (recs : list (Recommendation.t F)) :
  get_popular_products db limit = Ok recs → (length recs ≤ limit)%nat.
Proof.
  unfold get_popular_products. intros Hr.
  apply exc_mapM_Ok, Forall2_length in Hr. rewrite <- Hr, length_take. lia.
Qed.

(** The two merging strategies are capped: the purchase history
    returns at most [limit] entries, and the personalized blend at
    most [limit] and at most twice the half of [limit], so that a
    [limit] of 1 yields nothing. *)
Theorem merged_strategies_are_capped self db user_id limit recs :
  (get_user_recommendations self db user_id limit = Ok recs →
   (length recs ≤ limit)%nat)
  ∧ (get_personalized_recommendations self db user_id limit = Ok recs →
     (length recs ≤ limit)%nat ∧ (length recs ≤ 2 * (limit / 2))%nat
     ∧ (limit = 1%nat → recs = [])).
Proof.
  assert (∀ n rs, get_user_recommendations self db user_id n = Ok rs →
                  (length rs ≤ n)%nat) as Huser.
  { intros n rs. unfold get_user_recommendations.
    destruct (is_empty _).
    - apply get_popular_products_length.
    - intros Hr. apply exc_bind_Ok in Hr as (similar & _ & [= <-]).
      rewrite length_take. lia. }
  split; [apply Huser|].
  unfold get_personalized_recommendations. intros Hr.
  apply exc_bind_Ok in Hr as (user_recs & Hu & Hr).
  apply exc_bind_Ok in Hr as (popular_recs & Hp & [= <-]).
  apply Huser in Hu. apply get_popular_products_length in Hp.
  assert (length (dedup_loop ∅ (user_recs ++ popular_recs))
          ≤ 2 * (limit / 2))%nat as Hcap.
  { assert (∀ seen (l : list (Recommendation.t F)),
              (length (dedup_loop seen l) ≤ length l)%nat) as Hd.
    { intros seen l. revert seen.
      induction l as [|r l IH]; intros seen; simpl; [lia|].
      destruct (decide _); simpl; [specialize (IH seen)
                                  |specialize (IH ({[Recommendation.product_id r]} ∪ seen))];
        lia. }
    etrans; [apply Hd|]. rewrite length_app. lia. }
  rewrite length_take. split_and!; [lia|lia|].
  intros ->. apply nil_length_inv. rewrite length_take.
  change (1 / 2)%nat with 0%nat in Hcap. lia.
Qed.
End StrategyEdges.

(** ** What a similar product is *)

Section SimilarEntries.
Context {F : Type} {num : PyFloat F} {ext : External F}.
Implicit Types (self : RecommendationService) (db : DB).

Lemma similar_loop_entries self db product_id hits recs :
  similar_loop self db product_id hits = Ok recs →
  ∀ r, r ∈ recs →
       ∃ p label,
         products db !! Recommendation.product_id r = Some p
         ∧ entry_of (Recommendation.product_id r) p
             (Recommendation.score r) "Similar product" r
         ∧ (Recommendation.score r, label) ∈ hits
         ∧ label ≠ -1
         ∧ py_getitem (dict_keys (product_embeddings self)) label
           = Ok (Recommendation.product_id r).
Proof.
  revert recs. induction hits as [|[score idx] hits IH]; intros recs Hr r Hin.
  { injection Hr as <-. by apply elem_of_nil in Hin. }
  assert (∀ recs', similar_loop self db product_id hits = Ok recs' →
                   r ∈ recs' →
                   ∃ p label,
                     products db !! Recommendation.product_id r = Some p
                     ∧ entry_of (Recommendation.product_id r) p
                         (Recommendation.score r) "Similar product" r
                     ∧ (Recommendation.score r, label)
                       ∈ (score, idx) :: hits
                     ∧ label ≠ -1
                     ∧ py_getitem (dict_keys (product_embeddings self)) label
                       = Ok (Recommendation.product_id r)) as Hrest.
  { intros recs' Hr' Hin'.
    destruct (IH recs' Hr' r Hin') as (p & label & ? & ? & ? & ? & ?).
    exists p, label. split_and!; try done. by right. }
  simpl in Hr.
  destruct (Z.eqb_spec idx (-1)); [by eapply Hrest|].
  destruct (idx <? _); [|by eapply Hrest].
  apply exc_bind_Ok in Hr as (pid & Hpid & Hr).
  destruct (pid =? product_id); [by eapply Hrest|].
  destruct (products db !! pid) as [p|] eqn:Hp; [|by eapply Hrest].
  apply exc_bind_Ok in Hr as (r0 & Hr0 & Hr).
  apply exc_bind_Ok in Hr as (rs & Hrs & [= <-]).
  apply elem_of_cons in Hin as [->|Hin]; [|by eapply Hrest].
  apply recommendation_entry in Hr0. pose proof Hr0 as (Hid & _ & _ & _ & Hs & _).
  exists p, idx. rewrite Hid, Hs. split_and!; try done. by left.
Qed.

(** A similar product is a product the catalog holds when the query is
    made, whatever its status, with its own title and price; its score
    is the one the index reported for the position of its id among the
    keys of the embedding map. *)
Theorem get_similar_products_entries self db product_id limit recs :
  get_similar_products self db product_id limit = Ok recs →
  ∀ r, r ∈ recs →
       ∃ p embedding rows label,
         products db !! Recommendation.product_id r = Some p
         ∧ entry_of (Recommendation.product_id r) p
             (Recommendation.score r) "Similar product" r
         ∧ dict_get product_id (product_embeddings self) = Some embedding
         ∧ index self = Some rows
         ∧ (Recommendation.score r, label)
           ∈ search rows embedding (limit + 1)
         ∧ label ≠ -1
         ∧ py_getitem (dict_keys (product_embeddings self)) label
           = Ok (Recommendation.product_id r).
Proof.
  unfold get_similar_products. intros Hr r Hin.
  destruct (dict_get product_id _) as [emb|];
    [destruct (index self) as [rows|]|];
    try (injection Hr as <-; by apply elem_of_nil in Hin).
  apply exc_bind_Ok in Hr as (rs & Hrs & [= <-]).
  eapply elem_of_sublist in Hin; [|apply sublist_take].
  destruct (similar_loop_entries _ _ _ _ _ Hrs r Hin)
    as (p & label & ? & ? & ? & ? & ?).
  by exists p, emb, rows, label.
Qed.
End SimilarEntries.

(** ** Counting *)

Section CounterFacts.
Context {K : Type} `{EqDecision K}.
Implicit Types (k : K) (c : list (K * Z)) (items : list K).

Lemma dict_get_None {V} k (d : list (K * V)) :
  dict_get k d = None ↔ k ∉ d.*1.
Proof.
  induction d as [|[k' v] d IH]; csimpl.
  { split; [intros _; apply not_elem_of_nil|done]. }
  rewrite not_elem_of_cons. destruct (decide (k = k')); [naive_solver|].
  rewrite IH. naive_solver.
Qed.

Lemma dict_get_set_eq {V} k (v : V) d : dict_get k (dict_set k v d) = Some v.
Proof.
  induction d as [|[k' v'] d IH]; simpl.
  { by rewrite decide_True. }
  destruct (decide (k = k')) as [->|Hne]; simpl.
  - by rewrite decide_True.
  - by rewrite decide_False.
Qed.

Lemma dict_get_set_ne {V} k k' (v : V) d :
  k ≠ k' → dict_get k' (dict_set k v d) = dict_get k' d.
Proof.
  intros Hne. induction d as [|[k'' v'] d IH]; simpl.
  { by rewrite decide_False. }
  destruct (decide (k = k'')) as [->|Hne']; simpl.
  - by rewrite !decide_False.
  - destruct (decide (k' = k'')); [done|apply IH].
Qed.

Lemma dict_set_keys_present {V} k (v : V) d :
  k ∈ d.*1 → (dict_set k v d).*1 = d.*1.
Proof.
  induction d as [|[k' v'] d IH]; csimpl.
  { by intros ?%elem_of_nil. }
  destruct (decide (k = k')) as [->|Hne]; csimpl; [done|].
  intros [?|Hin]%elem_of_cons; [done|]. by rewrite IH.
Qed.

Lemma counter_incr_keys k c :
  (counter_incr k c).*1 = if decide (k ∈ c.*1) then c.*1 else c.*1 ++ [k].
Proof.
  unfold counter_incr. destruct (decide (k ∈ c.*1)) as [Hin|Hout].
  - destruct (dict_get k c); by apply dict_set_keys_present.
  - pose proof (proj2 (dict_get_None k c) Hout) as ->.
    rewrite dict_set_fresh by done. by rewrite fmap_app.
Qed.

Lemma counter_incr_get k k' c :
  dict_get k' (counter_incr k c) =
  if decide (k = k') then Some (default 0 (dict_get k c) + 1)
  else dict_get k' c.
Proof.
  unfold counter_incr. destruct (decide (k = k')) as [<-|Hne].
  - destruct (dict_get k c); by rewrite dict_get_set_eq.
  - destruct (dict_get k c); by rewrite dict_get_set_ne.
Qed.

Lemma occurrences_cons k x items :
  occurrences k (x :: items) =
  (if decide (x = k) then 1 else 0) + occurrences k items.
Proof.
  unfold occurrences. rewrite filter_cons.
  destruct (decide (x = k)); simpl; lia.
Qed.

Lemma occurrences_pos k items : k ∈ items ↔ 0 < occurrences k items.
Proof.
  induction items as [|x items IH].
  { unfold occurrences. simpl. split; [by intros ?%elem_of_nil|lia]. }
  rewrite occurrences_cons, elem_of_cons.
  assert (0 ≤ occurrences k items) by (unfold occurrences; lia).
  destruct (decide (x = k)) as [->|Hne]; [split; [lia|by left]|].
  rewrite IH. split; [intros [?|?]; [congruence|lia]|intros; right; lia].
Qed.

Lemma Counter_from_spec items c :
  NoDup c.*1 →
  let result := fold_left (fun c k => counter_incr k c) items c in
  NoDup result.*1
  ∧ (∀ k, k ∈ result.*1 ↔ k ∈ c.*1 ∨ k ∈ items)
  ∧ (∀ k, k ∈ result.*1 →
          dict_get k result
          = Some (default 0 (dict_get k c) + occurrences k items)).
Proof.
  revert c. induction items as [|x items IH]; intros c Hc; simpl.
  { split_and!; [done| |].
    - intros k. rewrite elem_of_nil. naive_solver.
    - intros k Hk. unfold occurrences. simpl.
      destruct (dict_get k c) eqn:Hg; [simpl; f_equal; lia|].
      by apply dict_get_None in Hg. }
  assert (NoDup (counter_incr x c).*1) as Hc'.
  { rewrite counter_incr_keys. destruct (decide _); [done|].
    apply NoDup_app. split_and!; [done| |apply NoDup_singleton].
    intros k Hk ->%list_elem_of_singleton. done. }
  destruct (IH _ Hc') as (Hnd & Hkeys & Hget). split_and!; [done| |].
  - intros k. rewrite Hkeys, counter_incr_keys, elem_of_cons.
    destruct (decide (x ∈ c.*1)).
    + split; [naive_solver|]. intros [?|[->|?]]; auto.
    + rewrite elem_of_app, list_elem_of_singleton. naive_solver.
  - intros k Hk. rewrite (Hget k Hk), counter_incr_get, occurrences_cons.
    destruct (decide (x = k)); [subst k|];
      destruct (dict_get x c); simpl; f_equal; lia.
Qed.

(** [Counter(items)] holds each item once, with the number of its
    occurrences. *)
Lemma Counter_spec items :
  NoDup (Counter items).*1
  ∧ (∀ k, k ∈ (Counter items).*1 ↔ k ∈ items)
  ∧ (∀ k n, (k, n) ∈ Counter items → n = occurrences k items).
Proof.
  destruct (Counter_from_spec items []) as (Hnd & Hkeys & Hget).
  { constructor. }
  split_and!; [done| |].
  - intros k. rewrite (Hkeys k), elem_of_nil. naive_solver.
  - intros k n Hin.
    assert (k ∈ (Counter items).*1) as Hk.
    { apply list_elem_of_fmap. by exists (k, n). }
    apply list_elem_of_lookup_1 in Hin as [i Hi].
    pose proof (dict_get_lookup _ _ _ _ Hnd Hi) as Hg.
    unfold Counter in *. rewrite (Hget k Hk) in Hg. simpl in Hg.
    injection Hg as <-. lia.
Qed.

Lemma Counter_NoDup_from items c :
  NoDup (c.*1 ++ items) →
  fold_left (fun c k => counter_incr k c) items c
  = c ++ ((fun k => (k, 1)) <$> items).
Proof.
  revert c. induction items as [|x items IH]; intros c Hnd; simpl.
  { by rewrite app_nil_r. }
  assert (x ∉ c.*1) as Hx.
  { apply NoDup_app in Hnd as (_ & Hd & _). intros Hin.
    apply (Hd _ Hin). by left. }
  unfold counter_incr at 2.
  rewrite (proj2 (dict_get_None x c) Hx), dict_set_fresh by done.
  rewrite IH; [by rewrite <- app_assoc|].
  rewrite fmap_app. simpl. by rewrite <- app_assoc.
Qed.

(** Over distinct items the counter lists them in order, each once. *)
Lemma Counter_NoDup items :
  NoDup items → Counter items = (fun k => (k, 1)) <$> items.
Proof. intros Hnd. unfold Counter. by rewrite Counter_NoDup_from. Qed.

Lemma sort_desc_unchanged {A} (key : A -> Z) (l : list A) :
  (∀ x y, x ∈ l → y ∈ l → key x = key y) →
  sort_desc Z.gtb key l = l.
Proof.
  induction l as [|x l IH]; intros Hl; [done|].
  unfold sort_desc in *. simpl. rewrite IH.
  - destruct l as [|y l]; [done|]. simpl.
    rewrite (Hl y x) by (rewrite !elem_of_cons; auto).
    by assert ((key x >? key x) = false) as -> by lia.
  - intros a b Ha Hb. apply Hl; by right.
Qed.
End CounterFacts.

(** ** Tags *)

Lemma ranked_take_top {A K} (gtb : K -> K -> bool) (key : A -> K) l n x y :
  ranked gtb key l → NoDup l →
  x ∈ take n l → y ∈ l → y ∉ take n l → gtb (key y) (key x) = false.
Proof.
  intros Hl Hnd Hx Hy Hny.
  apply list_elem_of_lookup_1 in Hx as [i Hi].
  apply lookup_take_Some in Hi as [Hi Hin].
  apply list_elem_of_lookup_1 in Hy as [j Hj].
  destruct (decide (j < n)%nat) as [Hjn|Hjn].
  - exfalso. apply Hny. apply list_elem_of_lookup_2 with j.
    by apply lookup_take_Some.
  - apply (Hl i j); [lia|done..].
Qed.

Lemma most_common_spec {K} `{EqDecision K} (items : list K) n :
  let top := (most_common n (Counter items)).*1 in
  (length top ≤ n)%nat
  ∧ NoDup top
  ∧ (∀ k, k ∈ top → k ∈ items)
  ∧ (∀ k c, (k, c) ∈ most_common n (Counter items) →
            c = occurrences k items)
  ∧ (∀ i j a b, (i < j)%nat → top !! i = Some a → top !! j = Some b →
                occurrences b items ≤ occurrences a items)
  ∧ (∀ b, b ∈ items → b ∉ top →
          length top = n
          ∧ ∀ a, a ∈ top → occurrences b items ≤ occurrences a items)
  ∧ ranked Z.gtb snd (most_common n (Counter items)).
Proof.
  destruct (Counter_spec items) as (Hnd & Hkeys & Hcount).
  pose proof (sort_desc_perm Z.gtb snd (Counter items)) as Hperm.
  set (sorted := sort_desc Z.gtb snd (Counter items)) in *.
  assert (NoDup sorted.*1) as Hnds by by rewrite Hperm.
  assert (∀ k c, (k, c) ∈ sorted → c = occurrences k items) as Hcs.
  { intros k c Hin. apply Hcount. by rewrite <- Hperm. }
  assert (ranked Z.gtb snd sorted) as Hrank.
  { apply StronglySorted_ranked, sort_desc_sorted;
      [apply Z_gtb_asym|apply Z_gtb_negtrans]. }
  unfold most_common. fold sorted. simpl. split_and!.
  - rewrite length_fmap, length_take. lia.
  - by apply NoDup_take_fmap.
  - intros k [[k' c] [-> Hin]]%list_elem_of_fmap. apply Hkeys.
    rewrite <- Hperm. apply list_elem_of_fmap. exists (k', c).
    split; [done|]. eapply elem_of_sublist; [exact Hin|apply sublist_take].
  - intros k c Hin. apply Hcs.
    eapply elem_of_sublist; [exact Hin|apply sublist_take].
  - intros i j a b Hij Ha Hb.
    apply list_lookup_fmap_Some in Ha as ([a' ca] & -> & Ha).
    apply list_lookup_fmap_Some in Hb as ([b' cb] & -> & Hb).
    pose proof (ranked_take _ _ _ n Hrank i j _ _ Hij Ha Hb) as Hle.
    apply lookup_take_Some in Ha as [Ha _].
    apply lookup_take_Some in Hb as [Hb _].
    apply list_elem_of_lookup_2 in Ha, Hb.
    apply Hcs in Ha, Hb. simpl in *. lia.
  - intros b Hb Hnb.
    apply Hkeys in Hb. rewrite <- Hperm in Hb.
    apply list_elem_of_fmap in Hb as ([b' cb] & -> & Hb).
    assert ((b', cb) ∉ take n sorted) as Hout.
    { intros Hin. apply Hnb, list_elem_of_fmap. by exists (b', cb). }
    split.
    + rewrite length_fmap, length_take.
      destruct (decide (n ≤ length sorted)%nat); [lia|].
      exfalso. apply Hout. rewrite take_ge by lia. done.
    + intros a [[a' ca] [-> Ha]]%list_elem_of_fmap.
      pose proof (ranked_take_top Z.gtb snd sorted n _ _ Hrank
                    (NoDup_fmap_1 _ _ Hnds) Ha Hb Hout) as Hle.
      assert ((a', ca) ∈ sorted) as Ha'.
      { eapply elem_of_sublist; [exact Ha|apply sublist_take]. }
      apply Hcs in Ha', Hb. simpl in *. lia.
  - by apply ranked_take.
Qed.

Lemma category_tag_pool_eq db category_id :
  _get_category_tags db category_id
  = (most_common 10 (Counter (category_tag_pool db category_id))).*1.
Proof.
  unfold _get_category_tags, category_tag_pool, sampled_for_tags,
    query_products.
  do 3 f_equal.
  rewrite (list_filter_iff _
             (fun r : Z * Product.t =>
                Product.category_id r.2 = Some category_id
                ∧ Product.tags_column r.2 ≠ SqlNull)).
  - f_equal. apply list_fmap_ext. intros i [id p] _. simpl.
    by destruct (Product.tags p) as [[|]|].
  - intros [id p]. simpl. unfold in_category.
    rewrite andb_True, bool_decide_spec.
    destruct (Product.tags_column p); naive_solver.
Qed.

Lemma elem_of_category_tag_pool db category_id t :
  t ∈ category_tag_pool db category_id →
  ∃ id p ts, products db !! id = Some p
             ∧ Product.category_id p = Some category_id
             ∧ Product.tags p = Some ts ∧ t ∈ ts.
Proof.
  unfold category_tag_pool, sampled_for_tags.
  intros Hin. apply list_elem_of_In, in_concat in Hin as (ts & Hts & Ht).
  apply list_elem_of_In in Hts, Ht.
  apply list_elem_of_fmap in Hts as ([id p] & -> & Hin).
  assert ((id, p) ∈ filter (fun r : Z * Product.t =>
                              Product.category_id r.2 = Some category_id
                              ∧ Product.tags_column r.2 ≠ SqlNull)
                           (table_rows (products db))) as Hin'.
  { eapply elem_of_sublist; [exact Hin|apply sublist_take]. }
  apply list_elem_of_filter in Hin' as [[Hcat _] Hrow].
  apply elem_of_table_rows in Hrow. simpl in *.
  destruct (Product.tags p) as [ts|] eqn:Hts; [|by apply elem_of_nil in Ht].
  by exists id, p, ts.
Qed.

Lemma _get_category_tags_NoDup db category_id :
  NoDup (_get_category_tags db category_id)
  ∧ (length (_get_category_tags db category_id) ≤ 10)%nat.
Proof.
  rewrite category_tag_pool_eq.
  destruct (most_common_spec (category_tag_pool db category_id) 10)
    as (Hlen & Hnd & _).
  done.
Qed.

(** The tags of a category are its (at most) ten most frequent tags,
    most frequent first and each once: tags of products of that
    category, counted over the first hundred products of the category,
    by id and of any status, whose tags column is not SQL [NULL]. A
    product written without tags holds the JSON [null] there: it is
    among the hundred and contributes no tag. A tag of the hundred that
    is left out is no more frequent than any of the ten returned.
    Where a hundred products written without tags come first, the tags
    of a later product are not returned; where their column is SQL
    [NULL], they are. *)
Theorem _get_category_tags_spec :
  (∀ db category_id,
      let tags := _get_category_tags db category_id in
      let count t := occurrences t (category_tag_pool db category_id) in
      (length tags ≤ 10)%nat
      ∧ NoDup tags
      ∧ (∀ t, t ∈ tags →
              ∃ id p ts, products db !! id = Some p
                         ∧ Product.category_id p = Some category_id
                         ∧ Product.tags p = Some ts ∧ t ∈ ts)
      ∧ (∀ i j a b, (i < j)%nat → tags !! i = Some a → tags !! j = Some b →
                    count b ≤ count a)
      ∧ (∀ b, b ∈ category_tag_pool db category_id → b ∉ tags →
              length tags = 10%nat ∧ ∀ a, a ∈ tags → count b ≤ count a))
  ∧ _get_category_tags (crowded_db (Json None)) 1 = []
  ∧ _get_category_tags (crowded_db SqlNull) 1 = ["late"].
Proof.
  split_and!; [|vm_compute; reflexivity..].
  intros db category_id. simpl. rewrite category_tag_pool_eq.
  destruct (most_common_spec (category_tag_pool db category_id) 10)
    as (Hlen & Hnd & Hin & _ & Hrank & Htop & _).
  split_and!; [done..| |done|done].
  intros t Ht. by apply elem_of_category_tag_pool, Hin.
Qed.

(** ** Keywords *)

Lemma unique_loop_spec seen l :
  NoDup (unique_loop seen l)
  ∧ (∀ k, k ∈ unique_loop seen l ↔ k ∈ l ∧ k ∉ seen)
  ∧ sublist (unique_loop seen l) l.
Proof.
  revert seen. induction l as [|x l IH]; intros seen; simpl.
  { split_and!; [constructor| |done]. intros k. rewrite elem_of_nil. tauto. }
  destruct (decide (x ∈ seen)) as [Hx|Hx].
  - destruct (IH seen) as (Hnd & Hin & Hsub). split_and!; [done| |].
    + intros k. rewrite Hin, elem_of_cons. naive_solver.
    + by apply sublist_cons.
  - destruct (IH ({[x]} ∪ seen)) as (Hnd & Hin & Hsub). split_and!.
    + constructor; [|done]. rewrite Hin. set_solver.
    + intros k. rewrite !elem_of_cons, Hin.
      destruct (decide (k = x)) as [->|]; [naive_solver|]. set_solver.
    + by apply sublist_skip.
Qed.

Lemma unique_loop_NoDup seen l :
  NoDup l → (∀ k, k ∈ l → k ∉ seen) → unique_loop seen l = l.
Proof.
  revert seen. induction l as [|x l IH]; intros seen Hnd Hseen; [done|].
  simpl. apply NoDup_cons in Hnd as [Hx Hnd].
  rewrite decide_False by (apply Hseen; by left). f_equal.
  apply IH; [done|]. intros k Hk. specialize (Hseen k). 
  rewrite elem_of_cons in Hseen. set_solver.
Qed.

Lemma chars_string_map f s : chars (string_map f s) = f <$> chars s.
Proof.
  induction s as [|c s IH]; simpl; [done|].
  unfold chars in *. simpl. by rewrite IH.
Qed.

Lemma chars_app s1 s2 : chars (s1 +:+ s2) = chars s1 ++ chars s2.
Proof.
  induction s1 as [|c s IH]; simpl; [done|].
  unfold chars in *. simpl. by rewrite IH.
Qed.

Lemma chars_of_list l : chars (String.string_of_list_ascii l) = l.
Proof. apply String.list_ascii_of_string_of_list_ascii. Qed.

Lemma of_list_chars s : String.string_of_list_ascii (chars s) = s.
Proof. apply String.string_of_list_ascii_of_string. Qed.

Lemma string_map_id f s :
  Forall (fun c => f c = c) (chars s) → string_map f s = s.
Proof.
  induction s as [|c s IH]; [done|]. unfold chars in *. simpl.
  intros [Hc Hs]%Forall_cons. rewrite Hc. f_equal. auto.
Qed.

Ltac each_char c :=
  destruct c as [[] [] [] [] [] [] [] []]; vm_compute; try done.

Lemma lower_char_not_upper c : is_upper (lower_char c) = false.
Proof. each_char c. Qed.

Lemma keyword_char_lower c : keyword_char c = true → lower_char c = c.
Proof. each_char c. Qed.

Lemma keyword_char_word c :
  keyword_char c = true → is_word c = true ∧ is_space c = false.
Proof. each_char c. Qed.

Lemma word_not_upper c :
  is_word c = true → is_upper c = false → keyword_char c = true.
Proof. each_char c. Qed.

Lemma is_space_not_word c : is_space c = true → is_word c = false.
Proof. each_char c. Qed.

Lemma split_go_words (P : ascii → Prop) s cur :
  (∀ c, c ∈ chars s → is_space c = false → P c) → Forall P cur →
  Forall (fun w => w ≠ EmptyString ∧ Forall P (chars w)) (split_go s cur).
Proof.
  revert cur. induction s as [|c s IH]; intros cur Hs Hcur; simpl.
  - destruct cur as [|a cur]; [constructor|]. constructor; [|constructor].
    split.
    + intros Heq. apply (f_equal chars) in Heq. rewrite chars_of_list in Heq.
      simpl in Heq. by destruct (rev cur).
    + rewrite chars_of_list. by apply Forall_rev.
  - assert (∀ c', c' ∈ chars s → is_space c' = false → P c') as Hs'.
    { intros c' Hc'. apply Hs. unfold chars in *. simpl. by right. }
    destruct (is_space c) eqn:Hc.
    + specialize (IH [] Hs' (Forall_nil_2 _)).
      destruct cur as [|a cur]; [done|]. constructor; [|done]. split.
      * intros Heq. apply (f_equal chars) in Heq. rewrite chars_of_list in Heq.
        simpl in Heq. by destruct (rev cur).
      * rewrite chars_of_list. by apply Forall_rev.
    + apply IH; [done|]. constructor; [|done]. apply Hs; [|done].
      unfold chars. simpl. by left.
Qed.

Lemma stripped_char c :
  let c' := lower_char c in
  let c'' := if is_word c' || is_space c' then c' else " "%char in
  is_space c'' = false → keyword_char c'' = true.
Proof. each_char c. Qed.

Lemma keyword_char_stripped c :
  keyword_char c = true ∨ c = " "%char →
  (if is_word (lower_char c) || is_space (lower_char c)
   then lower_char c else " "%char) = c.
Proof. intros [Hc| ->]; [|done]. revert Hc. each_char c. Qed.

Lemma strip_lower_chars text :
  chars (strip_special (lower text))
  = (fun c => let c' := lower_char c in
              if is_word c' || is_space c' then c' else " "%char)
      <$> chars text.
Proof.
  unfold strip_special, lower. rewrite !chars_string_map, <- list_fmap_compose.
  done.
Qed.

Lemma length_chars s : length (chars s) = String.length s.
Proof.
  induction s as [|c s IH]; [done|].
  unfold chars in *. simpl. by rewrite IH.
Qed.

Lemma _extract_keywords_facts text :
  let words := split (strip_special (lower text)) in
  let keywords := _extract_keywords text in
  NoDup keywords
  ∧ (∀ k, k ∈ keywords ↔
          k ∈ words ∧ (2 < String.length k)%nat ∧ k ∉ stop_words)
  ∧ (∀ k, k ∈ keywords → Forall (fun c => keyword_char c = true) (chars k)).
Proof.
  simpl. unfold _extract_keywords.
  set (words := split (strip_special (lower text))).
  set (keep := fun word : string => _).
  destruct (unique_loop_spec ∅ (filter keep words)) as (Hnd & Hin & Hsub).
  assert (∀ k, k ∈ unique_loop ∅ (filter keep words) ↔
               k ∈ words ∧ (2 < String.length k)%nat ∧ k ∉ stop_words) as Hk.
  { intros k. rewrite Hin, list_elem_of_filter. unfold keep.
    rewrite andb_True, negb_True, bool_decide_spec, Is_true_true, Nat.ltb_lt.
    set_solver. }
  split_and!; [done..|].
  intros k [Hw _]%Hk.
  assert (Forall (fun w => w ≠ EmptyString
                           ∧ Forall (fun c => keyword_char c = true)
                                    (chars w)) words) as Hwords.
  { apply split_go_words; [|constructor].
    intros c. rewrite strip_lower_chars.
    intros (c0 & -> & _)%list_elem_of_fmap. apply stripped_char. }
  rewrite Forall_forall in Hwords. by apply Hwords.
Qed.

Lemma unique_loop_order seen l i j a b :
  (i < j)%nat →
  unique_loop seen l !! i = Some a → unique_loop seen l !! j = Some b →
  ∃ n, l !! n = Some a ∧ b ∉ take n l.
Proof.
  revert seen i j. induction l as [|x l IH]; intros seen i j Hij Ha Hb.
  { done. }
  simpl in Ha, Hb.
  assert (∀ seen', x ∈ seen' → b ∈ unique_loop seen' l → b ≠ x) as Hne.
  { intros seen' Hx Hin ->. by apply unique_loop_spec in Hin as [_ Hout]. }
  destruct (decide (x ∈ seen)) as [Hx|Hx].
  - destruct (IH seen i j Hij Ha Hb) as (n & Hn & Hout).
    exists (S n). split; [done|]. simpl. rewrite not_elem_of_cons.
    split; [|done]. apply (Hne seen Hx). by eapply list_elem_of_lookup_2.
  - destruct i as [|i].
    + injection Ha as <-. exists 0%nat. split; [done|]. apply not_elem_of_nil.
    + destruct j as [|j]; [lia|]. simpl in Ha, Hb.
      destruct (IH _ i j ltac:(lia) Ha Hb) as (n & Hn & Hout).
      exists (S n). split; [done|]. simpl. rewrite not_elem_of_cons.
      split; [|done]. apply (Hne ({[x]} ∪ seen)); [set_solver|].
      by eapply list_elem_of_lookup_2.
Qed.

Lemma filter_lookup_take {A} (P : A → Prop) `{∀ x, Decision (P x)}
    (l : list A) n a :
  filter P l !! n = Some a →
  ∃ m, l !! m = Some a ∧ take n (filter P l) = filter P (take m l).
Proof.
  revert n. induction l as [|x l IH]; intros n Hn.
  { done. }
  rewrite filter_cons in Hn. destruct (decide (P x)) as [Hx|Hx].
  - destruct n as [|n].
    + injection Hn as <-. exists 0%nat. by rewrite filter_cons_True.
    + simpl in Hn. destruct (IH n Hn) as (m & Hm & Heq).
      exists (S m). split; [done|]. simpl.
      by rewrite !filter_cons_True, <- Heq by done.
  - destruct (IH n Hn) as (m & Hm & Heq).
    exists (S m). split; [done|]. simpl.
    by rewrite !filter_cons_False by done.
Qed.

(** The keywords of a text are distinct words of the lower-cased,
    cleaned text, in the order in which they first occur there:
    exactly the words longer than two characters that are no stop
    word, each made of lower-case letters, digits and underscores
    only. *)
Theorem _extract_keywords_spec text :
  let words := split (strip_special (lower text)) in
  let keywords := _extract_keywords text in
  NoDup keywords
  ∧ sublist keywords words
  ∧ (∀ k, k ∈ keywords ↔
          k ∈ words ∧ (2 < String.length k)%nat ∧ k ∉ stop_words)
  ∧ (∀ k, k ∈ keywords → Forall (fun c => keyword_char c = true) (chars k))
  ∧ (∀ i j a b,
       (i < j)%nat → keywords !! i = Some a → keywords !! j = Some b →
       ∃ n, words !! n = Some a ∧ b ∉ take n words).
Proof.
  destruct (_extract_keywords_facts text) as (Hnd & Hin & Hchars).
  split_and!; [done| |done..|].
  - unfold _extract_keywords.
    etrans; [apply unique_loop_spec|apply sublist_filter].
  - cbv zeta. unfold _extract_keywords.
    set (words := split (strip_special (lower text))).
    set (keep := fun word : string => _).
    intros i j a b Hij Ha Hb.
    assert (b ∈ filter keep words) as Hkeep.
    { eapply elem_of_sublist; [|apply unique_loop_spec].
      by eapply list_elem_of_lookup_2. }
    apply list_elem_of_filter in Hkeep as [Hkeep _].
    destruct (unique_loop_order _ _ _ _ _ _ Hij Ha Hb) as (n & Hn & Hout).
    destruct (filter_lookup_take _ _ _ _ Hn) as (m & Hm & Heq).
    exists m. split; [done|]. intros Hb'. apply Hout. rewrite Heq.
    by apply list_elem_of_filter.
Qed.

Lemma split_go_app w rest cur :
  Forall (fun c => is_space c = false) (chars w) →
  split_go (w +:+ rest) cur = split_go rest (rev (chars w) ++ cur).
Proof.
  revert cur. induction w as [|c w IH]; intros cur Hw; [done|].
  unfold chars in *. simpl in *. apply Forall_cons in Hw as [Hc Hw].
  rewrite Hc, IH by done. by rewrite <- app_assoc.
Qed.

Lemma append_empty s : s +:+ EmptyString = s.
Proof.
  induction s as [|c s IH]; [done|].
  change (String c (s +:+ EmptyString) = String c s). by f_equal.
Qed.

Lemma split_go_word w rest :
  w ≠ EmptyString → Forall (fun c => is_space c = false) (chars w) →
  split_go (w +:+ String " " rest) [] = w :: split_go rest []
  ∧ split_go w [] = [w].
Proof.
  intros Hne Hw.
  pose proof (split_go_app w (String " " rest) [] Hw) as Hfirst.
  pose proof (split_go_app w EmptyString [] Hw) as Hlast.
  rewrite append_empty in Hlast. rewrite Hfirst, Hlast, app_nil_r.
  assert (String.string_of_list_ascii (rev (rev (chars w))) = w) as Hback.
  { rewrite rev_involutive. apply of_list_chars. }
  assert (rev (chars w) ≠ []) as Hrev.
  { intros Heq. apply (f_equal length) in Heq.
    rewrite length_rev, length_chars in Heq. by destruct w. }
  revert Hback Hrev. generalize (rev (chars w)). intros cur Hback Hrev.
  destruct cur; [done|]. simpl in *. by rewrite Hback.
Qed.

Lemma split_join ws :
  Forall (fun w => w ≠ EmptyString
                   ∧ Forall (fun c => is_space c = false) (chars w)) ws →
  split (str_join " " ws) = ws.
Proof.
  unfold split, str_join. induction 1 as [|w ws [Hne Hw] Hws IH]; [done|].
  destruct (split_go_word w EmptyString Hne Hw) as [_ Hone].
  destruct ws as [|w' ws]; [exact Hone|].
  change (String.concat " " (w :: w' :: ws))
    with (w +:+ String " " (String.concat " " (w' :: ws))).
  destruct (split_go_word w (String.concat " " (w' :: ws)) Hne Hw) as [-> _].
  by rewrite IH.
Qed.

Lemma chars_join (P : ascii → Prop) ws :
  P " "%char → Forall (fun w => Forall P (chars w)) ws →
  Forall P (chars (str_join " " ws)).
Proof.
  intros Hsp. unfold str_join. induction 1 as [|w ws Hw Hws IH]; [constructor|].
  destruct ws as [|w' ws]; [exact Hw|].
  change (String.concat " " (w :: w' :: ws))
    with (w +:+ String " " (String.concat " " (w' :: ws))).
  rewrite chars_app. apply Forall_app. split; [done|].
  change (chars (String " " ?s)) with (" "%char :: chars s).
  by constructor.
Qed.

Lemma filter_all {A} (P : A → Prop) `{∀ x, Decision (P x)} (l : list A) :
  Forall P l → filter P l = l.
Proof.
  induction 1 as [|x l Hx Hl IH]; [done|].
  by rewrite filter_cons_True, IH.
Qed.

(** Extracting the keywords of the keywords, joined by spaces, gives
    the same keywords. *)
Theorem _extract_keywords_idempotent text :
  _extract_keywords (str_join " " (_extract_keywords text))
  = _extract_keywords text.
Proof.
  destruct (_extract_keywords_facts text) as (Hnd & Hin & Hchars).
  set (ws := _extract_keywords text) in *.
  unfold _extract_keywords at 1.
  assert (strip_special (lower (str_join " " ws)) = str_join " " ws) as ->.
  { unfold strip_special, lower.
    assert (Forall (fun c => keyword_char c = true ∨ c = " "%char)
                   (chars (str_join " " ws))) as Hall.
    { apply chars_join; [by right|]. rewrite Forall_forall. intros w Hw.
      eapply Forall_impl; [by apply Hchars|]. by left. }
    rewrite (string_map_id lower_char).
    - apply string_map_id. eapply Forall_impl; [exact Hall|].
      intros c Hc. pose proof (keyword_char_stripped c Hc) as Hs.
      destruct Hc as [Hc| ->]; [|done].
      by rewrite (keyword_char_lower c Hc) in Hs.
    - eapply Forall_impl; [exact Hall|].
      intros c [Hc| ->]; [by apply keyword_char_lower|done]. }
  rewrite split_join.
  - rewrite filter_all.
    + apply unique_loop_NoDup; [done|]. intros k _. apply not_elem_of_empty.
    + rewrite Forall_forall. intros k (_ & Hlen & Hstop)%Hin.
      rewrite andb_True, negb_True, bool_decide_spec, Is_true_true, Nat.ltb_lt.
      done.
  - rewrite Forall_forall. intros k Hk. split.
    + apply Hin in Hk as (_ & Hlen & _). intros ->. simpl in Hlen. lia.
    + eapply Forall_impl; [by apply Hchars|].
      intros c Hc. by apply keyword_char_word.
Qed.

(** ** Generated tags *)

Lemma occurrences_app {K} `{EqDecision K} (k : K) l1 l2 :
  occurrences k (l1 ++ l2) = occurrences k l1 + occurrences k l2.
Proof. unfold occurrences. rewrite filter_app, length_app. lia. Qed.

Lemma occurrences_NoDup {K} `{EqDecision K} (k : K) l :
  NoDup l → occurrences k l = if decide (k ∈ l) then 1 else 0.
Proof.
  induction 1 as [|x l Hx Hl IH].
  { rewrite decide_False by apply not_elem_of_nil. done. }
  rewrite occurrences_cons, IH.
  destruct (decide (x = k)) as [->|Hne].
  - rewrite decide_False by done. rewrite decide_True by by left. done.
  - destruct (decide (k ∈ l)).
    + rewrite decide_True by by right. done.
    + rewrite decide_False; [done|]. rewrite not_elem_of_cons. naive_solver.
Qed.

Lemma listing_text_eq title description :
  (if str_truthy description
   then title +:+ " " +:+ default "" description else title)
  = listing_text title description.
Proof. by destruct description as [[|]|]. Qed.

Lemma tags_of_category_NoDup db category_id :
  NoDup (tags_of_category db category_id).
Proof.
  unfold tags_of_category. destruct category_id as [c|]; [|constructor].
  destruct (decide _); [constructor|]. apply _get_category_tags_NoDup.
Qed.

Lemma generate_tags_counted db title description category_id :
  let top :=
    most_common 10
      (Counter (_extract_keywords (listing_text title description)
                ++ tags_of_category db category_id)) in
  generate_tags db title description category_id
  = {| TagsResult.tags := top.*1; TagsResult.confidence_scores := top |}.
Proof.
  simpl. unfold generate_tags. rewrite listing_text_eq.
  set (keywords := _extract_keywords _).
  assert ((if int_truthy category_id
           then _get_category_tags db (default 0 category_id) else [])
          = tags_of_category db category_id) as ->.
  { destruct category_id as [c|]; simpl; [|done].
    destruct (decide (c = 0)) as [->|Hc]; [done|].
    by rewrite (proj2 (Z.eqb_neq c 0) Hc). }
  fold (most_common 10 (Counter (keywords ++ tags_of_category db category_id))).
  rewrite dict_of_pairs_NoDup; [done|].
  apply (most_common_spec (keywords ++ tags_of_category db category_id) 10).
Qed.

Lemma generate_tags_NoDup db title description category_id :
  let tags :=
    TagsResult.tags (generate_tags db title description category_id) in
  (length tags ≤ 10)%nat ∧ NoDup tags.
Proof.
  cbv zeta. rewrite generate_tags_counted. simpl.
  split; apply (most_common_spec _ 10).
Qed.

Lemma generate_tags_no_category db title description category_id :
  tags_of_category db category_id = [] →
  let keywords := _extract_keywords (listing_text title description) in
  generate_tags db title description category_id
  = {| TagsResult.tags := take 10 keywords;
       TagsResult.confidence_scores :=
         (fun t => (t, 1)) <$> take 10 keywords |}.
Proof.
  intros Hnil. cbv zeta. rewrite generate_tags_counted, Hnil, app_nil_r.
  unfold most_common.
  rewrite Counter_NoDup by apply _extract_keywords_facts.
  rewrite sort_desc_unchanged by
    (by intros x y [? [-> _]]%list_elem_of_fmap [? [-> _]]%list_elem_of_fmap).
  rewrite <- fmap_take. f_equal.
  rewrite <- list_fmap_compose. apply list_fmap_id.
Qed.

(** The generated tags are at most ten distinct tags, each a keyword of
    the listing text or a tag of the category. A tag that is both
    scores 2, any other 1; the tags come by descending score, and the
    scores are listed with them in the same order. A candidate is left
    out only when ten tags are returned, and one that is both keyword
    and category tag only when all ten are. With no category tags the
    result is the first ten keywords, each with score 1. *)
Theorem generate_tags_spec db title description category_id :
  let result := generate_tags db title description category_id in
  let tags := TagsResult.tags result in
  let scores := TagsResult.confidence_scores result in
  let keywords := _extract_keywords (listing_text title description) in
  let category_tags := tags_of_category db category_id in
  (length tags ≤ 10)%nat
  ∧ NoDup tags
  ∧ scores.*1 = tags
  ∧ (∀ t, t ∈ tags → t ∈ keywords ∨ t ∈ category_tags)
  ∧ (∀ t n, (t, n) ∈ scores →
            n = if decide (t ∈ keywords ∧ t ∈ category_tags) then 2 else 1)
  ∧ ranked Z.gtb snd scores
  ∧ (∀ t, t ∈ keywords ∨ t ∈ category_tags → t ∉ tags →
          length tags = 10%nat
          ∧ (t ∈ keywords → t ∈ category_tags →
             ∀ t', t' ∈ tags → t' ∈ keywords ∧ t' ∈ category_tags))
  ∧ (category_tags = [] →
     tags = take 10 keywords ∧ scores = (fun t => (t, 1)) <$> tags).
Proof.
  intros result tags scores keywords category_tags.
  set (all := keywords ++ category_tags).
  assert (NoDup keywords) as Hkw by apply _extract_keywords_facts.
  assert (NoDup category_tags) as Hct by apply tags_of_category_NoDup.
  assert (∀ t, occurrences t all
               = (if decide (t ∈ keywords) then 1 else 0)
                 + (if decide (t ∈ category_tags) then 1 else 0)) as Hocc.
  { intros t. unfold all.
    by rewrite occurrences_app, !occurrences_NoDup by done. }
  assert (∀ t, t ∈ all ↔ t ∈ keywords ∨ t ∈ category_tags) as Hall.
  { intros t. unfold all. apply elem_of_app. }
  destruct (most_common_spec all 10)
    as (Hlen & Hnd & Hin & Hcount & _ & Htop & Hrank).
  subst tags scores result. split_and!.
  8: { intros Hnil. by rewrite generate_tags_no_category. }
  all: rewrite generate_tags_counted; simpl;
    fold keywords category_tags all; try done.
  - intros t Ht%Hin. by apply Hall.
  - intros t n Htn. rewrite (Hcount _ _ Htn), Hocc.
    assert (t ∈ all) as Ht.
    { apply Hin, list_elem_of_fmap. by exists (t, n). }
    apply Hall in Ht.
    destruct (decide (t ∈ keywords)), (decide (t ∈ category_tags)),
      (decide (_ ∧ _)); naive_solver.
  - intros t Ht%Hall Hout. destruct (Htop t Ht Hout) as [Hfull Hle].
    split; [done|]. intros Hk Hc t' Ht'. specialize (Hle t' Ht').
    rewrite !Hocc in Hle. rewrite !decide_True in Hle by done.
    destruct (decide (t' ∈ keywords)), (decide (t' ∈ category_tags));
      [done|lia..].
Qed.

(** ** The classification answer *)

Section ClassifySpec.
Context {F : Type} {num : PyFloat F} {ext : External F}.

(** The answer never carries the category id 0, and its tags are at
    most ten and distinct; the images play no part in it. Either the
    classifier predicted a category other than 0, and name, tags and
    price range are those of that category; or the answer carries the
    default id 1 with the name Unknown, and then neither tags nor
    price range are taken from category 1: the tags are the first ten
    keywords of the text and there is no price range. *)
Theorem classify_product_consistent (self : ClassificationService) db
    title description images :
  let text := listing_text title description in
  let result := classify_product self db title description images in
  ClassificationResult.category_id result ≠ 0
  ∧ (length (ClassificationResult.suggested_tags result) ≤ 10)%nat
  ∧ NoDup (ClassificationResult.suggested_tags result)
  ∧ (∀ images', classify_product self db title description images' = result)
  ∧ ((∃ clf c,
        category_classifier self = Some clf
        ∧ predict clf text = Ok c
        ∧ c ≠ 0
        ∧ ClassificationResult.category_id result = c
        ∧ ClassificationResult.category_name result
          = match categories db !! c with
            | Some category => Category.name category
            | None => "Unknown"
            end
        ∧ ClassificationResult.suggested_tags result
          = TagsResult.tags (generate_tags db title description (Some c))
        ∧ ClassificationResult.suggested_price_range result
          = _suggest_price_range db title description (Some c))
     ∨ (ClassificationResult.category_id result = 1
        ∧ ClassificationResult.category_name result = "Unknown"
        ∧ ClassificationResult.suggested_tags result
          = take 10 (_extract_keywords text)
        ∧ ClassificationResult.suggested_price_range result = None)).
Proof.
  intros text result.
  assert (∀ category_id,
            int_truthy category_id = false →
            TagsResult.tags (generate_tags db title description category_id)
            = take 10 (_extract_keywords text)
            ∧ _suggest_price_range db title description category_id = None)
    as Hdefault.
  { intros category_id Hc. split.
    - rewrite generate_tags_no_category; [done|].
      destruct category_id as [c|]; [|done]. simpl in *.
      apply negb_false_iff, Z.eqb_eq in Hc. by rewrite Hc.
    - unfold _suggest_price_range. by rewrite Hc. }
  subst result. unfold classify_product. rewrite listing_text_eq. fold text.
  set (prediction := match category_classifier self with
                     | Some clf => _
                     | None => _
                     end).
  destruct prediction as [predicted confidence] eqn:Hp.
  split_and!;
    cbn [ClassificationResult.category_id ClassificationResult.category_name
         ClassificationResult.suggested_tags
         ClassificationResult.suggested_price_range].
  - destruct predicted as [c|]; simpl; [|done].
    destruct (Z.eqb_spec c 0); simpl; [done|lia].
  - apply generate_tags_NoDup.
  - apply generate_tags_NoDup.
  - done.
  - destruct (int_truthy predicted) eqn:Ht.
    + left. destruct predicted as [c|]; [|done]. simpl in Ht.
      apply negb_true_iff, Z.eqb_neq in Ht.
      unfold prediction in Hp.
      destruct (category_classifier self) as [clf|]; [|done].
      exists clf, c. simpl in Hp.
      destruct (predict clf text) as [c'|e]; [|done]. simpl in Hp.
      assert (c' = c) as ->.
      { by destruct (predict_proba_max clf text); injection Hp as -> _. }
      unfold generate_tags, _suggest_price_range. simpl.
      by rewrite (proj2 (Z.eqb_neq c 0) Ht).
    + right. by destruct (Hdefault predicted Ht) as [-> ->].
Qed.
End ClassifySpec.

(** ** Training the classifiers *)

Section TrainingFacts.
Context {F : Type} {num : PyFloat F} {ext : External F}.
Implicit Types (self : ClassificationService) (db : DB) (fs : ModelFiles).

Lemma training_products_eq db :
  query_products db
    (fun p => is_active p && bool_decide (Product.category_id p ≠ None))
  = training_products db.
Proof.
  unfold query_products, training_products. apply list_filter_iff.
  intros [id p]. simpl. unfold is_active.
  rewrite andb_True, !bool_decide_spec, is_Some_alt.
  destruct (Product.category_id p); naive_solver.
Qed.

Lemma training_text_eq p :
  training_text p = listing_text (Product.title p) (Product.description p).
Proof. unfold training_text. apply listing_text_eq. Qed.

Lemma training_categories db :
  Forall2 (fun r c => Product.category_id r.2 = Some c)
    (training_products db)
    (omap (fun r : Z * Product.t => Product.category_id r.2)
          (training_products db)).
Proof.
  unfold training_products.
  induction (table_rows (products db)) as [|[id p] l IH]; [constructor|].
  rewrite filter_cons. destruct (decide _) as [[_ [c Hc]]|]; [|done].
  simpl in Hc. csimpl. rewrite Hc. simpl. by constructor.
Qed.

Lemma tagged_truthy p : list_truthy (Product.tags p) = true ↔ tagged p.
Proof.
  unfold tagged. destruct (Product.tags p) as [[|t ts]|]; simpl;
    split; try done; try (by intros (? & ? & ?)); eauto.
Qed.

Lemma tags_list_nil (l : list (Z * Product.t)) :
  omap (fun r : Z * Product.t =>
          if list_truthy (Product.tags r.2) then Product.tags r.2 else None) l
  = [] ↔ Forall (fun r => ¬ tagged r.2) l.
Proof.
  induction l as [|[id p] l IH]; csimpl; [by split; [constructor|]|].
  rewrite Forall_cons, <- IH. simpl. rewrite <- tagged_truthy.
  destruct (list_truthy (Product.tags p)) eqn:Ht.
  - destruct (Product.tags p) as [ts|]; [|done]. simpl. naive_solver.
  - naive_solver.
Qed.

Lemma training_tags_eq db :
  omap (fun r : Z * Product.t =>
          if list_truthy (Product.tags r.2) then Product.tags r.2 else None)
       (training_products db)
  = training_tags db.
Proof.
  unfold training_tags. apply list_omap_ext, Forall2_same_length_lookup.
  split; [done|]. intros i x y Hx Hy. rewrite Hx in Hy. injection Hy as <-.
  by destruct (Product.tags x.2) as [[|]|].
Qed.

Lemma training_tags_nil db :
  training_tags db = [] ↔ Forall (fun r => ¬ tagged r.2) (training_products db).
Proof. rewrite <- training_tags_eq. apply tags_list_nil. Qed.

Lemma training_set_aligned db :
  Forall2 (fun r text =>
             text = listing_text (Product.title r.2) (Product.description r.2))
    (training_products db) (training_texts db)
  ∧ Forall2 (fun r label => Product.category_id r.2 = Some label)
      (training_products db) (training_labels db).
Proof.
  split; [|apply training_categories].
  apply Forall2_fmap_r, Forall_Forall2_diag, Forall_forall. done.
Qed.

(** A rebuild over a catalog with a training product, step by step:
    the fit, then the tag model when a training product carries a
    tag, then the save. *)
Lemma _build_classification_models_eq self db fs :
  training_products db ≠ [] →
  _build_classification_models self db fs
  = (c ← fit (training_texts db) (training_labels db);
     let self' :=
       {| category_classifier := Some c;
          tag_classifier :=
            if is_empty (training_tags db) then tag_classifier self
            else Some
                   {| TagModel.tags :=
                        (most_common 50
                           (Counter (concat (training_tags db)))).*1;
                      TagModel.features :=
                        (fun text =>
                           (fun tag =>
                              if str_contains (lower tag) (lower text)
                              then 1 else 0)
                             <$> (most_common 50
                                    (Counter
                                       (concat (training_tags db)))).*1)
                          <$> training_texts db |} |} in
     Ok (self', _save_classification_models self' fs)).
Proof.
  intros Hne. unfold _build_classification_models.
  rewrite training_products_eq. cbv zeta. rewrite training_tags_eq.
  assert ((fun r : Z * Product.t => training_text r.2)
            <$> training_products db = training_texts db) as ->.
  { apply list_fmap_ext. intros i x _. apply training_text_eq. }
  fold (training_labels db).
  pose proof (training_categories db) as Hcats. fold (training_labels db) in Hcats.
  assert (is_empty (training_products db) = false) as ->
    by by destruct (training_products db).
  assert (is_empty (training_texts db) = false) as ->.
  { unfold training_texts. by destruct (training_products db). }
  assert (is_empty (training_labels db) = false) as ->.
  { destruct (training_labels db); [|done].
    apply Forall2_nil_inv_r in Hcats. done. }
  cbn [negb andb].
  destruct (fit _ _) as [c|e]; [|done]. cbn.
  by destruct (training_tags db).
Qed.

(** Over a catalog with an active categorised product, a rebuild fits
    the category classifier on one text and one label per such
    product, in step: the i-th text is the title and description of
    the i-th product, the i-th label its category. When the fit
    returns, the classifier that was loaded is replaced and the
    fitted one is written to the category model file; when it raises,
    the rebuild raises that error and returns no service. *)
Theorem _build_classification_models_trains self db fs :
  training_products db ≠ [] →
  ∃ texts labels,
    Forall2 (fun r text =>
               text = listing_text (Product.title r.2)
                        (Product.description r.2))
      (training_products db) texts
    ∧ Forall2 (fun r label => Product.category_id r.2 = Some label)
        (training_products db) labels
    ∧ match fit texts labels with
      | Ok c =>
          ∃ self' fs',
            _build_classification_models self db fs = Ok (self', fs')
            ∧ category_classifier self' = Some c
            ∧ category_model_file fs' = Stored c
      | Raise e => _build_classification_models self db fs = Raise e
      end.
Proof.
  intros Hne. exists (training_texts db), (training_labels db).
  destruct (training_set_aligned db) as [Htexts Hlabels].
  split; [done|]. split; [done|].
  rewrite (_build_classification_models_eq self db fs Hne).
  destruct (fit _ _) as [c|e]; [|done].
  eexists _, _. split; [reflexivity|]. done.
Qed.

Lemma training_tags_elem db ts :
  ts ∈ training_tags db →
  ∃ r, r ∈ training_products db ∧ Product.tags r.2 = Some ts.
Proof.
  intros (r & Hr & Hts)%list_elem_of_omap. exists r. split; [done|].
  by destruct (Product.tags r.2) as [[|]|]; simplify_eq.
Qed.

(** When an active categorised product carries a tag and the fit of
    the category classifier returns, a rebuild makes a tag model and
    writes it to the tag model file; when the fit raises, the rebuild
    raises that error before any model is made or written. The model
    lists at most fifty distinct tags, all of them tags of training
    products, and holds one row per training product with one entry
    per listed tag, in step with both: the entry is 1 when the
    lower-cased tag occurs in the lower-cased title and description
    of the product, and 0 otherwise. *)
Theorem _build_classification_models_tag_model self db fs r :
  r ∈ training_products db → tagged r.2 →
  ∃ texts labels m,
    Forall2 (fun r text =>
               text = listing_text (Product.title r.2)
                        (Product.description r.2))
      (training_products db) texts
    ∧ Forall2 (fun r label => Product.category_id r.2 = Some label)
        (training_products db) labels
    ∧ match fit texts labels with
      | Ok c =>
          _build_classification_models self db fs
          = Ok ({| category_classifier := Some c;
                   tag_classifier := Some m |},
                {| category_model_file := Stored c;
                   tag_model_file := Stored m |})
      | Raise e => _build_classification_models self db fs = Raise e
      end
    ∧ (length (TagModel.tags m) ≤ 50)%nat
    ∧ NoDup (TagModel.tags m)
    ∧ (∀ t, t ∈ TagModel.tags m →
            ∃ r' ts, r' ∈ training_products db
                     ∧ Product.tags r'.2 = Some ts ∧ t ∈ ts)
    ∧ length (TagModel.features m) = length (training_products db)
    ∧ (∀ i r' row,
         training_products db !! i = Some r' →
         TagModel.features m !! i = Some row →
         length row = length (TagModel.tags m)
         ∧ ∀ j t, TagModel.tags m !! j = Some t →
                  row !! j
                  = Some (if str_contains (lower t)
                               (lower (listing_text (Product.title r'.2)
                                         (Product.description r'.2)))
                          then 1 else 0)).
Proof.
  intros Hr Htag.
  assert (training_products db ≠ []) as Hne.
  { intros Hnil. rewrite Hnil in Hr. by apply elem_of_nil in Hr. }
  assert (is_empty (training_tags db) = false) as Htags.
  { destruct (training_tags db) eqn:Heq; [|done].
    apply training_tags_nil in Heq. rewrite Forall_forall in Heq.
    by destruct (Heq r Hr). }
  destruct (training_set_aligned db) as [Htexts Hlabels].
  exists (training_texts db), (training_labels db). eexists.
  split; [done|]. split; [done|]. split.
  { rewrite (_build_classification_models_eq self db fs Hne).
    destruct (fit _ _) as [c|e]; [|done]. cbn. rewrite Htags.
    unfold _save_classification_models. cbn. reflexivity. }
  cbn [TagModel.tags TagModel.features].
  destruct (most_common_spec (concat (training_tags db)) 50)
    as (Hlen & Hnd & Hin & _).
  split_and!; [done..| | |].
  - intros t Ht%Hin.
    apply list_elem_of_In, in_concat in Ht as (ts & Hts & Ht).
    apply list_elem_of_In in Hts, Ht.
    apply training_tags_elem in Hts as (r' & Hr' & Hts). by exists r', ts.
  - unfold training_texts. by rewrite !length_fmap.
  - intros i r' row Hi Hrow. unfold training_texts in Hrow.
    rewrite !list_lookup_fmap, Hi in Hrow. simpl in Hrow.
    injection Hrow as <-. split; [by rewrite length_fmap|].
    intros j t Hj. by rewrite list_lookup_fmap, Hj.
Qed.

(** While there are active categorised products and none of them
    carries a tag, no tag model is ever made, so every start of the
    service finds the tag model file missing and fits the category
    classifier anew, whatever the category model file holds. When the
    fit returns, the state the start leaves is the one the next start
    begins with, which does the same again; when the fit raises, the
    start raises that error. *)
Theorem tagless_catalog_retrains db fs :
  training_products db ≠ [] →
  Forall (fun r => ¬ tagged r.2) (training_products db) →
  tag_model_file fs = Missing →
  category_model_file fs ≠ Corrupt →
  ∃ texts labels,
    Forall2 (fun r text =>
               text = listing_text (Product.title r.2)
                        (Product.description r.2))
      (training_products db) texts
    ∧ Forall2 (fun r label => Product.category_id r.2 = Some label)
        (training_products db) labels
    ∧ match fit texts labels with
      | Ok c =>
          let self' := {| category_classifier := Some c;
                          tag_classifier := None |} in
          let fs' := {| category_model_file := Stored c;
                        tag_model_file := Missing |} in
          _load_classification_models db fs = Ok (self', fs')
          ∧ _load_classification_models db fs' = Ok (self', fs')
      | Raise e => _load_classification_models db fs = Raise e
      end.
Proof.
  intros Hne Hall Hmiss Hok.
  destruct (training_set_aligned db) as [Htexts Hlabels].
  exists (training_texts db), (training_labels db).
  split; [done|]. split; [done|].
  apply training_tags_nil in Hall.
  assert (∀ cf, cf ≠ Corrupt →
            _load_classification_models db
              {| category_model_file := cf; tag_model_file := Missing |}
            = _build_classification_models
                {| category_classifier := loaded cf;
                   tag_classifier := None |} db
                {| category_model_file := cf; tag_model_file := Missing |})
    as Hload.
  { by intros [| |c]. }
  assert (∀ self fs0,
            tag_classifier self = None → tag_model_file fs0 = Missing →
            _build_classification_models self db fs0
            = (c ← fit (training_texts db) (training_labels db);
               Ok ({| category_classifier := Some c;
                      tag_classifier := None |},
                   {| category_model_file := Stored c;
                      tag_model_file := Missing |}))) as Hbuild.
  { intros self fs0 Hself Hfs0.
    rewrite (_build_classification_models_eq self db fs0 Hne), Hall.
    destruct (fit _ _) as [c|e]; [|done]. cbn.
    unfold _save_classification_models. cbn. by rewrite Hself, Hfs0. }
  assert (_load_classification_models db fs
          = (c ← fit (training_texts db) (training_labels db);
             Ok ({| category_classifier := Some c;
                    tag_classifier := None |},
                 {| category_model_file := Stored c;
                    tag_model_file := Missing |}))) as Hfirst.
  { destruct fs as [cf tf]. simpl in Hmiss, Hok. subst tf.
    rewrite Hload by done. by apply Hbuild. }
  rewrite Hfirst.
  destruct (fit _ _) as [c|e] eqn:Hfit; [|done].
  split; [done|].
  rewrite Hload by done. by rewrite Hbuild.
Qed.

(** What a completed rebuild over a catalog with a tagged active
    categorised product saves is what every later start of the
    service loads, whatever the catalog has become by then. *)
Theorem _build_models_then_load self db db' fs r result :
  r ∈ training_products db → tagged r.2 →
  _build_classification_models self db fs = Ok result →
  _load_classification_models db' result.2 = Ok result.
Proof.
  intros Hr Htag.
  assert (training_products db ≠ []) as Hne.
  { intros Hnil. rewrite Hnil in Hr. by apply elem_of_nil in Hr. }
  assert (is_empty (training_tags db) = false) as Htags.
  { destruct (training_tags db) eqn:Heq; [|done].
    apply training_tags_nil in Heq. rewrite Forall_forall in Heq.
    by destruct (Heq r Hr). }
  rewrite (_build_classification_models_eq self db fs Hne).
  destruct (fit _ _) as [c|e]; [|done]. cbn. rewrite Htags.
  by intros [= <-].
Qed.
End TrainingFacts.

(** ** The endpoints *)

Section EndpointFacts.
Context {F : Type} {num : PyFloat F} {ext : External F}.
Implicit Types (self : RecommendationService) (db : DB).

Lemma http_guard_200 {A} message (body : exc A) a :
  http_guard message body = Http200 a → body = Ok a.
Proof. destruct body; [by intros [= ->]|done]. Qed.

Lemma py_getitem_elem_of {A} (l : list A) i x :
  py_getitem l i = Ok x → x ∈ l.
Proof.
  unfold py_getitem. cbv zeta. destruct (_ || _); [done|].
  destruct (l !! _) as [y|] eqn:Hy; [|done].
  intros [= <-]. by eapply list_elem_of_lookup_2.
Qed.

Lemma get_similar_products_ids self db product_id limit recs :
  get_similar_products self db product_id limit = Ok recs →
  ∀ r, r ∈ recs →
       Recommendation.product_id r ≠ product_id
       ∧ Recommendation.product_id r ∈ dict_keys (product_embeddings self)
       ∧ is_Some (products db !! Recommendation.product_id r).
Proof.
  unfold get_similar_products. intros Hr r Hin.
  destruct (dict_get product_id _) as [emb|];
    [destruct (index self) as [rows|]|];
    try (injection Hr as <-; by apply elem_of_nil in Hin).
  apply exc_bind_Ok in Hr as (rs & Hrs & [= <-]).
  eapply elem_of_sublist in Hin; [|apply sublist_take].
  destruct (similar_loop_entries _ _ _ _ _ Hrs r Hin)
    as (p & label & Hp & _ & _ & _ & Hkey).
  split_and!; [|by eapply py_getitem_elem_of|by rewrite Hp].
  apply similar_loop_spec in Hrs.
  assert (scored r ∈ scored <$> rs) as Hs by by apply list_elem_of_fmap_2.
  rewrite Hrs in Hs. unfold expected_neighbours in Hs.
  by apply list_elem_of_filter in Hs as [[Hne _] _].
Qed.

Lemma RecommendationService_init_stored db embeddings rows :
  RecommendationService_init db
    {| vector_file := Stored embeddings; index_file := Stored rows |}
  = Ok ({| product_embeddings := embeddings; index := Some rows |},
        {| vector_file := Stored embeddings; index_file := Stored rows |}).
Proof. done. Qed.

Lemma _build_vector_db_files self db fs :
  active_products db ≠ [] →
  ∃ rows,
    _build_vector_db self db fs
    = ({| product_embeddings :=
            (fun r => (r.1, normalize_L2 (encode (product_text r.2))))
              <$> active_products db;
          index := Some rows |},
       {| vector_file :=
            Stored ((fun r => (r.1, normalize_L2 (encode (product_text r.2))))
                      <$> active_products db);
          index_file := Stored rows |}).
Proof.
  intros Hne. pose proof (_build_vector_db_embeddings self db fs) as Hemb.
  revert Hemb. unfold _build_vector_db.
  destruct (active_products db) as [|r l]; [done|].
  cbv zeta. simpl. intros ->. by eexists.
Qed.

(** Once the index files are written they are served as they are: the
    endpoint answers a request for similar products over the catalog
    of its time from the index of the catalog the files were built on,
    and leaves the files alone. Every product it returns was active
    when the index was built and is still in the catalog, and is not
    the product asked about; a product that was not active at build
    time, such as one listed since, gets the empty answer. *)
Theorem similar_products_come_from_the_build self db0 fs0 db request pid :
  active_products db0 ≠ [] →
  int_truthy (RecommendationRequest.user_id request) = false →
  RecommendationRequest.product_id request = Some pid →
  pid ≠ 0 →
  let fs := (_build_vector_db self db0 fs0).2 in
  let indexed id :=
    ∃ p0, products db0 !! id = Some p0 ∧ Product.status p0 = active in
  ∃ body,
    recommendations.get_product_recommendations request db fs = (body, fs)
    ∧ (∀ recs, body = Http200 recs →
         ∀ r, r ∈ recs →
              indexed (Recommendation.product_id r)
              ∧ Recommendation.product_id r ≠ pid
              ∧ is_Some (products db !! Recommendation.product_id r))
    ∧ (¬ indexed pid → body = Http200 []).
Proof.
  intros Hne Huser Hpid Hnz. cbv zeta.
  destruct (_build_vector_db_files self db0 fs0 Hne) as [rows ->].
  cbn [snd]. unfold recommendations.get_product_recommendations,
    recommendations.with_service.
  rewrite RecommendationService_init_stored, Huser, Hpid.
  cbn [int_truthy default from_option id].
  rewrite (proj2 (Z.eqb_neq pid 0) Hnz).
  cbn [negb].
  set (built := {| product_embeddings := _; index := Some rows |}).
  assert (∀ id, id ∈ dict_keys (product_embeddings built) ↔
                ∃ p0, products db0 !! id = Some p0
                      ∧ Product.status p0 = active) as Hkeys.
  { intros id. unfold built, dict_keys. cbn [product_embeddings].
    rewrite <- list_fmap_compose, list_elem_of_fmap. split.
    - intros ([id' p0] & -> & Hin).
      apply elem_of_query_products in Hin as [Hp Hact].
      exists p0. split; [done|]. by apply bool_decide_eq_true in Hact.
    - intros (p0 & Hp & Hact). exists (id, p0). split; [done|].
      apply elem_of_query_products. split; [done|].
      by apply bool_decide_eq_true. }
  clearbody built. eexists. split; [reflexivity|]. split.
  - intros recs Hbody r Hr.
    apply http_guard_200 in Hbody.
    destruct (get_similar_products_ids _ _ _ _ _ Hbody r Hr) as (? & ? & ?).
    split_and!; [by apply Hkeys|done..].
  - intros Hnot. unfold get_similar_products.
    destruct (dict_get pid (product_embeddings built)) as [v|] eqn:Hget;
      [|done].
    exfalso. clear -Hnot Hkeys Hget. apply Hnot, Hkeys.
    assert (dict_get pid (product_embeddings built) ≠ None) as Hsome
      by by rewrite Hget.
    rewrite dict_get_None in Hsome.
    by destruct (decide (pid ∈ dict_keys (product_embeddings built))).
Qed.

(** An index file that cannot be read, its companion file being there,
    fails every request of the recommendations router with status
    500, and a model file that cannot be read fails every request of
    the classification router; also the requests whose answer needs
    no index or model. The files stay as they are, so the next
    request fails alike. *)
Theorem unreadable_artifact_fails_every_request db
    (fs : VectorFiles) (mfs : ModelFiles) :
  ((vector_file fs = Corrupt ∧ index_file fs ≠ Missing)
   ∨ (index_file fs = Corrupt ∧ vector_file fs ≠ Missing) →
   ∃ e,
     (∀ request,
        recommendations.get_product_recommendations request db fs
        = (Http500 "Failed to get recommendations" e, fs))
     ∧ (∀ now limit category_id,
          recommendations.get_trending_products now limit category_id db fs
          = (Http500 "Failed to get trending products" e, fs))
     ∧ (∀ limit category_id,
          recommendations.get_new_arrivals limit category_id db fs
          = (Http500 "Failed to get new arrivals" e, fs))
     ∧ (∀ user_id limit,
          recommendations.get_personalized_recommendations user_id limit
            db fs
          = (Http500 "Failed to get personalized recommendations" e, fs)))
  ∧ (category_model_file mfs = Corrupt ∨ tag_model_file mfs = Corrupt →
     (∀ request,
        classification.classify_product request db mfs
        = (Http500 "Failed to classify product" UnpicklingError, mfs))
     ∧ (∀ request,
          classification.auto_tag_product request db mfs
          = (Http500 "Failed to generate tags" UnpicklingError, mfs))
     ∧ (∀ products,
          classification.bulk_classify_products products db mfs
          = (Http500 "Failed to bulk classify products" UnpicklingError,
             mfs))
     ∧ (∀ name_contains query limit,
          classification.get_category_suggestions name_contains query
            limit db mfs
          = (Http500 "Failed to get category suggestions" UnpicklingError,
             mfs))).
Proof.
  split.
  - intros Hbad.
    assert (∃ e, RecommendationService_init db fs = Raise e) as [e He].
    { unfold RecommendationService_init, _load_or_create_vector_db.
      destruct Hbad as [[-> Hidx]|[-> Hvec]].
      - destruct (index_file fs); [done|by eexists..].
      - destruct (vector_file fs); [done|by eexists..]. }
    exists e.
    unfold recommendations.get_product_recommendations,
      recommendations.get_trending_products,
      recommendations.get_new_arrivals,
      recommendations.get_personalized_recommendations,
      recommendations.with_service.
    rewrite He. done.
  - intros Hbad.
    assert (_load_classification_models db mfs = Raise UnpicklingError)
      as He.
    { unfold _load_classification_models.
      destruct Hbad as [->| ->]; [done|].
      by destruct (category_model_file mfs). }
    unfold classification.classify_product,
      classification.auto_tag_product,
      classification.bulk_classify_products,
      classification.get_category_suggestions, classification.with_service.
    rewrite He. done.
Qed.

Lemma bulk_loop_fmap {A B} (f : A → B) (l : list A) (acc : list B) :
  fold_left (fun results x => results ++ [f x]) l acc = acc ++ (f <$> l).
Proof.
  revert acc. induction l as [|x l IH]; intros acc; simpl.
  - by rewrite app_nil_r.
  - by rewrite IH, <- app_assoc.
Qed.

(** The bulk endpoint answers product by product what the single
    endpoint answers, in the order of the request and with the same
    effect on the model files; when the service cannot be constructed
    both fail with the same error. *)
Theorem bulk_classify_is_pointwise products db (fs : ModelFiles) :
  (∃ results fs',
     classification.bulk_classify_products products db fs
     = (Http200 results, fs')
     ∧ Forall2 (fun product result =>
                  classification.classify_product product db fs
                  = (Http200 result, fs'))
         products results)
  ∨ (∃ e,
       classification.bulk_classify_products products db fs
       = (Http500 "Failed to bulk classify products" e, fs)
       ∧ ∀ product,
           classification.classify_product product db fs
           = (Http500 "Failed to classify product" e, fs)).
Proof.
  unfold classification.bulk_classify_products,
    classification.classify_product, classification.with_service.
  destruct (_load_classification_models db fs) as [[service fs']|e].
  - left. eexists _, fs'. split; [reflexivity|]. rewrite bulk_loop_fmap.
    apply Forall2_fmap_r, Forall_Forall2_diag, Forall_forall. done.
  - right. by exists e.
Qed.

(** With no category model on file and no active categorised product
    to train on, the service starts without a classifier and writes
    nothing; the classification endpoint then answers 200 with the
    default category 1 named Unknown, confidence 0.0, the first ten
    keywords of the text as tags and no price range. *)
Theorem classification_cold_start request db (fs : ModelFiles) :
  training_products db = [] →
  category_model_file fs = Missing →
  tag_model_file fs ≠ Corrupt →
  classification.classify_product request db fs
  = (Http200
       {| ClassificationResult.category_id := 1;
          ClassificationResult.category_name := "Unknown";
          ClassificationResult.confidence := lit_0_0;
          ClassificationResult.suggested_tags :=
            take 10
              (_extract_keywords
                 (listing_text (ClassificationRequest.title request)
                    (ClassificationRequest.description request)));
          ClassificationResult.suggested_price_range := None |},
     fs).
Proof.
  intros Hnone Hcat Htag.
  unfold classification.classify_product, classification.with_service,
    _load_classification_models, _build_classification_models.
  rewrite training_products_eq, Hnone, Hcat. simpl.
  assert (∀ self : ClassificationService,
            category_classifier self = None →
            classify_product self db (ClassificationRequest.title request)
              (ClassificationRequest.description request)
              (ClassificationRequest.images request)
            = {| ClassificationResult.category_id := 1;
                 ClassificationResult.category_name := "Unknown";
                 ClassificationResult.confidence := lit_0_0;
                 ClassificationResult.suggested_tags :=
                   take 10
                     (_extract_keywords
                        (listing_text (ClassificationRequest.title request)
                           (ClassificationRequest.description request)));
                 ClassificationResult.suggested_price_range := None |})
    as Hdegraded.
  { intros self Hself. unfold classify_product. rewrite Hself.
    cbv beta iota zeta. cbn [int_truthy].
    by rewrite generate_tags_no_category. }
  destruct (tag_model_file fs) as [| |m]; [|done|]; simpl;
    by rewrite Hdegraded.
Qed.
End EndpointFacts.

(** ** The further properties on the example catalogs *)

Lemma get_popular_products_ranked_witness :
  ∃ recs,
    get_popular_products (F := float) shop_db 2 = Ok recs
    ∧ length recs = (2 `min` length (active_products shop_db))%nat.
Proof.
  eexists. split; [vm_compute; reflexivity|].
  destruct (get_popular_products_ranked (F := float) shop_db 2 _
              ltac:(vm_compute; reflexivity)) as (Hlen & _).
  exact Hlen.
Defined.

Lemma get_category_recommendations_ranked_witness :
  ∃ recs,
    get_category_recommendations (F := float) shop_db 1 2 = Ok recs
    ∧ (length recs ≤ 2)%nat.
Proof.
  eexists. split; [vm_compute; reflexivity|].
  destruct (get_category_recommendations_ranked (F := float) shop_db 1 2 _
              ltac:(vm_compute; reflexivity)) as (Hlen & _).
  exact Hlen.
Defined.

Lemma get_new_arrivals_ranked_witness :
  ∃ recs,
    get_new_arrivals (F := float) shop_db 2 None = Ok recs
    ∧ (length recs ≤ 2)%nat.
Proof.
  eexists. split; [vm_compute; reflexivity|].
  destruct (get_new_arrivals_ranked (F := float) shop_db 2 None _
              ltac:(vm_compute; reflexivity)) as (Hlen & _).
  exact Hlen.
Defined.

Lemma get_trending_products_spec_witness :
  ∃ recs,
    get_trending_products (F := float) trending_db trending_now 10 None
    = Ok recs
    ∧ rec_ids recs = [1; 3]
    ∧ (length recs ≤ 10)%nat.
Proof.
  eexists. split; [vm_compute; reflexivity|].
  split; [vm_compute; reflexivity|].
  destruct (get_trending_products_spec (F := float) trending_db trending_now
              10 None _ ltac:(vm_compute; reflexivity)) as (Hlen & _).
  exact Hlen.
Defined.

Lemma merged_strategies_are_capped_witness :
  ∃ recs,
    get_personalized_recommendations shop_service shop_db 7 1 = Ok recs
    ∧ recs = [].
Proof.
  eexists. split; [vm_compute; reflexivity|].
  destruct (merged_strategies_are_capped shop_service shop_db 7 1 [])
    as (_ & Hblend).
  destruct Hblend as (_ & _ & Hone); [vm_compute; reflexivity|].
  symmetry. by apply Hone.
Defined.

Lemma get_similar_products_entries_witness :
  ∃ recs,
    get_similar_products shop_service shop_db 2 2 = Ok recs
    ∧ ∀ r, r ∈ recs →
           is_Some (products shop_db !! Recommendation.product_id r).
Proof.
  eexists. split; [vm_compute; reflexivity|]. intros r Hr.
  destruct (get_similar_products_entries shop_service shop_db 2 2 _
              ltac:(vm_compute; reflexivity) r Hr) as (p & _ & _ & _ & Hp & _).
  by rewrite Hp.
Defined.

Lemma _build_classification_models_trains_witness :
  training_products shop_db ≠ []
  ∧ ∃ texts labels,
      Forall2 (fun r text =>
                 text = listing_text (Product.title r.2)
                          (Product.description r.2))
        (training_products shop_db) texts
      ∧ Forall2 (fun r label => Product.category_id r.2 = Some label)
          (training_products shop_db) labels
      ∧ match fit texts labels with
        | Ok c =>
            ∃ self' fs',
              _build_classification_models no_classifier shop_db no_models
              = Ok (self', fs')
              ∧ category_classifier self' = Some c
              ∧ category_model_file fs' = Stored c
        | Raise e =>
            _build_classification_models no_classifier shop_db no_models
            = Raise e
        end.
Proof.
  split; [vm_compute; discriminate|].
  apply (_build_classification_models_trains (ext := example_external float)).
  vm_compute; discriminate.
Defined.

Lemma _build_classification_models_tag_model_witness :
  ∃ texts labels m,
    match fit texts labels with
    | Ok c =>
        _build_classification_models no_classifier shop_db no_models
        = Ok ({| category_classifier := Some c; tag_classifier := Some m |},
              {| category_model_file := Stored c;
                 tag_model_file := Stored m |})
    | Raise e =>
        _build_classification_models no_classifier shop_db no_models
        = Raise e
    end
    ∧ (length (TagModel.tags m) ≤ 50)%nat.
Proof.
  destruct (_build_classification_models_tag_model
              (ext := example_external float)
              no_classifier shop_db no_models
              (1, example_product "Tote" (Some ["bag"]) 1 (Some 1000)
                    active 5))
    as (texts & labels & m & _ & _ & Hbuild & Hlen & _).
  - apply list_elem_of_lookup_2 with 0%nat. vm_compute; reflexivity.
  - by exists "bag", [].
  - exists texts, labels, m. split; [exact Hbuild|exact Hlen].
Defined.

Lemma tagless_catalog_retrains_witness :
  ∃ texts labels,
    match fit (External := example_external float) texts labels with
    | Ok c =>
        let self' := {| category_classifier := Some c;
                        tag_classifier := None |} in
        let fs' := {| category_model_file := Stored c;
                      tag_model_file := Missing |} in
        _load_classification_models trending_db no_models = Ok (self', fs')
        ∧ _load_classification_models trending_db fs' = Ok (self', fs')
    | Raise e => _load_classification_models trending_db no_models = Raise e
    end.
Proof.
  destruct (tagless_catalog_retrains (ext := example_external float)
              trending_db no_models) as (texts & labels & _ & _ & Hload).
  - vm_compute; discriminate.
  - eapply Forall_impl;
      [|intros r Hr Ht; apply tagged_truthy in Ht; exact (Hr Ht)].
    vm_compute. repeat (constructor; [discriminate|]). constructor.
  - reflexivity.
  - discriminate.
  - exists texts, labels. exact Hload.
Defined.

Lemma _build_models_then_load_witness :
  ∃ result,
    _build_classification_models no_classifier shop_db no_models = Ok result
    ∧ _load_classification_models (ext := example_external float)
        trending_db result.2 = Ok result.
Proof.
  eexists. split; [vm_compute; reflexivity|].
  apply (_build_models_then_load (ext := example_external float)
           no_classifier shop_db trending_db no_models
           (1, example_product "Tote" (Some ["bag"]) 1 (Some 1000)
                 active 5)).
  - apply list_elem_of_lookup_2 with 0%nat. vm_compute; reflexivity.
  - by exists "bag", [].
  - vm_compute; reflexivity.
Defined.

Lemma similar_products_come_from_the_build_witness :
  let request :=
    {| RecommendationRequest.user_id := None;
       RecommendationRequest.product_id := Some 2;
       RecommendationRequest.category_id := None;
       RecommendationRequest.limit := 2 |} in
  let fs := (_build_vector_db shop_service shop_db no_files).2 in
  ∃ body,
    recommendations.get_product_recommendations (num := binary64) request
      trending_db fs = (body, fs)
    ∧ ∀ recs, body = Http200 recs →
        ∀ r, r ∈ recs → Recommendation.product_id r ≠ 2.
Proof.
  intros request fs.
  destruct (similar_products_come_from_the_build (num := binary64)
              shop_service shop_db no_files trending_db request 2)
    as (body & Hbody & Hids & _).
  - vm_compute; discriminate.
  - reflexivity.
  - reflexivity.
  - discriminate.
  - exists body. split; [exact Hbody|]. intros recs Hrecs r Hr.
    by destruct (Hids recs Hrecs r Hr) as (_ & Hne & _).
Defined.

Lemma unreadable_artifact_fails_every_request_witness :
  (∃ e, ∀ limit category_id,
      recommendations.get_new_arrivals (num := binary64) limit category_id
        shop_db unreadable_files
      = (Http500 "Failed to get new arrivals" e, unreadable_files))
  ∧ ∀ request,
      classification.auto_tag_product (ext := example_external float)
        request shop_db unreadable_models
      = (Http500 "Failed to generate tags" UnpicklingError,
         unreadable_models).
Proof.
  destruct (unreadable_artifact_fails_every_request (num := binary64)
              shop_db unreadable_files unreadable_models)
    as [Hindex Hmodels].
  split.
  - destruct Hindex as (e & _ & _ & Hnew & _).
    + left. split; [reflexivity|discriminate].
    + by exists e.
  - destruct Hmodels as (_ & Htag & _ & _); [by left|]. exact Htag.
Defined.

Lemma classification_cold_start_witness :
  let request :=
    {| ClassificationRequest.title := "Red Leather Wallet for Men";
       ClassificationRequest.description := None;
       ClassificationRequest.images := None |} in
  ∃ result,
    classification.classify_product (num := binary64) request draft_only_db
      no_models = (Http200 result, no_models)
    ∧ ClassificationResult.category_id result = 1
    ∧ ClassificationResult.suggested_tags result
      = ["red"; "leather"; "wallet"; "men"].
Proof.
  intros request. eexists. split.
  - apply (classification_cold_start (num := binary64));
      [vm_compute; reflexivity|reflexivity|discriminate].
  - split; [reflexivity|vm_compute; reflexivity].
Defined.


(** ** Recommendations from the purchase history *)

Section HistoryFacts.
Context {F : Type} {num : PyFloat F} {ext : External F}.
Implicit Types (self : RecommendationService) (db : DB).

Lemma dedup_loop_sublist seen (recs : list (Recommendation.t F)) :
  dedup_loop seen recs `sublist_of` recs.
Proof.
  revert seen. induction recs as [|r recs IH]; intros seen; simpl; [done|].
  destruct (decide _); [by apply sublist_cons|by apply sublist_skip].
Qed.

Lemma gather_similar_elem self db purchased_ids all r :
  gather_similar self db purchased_ids = Ok all → r ∈ all →
  ∃ bought similar,
    bought ∈ purchased_ids
    ∧ get_similar_products self db bought 5 = Ok similar
    ∧ r ∈ similar.
Proof.
  revert all. induction purchased_ids as [|pid l IH]; intros all Hall Hr.
  { injection Hall as <-. by apply elem_of_nil in Hr. }
  simpl in Hall.
  assert (∀ all', gather_similar self db l = Ok all' → r ∈ all' →
                  ∃ bought similar,
                    bought ∈ pid :: l
                    ∧ get_similar_products self db bought 5 = Ok similar
                    ∧ r ∈ similar) as Hrest.
  { intros all' Hall' Hr'.
    destruct (IH all' Hall' Hr') as (b & s & ? & ? & ?).
    exists b, s. split; [by right|done]. }
  destruct (dict_get pid _); [|by eapply Hrest].
  apply exc_bind_Ok in Hall as (similar & Hs & Hall).
  apply exc_bind_Ok in Hall as (more & Hm & [= <-]).
  apply elem_of_app in Hr as [Hr|Hr]; [|by eapply Hrest].
  exists pid, similar. split; [by left|done].
Qed.

(** A user with a purchase history is never recommended a product
    they bought: every entry is a similar product of one of their
    purchases, found by the similarity query with the limit 5, and is
    itself none of the purchases. *)
Theorem get_user_recommendations_excludes_purchases self db user_id limit
    recs :
  purchased_products db user_id ≠ [] →
  get_user_recommendations self db user_id limit = Ok recs →
  ∀ r, r ∈ recs →
       (Recommendation.product_id r ∉ purchased_products db user_id)
       ∧ Recommendation.reason r = "Similar product"
       ∧ ∃ bought similar,
           bought ∈ purchased_products db user_id
           ∧ get_similar_products self db bought 5 = Ok similar
           ∧ r ∈ similar.
Proof.
  intros Hne. unfold get_user_recommendations.
  destruct (purchased_products db user_id) as [|b bs] eqn:Hb; [done|].
  cbn [is_empty]. intros Hr r Hin.
  apply exc_bind_Ok in Hr as (similar & Hs & [= <-]).
  eapply elem_of_sublist in Hin; [|apply sublist_take].
  assert (Recommendation.product_id r
            ∈ rec_ids (dedup_loop (list_to_set (b :: bs)) similar)) as Hid.
  { unfold rec_ids. by apply list_elem_of_fmap_2. }
  apply dedup_loop_ids in Hid as [Hseen _].
  eapply elem_of_sublist in Hin; [|apply dedup_loop_sublist].
  destruct (gather_similar_elem _ _ _ _ _ Hs Hin)
    as (bought & sim & Hbought & Hsim & Hrsim).
  split_and!.
  - intros Hp. apply Hseen. by apply elem_of_list_to_set.
  - pose proof Hsim as Hsim'. unfold get_similar_products in Hsim'.
    destruct (dict_get bought _) as [emb|];
      [destruct (index self) as [rows|]|];
      try (injection Hsim' as <-; by apply elem_of_nil in Hrsim).
    apply exc_bind_Ok in Hsim' as (rs & Hrs & [= <-]).
    eapply elem_of_sublist in Hrsim; [|apply sublist_take].
    destruct (similar_loop_entries _ _ _ _ _ Hrs r Hrsim)
      as (p & label & _ & He & _).
    apply He.
  - by exists bought, sim.
Qed.
End HistoryFacts.

Lemma get_user_recommendations_excludes_purchases_witness :
  ∃ recs,
    purchased_products shop_db 7 = [2]
    ∧ get_user_recommendations shop_service shop_db 7 3 = Ok recs
    ∧ rec_ids recs = [1; 3; 4]
    ∧ ∀ r, r ∈ recs →
           Recommendation.product_id r ∉ purchased_products shop_db 7.
Proof.
  eexists. split; [vm_compute; reflexivity|].
  split; [vm_compute; reflexivity|]. split; [vm_compute; reflexivity|].
  intros r Hr.
  destruct (get_user_recommendations_excludes_purchases shop_service shop_db
              7 3 _ ltac:(vm_compute; discriminate)
              ltac:(vm_compute; reflexivity) r Hr) as (Hout & _).
  exact Hout.
Defined.
